(** * Automated test-suite generator: a shallow embedding

    The development follows [test.py] (test-case generator, executor and
    report statistics) and [web_tester.py] (the web front end).

    - Python values that travel through the untyped dictionaries of the
      program are values of [pyval]; a [dict] with string keys is a
      [gmap string pyval].
    - A Python exception is a value of [exn]; code that can raise returns a
      [result].
    - Code that talks to the browser, the clock, the file system or the logger
      is a tree of calls ([prog]) that a handler, standing for the outside
      world, answers one call at a time.  Every delegated call may either
      return or raise.
    - A Python float is the rational it denotes.  The arithmetic of the
      report statistics and the conversion of [time.sleep] round to binary64
      ([Float64.round64]); the difference of two clock readings is taken
      exactly. *)

From stdpp Require Import gmap strings list pretty.
From Stdlib Require Import QArith Qpower Lqa.

Set Warnings "-register-all".
Local Open Scope string_scope.
Local Open Scope list_scope.

(** ** Python values and exceptions *)

Module Py.

Inductive pyval : Type :=
| VNone
| VBool (b : bool)
| VInt (z : Z)
| VFloat (q : Q)
| VStr (s : string)
| VList (l : list pyval)
| VDict (d : gmap string pyval).

(** The classes below are all subclasses of Python's [Exception]; this is
    what both the interpreter and the WebDriver library raise. *)
Inductive exn_class : Type :=
| KeyError | TypeError | AttributeError | ValueError | OverflowError | OSError
| NoSuchElementException | TimeoutException | WebDriverException
| BadRequestKeyError | NotFound
| OtherException.

#[global] Instance exn_class_eq_dec : EqDecision exn_class.
Proof. solve_decision. Defined.

(** [exn_str e] is [str(e)]. *)
Record exn : Type := Exn { exn_cls : exn_class; exn_str : string }.

Inductive result (A : Type) : Type :=
| Ok (a : A)
| Raised (e : exn).
Arguments Ok {A} a.
Arguments Raised {A} e.

#[global] Instance result_ret : MRet result := fun A a => Ok a.
#[global] Instance result_bind : MBind result := fun A B f r =>
  match r with Ok a => f a | Raised e => Raised e end.

Definition is_ok {A} (r : result A) : bool :=
  match r with Ok _ => true | Raised _ => false end.

Fixpoint mapM {A B} (f : A -> result B) (l : list A) : result (list B) :=
  match l with
  | [] => Ok []
  | a :: l' => b ← f a; bs ← mapM f l'; Ok (b :: bs)
  end.

(** [type(v).__name__] *)
Definition type_name (v : pyval) : string :=
  match v with
  | VNone => "NoneType" | VBool _ => "bool" | VInt _ => "int"
  | VFloat _ => "float" | VStr _ => "str" | VList _ => "list"
  | VDict _ => "dict"
  end.

(** [repr] of a value is left to the interpreter: the order of a dict's keys
    and the shortest decimal form of a float are not part of [pyval]. *)
Class Repr := py_repr : pyval -> string.

(** [str(v)], as an f-string computes it. *)
Definition py_str `{Repr} (v : pyval) : string :=
  match v with VStr s => s | _ => py_repr v end.

(** [d[k]] on a dict *)
Definition dict_getitem (d : gmap string pyval) (k : string) : result pyval :=
  match d !! k with
  | Some v => Ok v
  | None => Raised (Exn KeyError ("'" +:+ k +:+ "'"))
  end.

(** [d.get(k, dflt)] on a dict *)
Definition dict_get (d : gmap string pyval) (k : string) (dflt : pyval) : pyval :=
  default dflt (d !! k).

(** [v[k]] with a string key [k], on any value *)
Definition py_getitem (v : pyval) (k : string) : result pyval :=
  match v with
  | VDict d => dict_getitem d k
  | VStr _ => Raised (Exn TypeError "string indices must be integers, not 'str'")
  | VList _ =>
      Raised (Exn TypeError "list indices must be integers or slices, not str")
  | _ => Raised (Exn TypeError ("'" +:+ type_name v +:+ "' object is not subscriptable"))
  end.

(** [v.get(k, dflt)] on any value *)
Definition py_get (v : pyval) (k : string) (dflt : pyval) : result pyval :=
  match v with
  | VDict d => Ok (dict_get d k dflt)
  | _ => Raised (Exn AttributeError
                   ("'" +:+ type_name v +:+ "' object has no attribute 'get'"))
  end.

(** A string is held as its UTF-8 bytes.  Its characters are the groups of
    one leading byte and the continuation bytes (10xxxxxx) that follow it. *)
Definition continuation (c : Ascii.ascii) : bool :=
  let n := Ascii.nat_of_ascii c in (128 <=? n)%nat && (n <? 192)%nat.

Definition code_points (s : string) : list string :=
  let step c acc :=
    let '(pending, groups) := acc in
    if continuation c then (String c pending, groups)
    else (EmptyString, String c pending :: groups) in
  let '(pending, groups) :=
    foldr step (EmptyString, []) (String.list_ascii_of_string s) in
  match pending with
  | EmptyString => groups
  | _ => pending :: groups
  end.

Definition chars (s : string) : list pyval := VStr <$> code_points s.

(** The elements [for x in v] runs over.  A dict yields its keys; their
    order is the map's, not the insertion order. *)
Definition py_iter (v : pyval) : result (list pyval) :=
  match v with
  | VList l => Ok l
  | VStr s => Ok (chars s)
  | VDict d => Ok (VStr <$> (map_to_list d).*1)
  | _ => Raised (Exn TypeError ("'" +:+ type_name v +:+ "' object is not iterable"))
  end.

(** [v == s] for a string literal [s] *)
Definition eq_str (v : pyval) (s : string) : bool :=
  match v with VStr t => String.eqb t s | _ => false end.

(** Keys of a dict built at run time: hashable values, compared with [==]
    ([True == 1 == 1.0]). *)
Definition hashable (v : pyval) : bool :=
  match v with VList _ | VDict _ => false | _ => true end.

Definition py_num (v : pyval) : option Q :=
  match v with
  | VBool b => Some (inject_Z (Z.b2z b))
  | VInt z => Some (inject_Z z)
  | VFloat q => Some q
  | _ => None
  end.

Definition key_eqb (a b : pyval) : bool :=
  match a, b with
  | VNone, VNone => true
  | VStr s, VStr t => String.eqb s t
  | _, _ =>
      match py_num a, py_num b with
      | Some x, Some y => Qeq_bool x y
      | _, _ => false
      end
  end.

(** A dict with computed keys, in insertion order. *)
Definition kdict : Type := list (pyval * pyval).

Fixpoint kdict_set (d : kdict) (k v : pyval) : kdict :=
  match d with
  | [] => [(k, v)]
  | (k', v') :: d' =>
      if key_eqb k' k then (k', v) :: d' else (k', v') :: kdict_set d' k v
  end.

Fixpoint kdict_lookup (d : kdict) (k : pyval) : option pyval :=
  match d with
  | [] => None
  | (k', v') :: d' => if key_eqb k' k then Some v' else kdict_lookup d' k
  end.

(** [d[k] = v] *)
Definition kdict_setitem (d : kdict) (k v : pyval) : result kdict :=
  if hashable k then Ok (kdict_set d k v)
  else Raised (Exn TypeError ("unhashable type: '" +:+ type_name k +:+ "'")).

(** [d[k]] *)
Definition kdict_getitem `{Repr} (d : kdict) (k : pyval) : result pyval :=
  if hashable k then
    match kdict_lookup d k with
    | Some v => Ok v
    | None => Raised (Exn KeyError (py_repr k))
    end
  else Raised (Exn TypeError ("unhashable type: '" +:+ type_name k +:+ "'")).

End Py.
Export Py.

(** ** Binary64 arithmetic

    A finite double is a rational [m * 2^e] with [|m| < 2^53] and
    [-1074 <= e].  An operation of the interpreter on doubles is the exact
    operation followed by [round64], rounding to the nearest double, to the
    even one of two.  The exponent is not bounded above: no result of the
    program comes near the largest double. *)

Module Float64.

Definition pow2 (k : Z) : Q := 2 ^ k.

(** The integer nearest to [s], the even one of two. *)
Definition rne (s : Q) : Z :=
  let d := Zpos (Qden s) in
  let q := (Qnum s / d)%Z in
  match (2 * (Qnum s mod d) ?= d)%Z with
  | Lt => q
  | Gt => (q + 1)%Z
  | Eq => if Z.even q then q else (q + 1)%Z
  end.

(** [floor (log2 x)] for a positive [x]. *)
Definition ilog2 (x : Q) : Z :=
  let k := (Z.log2 (Qnum x) - Z.log2 (Zpos (Qden x)))%Z in
  if Qle_bool (pow2 k) x then k else (k - 1)%Z.

(** The exponent of the last binary digit kept: 53 digits, and none below
    2^-1074. *)
Definition fexp (x : Q) : Z := Z.max (ilog2 x - 52) (-1074).

Definition round_pos (x : Q) : Q :=
  let e := fexp x in inject_Z (rne (x * pow2 (- e))) * pow2 e.

Definition round64 (x : Q) : Q :=
  let x := Qred x in
  Qred match Qnum x with
       | Z0 => 0
       | Zpos _ => round_pos x
       | Zneg _ => - round_pos (- x)
       end.

End Float64.

(** ** The two records of the data model ([test.py], lines 20-39) *)

Record TestCase : Type := mkTestCase {
  name : string;
  url : pyval;
  actions : list (gmap string pyval);
  expected_results : list (gmap string pyval);
  test_type : string;       (* default "functional" *)
  priority : string;        (* default "medium" *)
  tags : option (list string)  (* default None *)
}.

Record TestResult : Type := mkTestResult {
  test_name : string;
  status : string;          (* PASS, FAIL, SKIP *)
  execution_time : Q;
  error_message : string;   (* default "" *)
  screenshot_path : string; (* default "" *)
  timestamp : string        (* default "" *)
}.

(** ** TestCaseGenerator *)

Module TestCaseGenerator.
Section Generator.
Context `{Repr}.

(** The test appended by one turn of the loop over [required_fields]
    (lines 50-63). *)
Definition required_field_test (form_config : gmap string pyval) (field : pyval)
  : result TestCase :=
  nm ← py_getitem field "name";
  u ← dict_getitem form_config "url";
  sel ← py_getitem field "selector";
  submit ← dict_getitem form_config "submit_button";
  err ← py_get field "error_selector" (VStr ("#" +:+ py_str nm +:+ "-error"));
  Ok {| name := "test_required_field_" +:+ py_str nm;
        url := u;
        actions := [ {[ "action" := VStr "clear_field"; "selector" := sel ]};
                     {[ "action" := VStr "click"; "selector" := submit ]} ];
        expected_results := [ {[ "type" := VStr "element_visible"; "selector" := err ]} ];
        test_type := "validation";
        priority := "medium";
        tags := Some ["form"; "validation"; "required"] |}.

(** The email and phone branches share their shape (lines 68-95). *)
Definition typed_field_test (kind bad_value : string)
    (form_config : gmap string pyval) (field : pyval) : result TestCase :=
  nm ← py_getitem field "name";
  u ← dict_getitem form_config "url";
  sel ← py_getitem field "selector";
  submit ← dict_getitem form_config "submit_button";
  err ← py_get field "error_selector" (VStr ("#" +:+ py_str nm +:+ "-error"));
  Ok {| name := "test_" +:+ kind +:+ "_validation_" +:+ py_str nm;
        url := u;
        actions := [ {[ "action" := VStr "input"; "selector" := sel;
                        "value" := VStr bad_value ]};
                     {[ "action" := VStr "click"; "selector" := submit ]} ];
        expected_results := [ {[ "type" := VStr "element_visible"; "selector" := err ]} ];
        test_type := "validation";
        priority := "medium";
        tags := Some ["form"; "validation"; kind] |}.

(** The loop over [validation_fields] (lines 66-95): a field whose type is
    neither email nor phone adds nothing. *)
Fixpoint validation_tests (form_config : gmap string pyval) (fields : list pyval)
  : result (list TestCase) :=
  match fields with
  | [] => Ok []
  | field :: rest =>
      ty ← py_getitem field "type";
      if eq_str ty "email" then
        t ← typed_field_test "email" "invalid-email" form_config field;
        ts ← validation_tests form_config rest;
        Ok (t :: ts)
      else if eq_str ty "phone" then
        t ← typed_field_test "phone" "123" form_config field;
        ts ← validation_tests form_config rest;
        Ok (t :: ts)
      else validation_tests form_config rest
  end.

(** The dict comprehension of lines 98-99. *)
Fixpoint valid_data_of (fields : list pyval) (acc : kdict) : result kdict :=
  match fields with
  | [] => Ok acc
  | field :: rest =>
      k ← py_getitem field "name";
      v ← py_get field "valid_value" (VStr "test");
      acc' ← kdict_setitem acc k v;
      valid_data_of rest acc'
  end.

(** One element of the list comprehension of lines 101-102. *)
Definition input_action (valid_data : kdict) (field : pyval)
  : result (gmap string pyval) :=
  sel ← py_getitem field "selector";
  k ← py_getitem field "name";
  v ← kdict_getitem valid_data k;
  Ok {[ "action" := VStr "input"; "selector" := sel; "value" := v ]}.

Definition generate_form_validation_tests (form_config : gmap string pyval)
  : result (list TestCase) :=
  (* Required field validation *)
  required ← py_iter (dict_get form_config "required_fields" (VList []));
  tests1 ← mapM (required_field_test form_config) required;
  (* Data type validation *)
  validation ← py_iter (dict_get form_config "validation_fields" (VList []));
  tests2 ← validation_tests form_config validation;
  (* Successful form submission *)
  all1 ← py_iter (dict_get form_config "all_fields" (VList []));
  valid_data ← valid_data_of all1 [];
  all2 ← py_iter (dict_get form_config "all_fields" (VList []));
  acts ← mapM (input_action valid_data) all2;
  submit ← dict_getitem form_config "submit_button";
  u ← dict_getitem form_config "url";
  Ok (tests1 ++ tests2 ++
      [ {| name := "test_successful_form_submission";
           url := u;
           actions := acts ++ [ {[ "action" := VStr "click"; "selector" := submit ]} ];
           expected_results :=
             [ {[ "type" := VStr "url_contains";
                  "value" := dict_get form_config "success_url" (VStr "/success") ]} ];
           test_type := "functional";
           priority := "medium";
           tags := Some ["form"; "success"] |} ]).

End Generator.

(** [tag in test.tags] *)
Definition tagged (tag : string) (t : TestCase) : bool :=
  match tags t with
  | Some l => bool_decide (tag ∈ l)
  | None => false
  end.

End TestCaseGenerator.

(** ** Programs that call the outside world *)

Module Effects.

Definition drv : Type := nat.   (* a WebDriver session *)
Definition elem : Type := nat.  (* a WebElement *)

(** The expected conditions handed to [WebDriverWait(...).until]. *)
Inductive condition : Type :=
| presence_of_element_located
| element_to_be_clickable
| visibility_of_element_located.

(** Calls delegated to the WebDriver library, the file system, the process
    launcher and the web framework.  Each one returns a value of the index
    type or raises. *)
Inductive Op : Type -> Type :=
| Chrome (arguments : list string) : Op drv
| ImplicitlyWait (d : drv) (t : Z) : Op unit
| Get (d : drv) (u : pyval) : Op unit
| WaitUntil (d : drv) (t : Z) (c : condition) (selector : pyval) : Op elem
| FindElement (d : drv) (selector : pyval) : Op elem
| Clear (e : elem) : Op unit
| SendKeys (e : elem) (v : pyval) : Op unit
| Click (e : elem) : Op unit
| IsDisplayed (e : elem) : Op bool
| Text (e : elem) : Op string
| CurrentUrl (d : drv) : Op string
| Title (d : drv) : Op string
| SaveScreenshot (d : drv) (path : string) : Op bool
| Quit (d : drv) : Op unit
| Makedirs (path : string) : Op unit
| WriteFile (path content : string) : Op unit
| Getcwd : Op string
| SubprocessRun (argv : list string) : Op Z
| SendFromDirectory (directory path : string) : Op string.

(** Platform-dependent [os.path.join], two components at a time. *)
Class OsPath := os_path_join : string -> string -> string.

Inductive time_format : Type :=
| isoformat
| strftime (fmt : string).

Inductive log_level : Type := INFO | ERROR.

(** Calls that always return: the clock, [time.sleep] on a duration, the
    logger (whose handlers swallow their own errors) and [os.path.exists]. *)
Inductive SysOp : Type -> Type :=
| TimeTime : SysOp Q
| Now (f : time_format) : SysOp string
| Sleep (seconds : Q) : SysOp unit
| Log (l : log_level) (msg : string) : SysOp unit
| PathExists (path : string) : SysOp bool.

(** Bookkeeping of a method call of the executor and the value it returned.
    A note has no counterpart in the source other than the call itself. *)
Inductive note : Type :=
| execute_action_returned (action : gmap string pyval) (b : bool)
| verify_result_returned (expected : gmap string pyval) (b : bool).

Inductive prog (A : Type) : Type :=
| Ret (a : A)
| Raise (e : exn)
| Call {X : Type} (op : Op X) (k : result X -> prog A)
| Sys {X : Type} (op : SysOp X) (k : X -> prog A)
| Note (n : note) (k : prog A).
Arguments Ret {A} a.
Arguments Raise {A} e.
Arguments Call {A X} op k.
Arguments Sys {A X} op k.
Arguments Note {A} n k.

Fixpoint bind {A B} (p : prog A) (f : A -> prog B) : prog B :=
  match p with
  | Ret a => f a
  | Raise e => Raise e
  | Call op k => Call op (fun r => bind (k r) f)
  | Sys op k => Sys op (fun x => bind (k x) f)
  | Note n k => Note n (bind k f)
  end.

#[global] Instance prog_ret : MRet prog := fun A a => Ret a.
#[global] Instance prog_bind : MBind prog := fun A B f p => bind p f.

(** A delegated call: its exception, if any, is raised at the call site. *)
Definition call {X} (op : Op X) : prog X :=
  Call op (fun r => match r with Ok x => Ret x | Raised e => Raise e end).

Definition sys {X} (op : SysOp X) : prog X := Sys op Ret.

Definition note_that (n : note) : prog unit := Note n (Ret tt).

(** A pure computation that may raise. *)
Definition lift {A} (r : result A) : prog A :=
  match r with Ok a => Ret a | Raised e => Raise e end.

(** [try: p  except Exception as e: h e] *)
Fixpoint try_except {A} (p : prog A) (h : exn -> prog A) : prog A :=
  match p with
  | Ret a => Ret a
  | Raise e => h e
  | Call op k => Call op (fun r => try_except (k r) h)
  | Sys op k => Sys op (fun x => try_except (k x) h)
  | Note n k => Note n (try_except k h)
  end.

(** [try: p  except cls: h]: other exceptions pass through. *)
Definition try_except_class {A} (cls : exn_class) (p : prog A) (h : prog A)
  : prog A :=
  try_except p (fun e => if decide (exn_cls e = cls) then h else Raise e).

(** [try: p  finally: ...]: the finally block runs on both exits.  On a
    normal exit it may update the value on its way out ([fin]); on an
    exception it runs ([fin_exn]) and the exception goes on. *)
Fixpoint try_finally {A} (p : prog A) (fin : A -> prog A) (fin_exn : prog unit)
  : prog A :=
  match p with
  | Ret a => fin a
  | Raise e => bind fin_exn (fun _ => Raise e)
  | Call op k => Call op (fun r => try_finally (k r) fin fin_exn)
  | Sys op k => Sys op (fun x => try_finally (k x) fin fin_exn)
  | Note n k => Note n (try_finally k fin fin_exn)
  end.

(** *** Running a program against the outside world *)

Inductive event : Type :=
| EvCall {X : Type} (op : Op X) (r : result X)
| EvSys {X : Type} (op : SysOp X) (x : X)
| EvNote (n : note).

(** The outside world: a state [W] and its answer to every call. *)
Record handler (W : Type) : Type := Handler {
  on_call : forall X, Op X -> W -> result X * W;
  on_sys : forall X, SysOp X -> W -> X * W
}.
Arguments Handler {W} on_call on_sys.
Arguments on_call {W} h {X} op w.
Arguments on_sys {W} h {X} op w.

Record outcome (A W : Type) : Type := Outcome {
  value : result A;
  world : W;
  trace : list event
}.
Arguments Outcome {A W} value world trace.
Arguments value {A W} o.
Arguments world {A W} o.
Arguments trace {A W} o.

Definition logged {A W} (ev : event) (o : outcome A W) : outcome A W :=
  Outcome (value o) (world o) (ev :: trace o).

Fixpoint run {A W} (h : handler W) (p : prog A) (w : W) : outcome A W :=
  match p with
  | Ret a => Outcome (Ok a) w []
  | Raise e => Outcome (Raised e) w []
  | Call op k =>
      let '(r, w') := on_call h op w in logged (EvCall op r) (run h (k r) w')
  | Sys op k =>
      let '(x, w') := on_sys h op w in logged (EvSys op x) (run h (k x) w')
  | Note n k => logged (EvNote n) (run h k w)
  end.

(** The delegated calls of a trace, and the notes of a trace. *)
Definition is_call (ev : event) : bool :=
  match ev with EvCall _ _ => true | _ => false end.

Definition notes (tr : list event) : list note :=
  omap (fun ev => match ev with EvNote n => Some n | _ => None end) tr.

End Effects.
Export Effects.

(** ** TestExecutor *)

Module TestExecutor.

(** The attributes of an executor ([__init__], lines 155-160); the logger is
    the [Log] call. *)
Record t : Type := mk {
  timeout : Z;
  driver : option drv;
  headless : bool;
  results : list TestResult
}.

Definition init (headless : bool) (timeout : Z) : t :=
  mk timeout None headless [].

Definition set_driver (d : drv) (self : t) : t :=
  mk (timeout self) (Some d) (headless self) (results self).

Definition append_result (r : TestResult) (self : t) : t :=
  mk (timeout self) (driver self) (headless self) (results self ++ [r]).

(** Attribute stores on a [TestResult]. *)
Definition set_status (s : string) (r : TestResult) : TestResult :=
  mkTestResult (test_name r) s (execution_time r) (error_message r)
    (screenshot_path r) (timestamp r).

Definition set_execution_time (q : Q) (r : TestResult) : TestResult :=
  mkTestResult (test_name r) (status r) q (error_message r)
    (screenshot_path r) (timestamp r).

Definition set_error_message (s : string) (r : TestResult) : TestResult :=
  mkTestResult (test_name r) (status r) (execution_time r) s
    (screenshot_path r) (timestamp r).

Definition set_screenshot_path (s : string) (r : TestResult) : TestResult :=
  mkTestResult (test_name r) (status r) (execution_time r) (error_message r)
    s (timestamp r).

(** [s.lower()] on the ASCII letters; every other byte is kept.  This is
    [str.lower] on ASCII text, which the statements that depend on it
    assume. *)
Definition lower_char (c : Ascii.ascii) : Ascii.ascii :=
  let n := Ascii.nat_of_ascii c in
  if (65 <=? n)%nat && (n <=? 90)%nat then Ascii.ascii_of_nat (n + 32) else c.

Fixpoint lower (s : string) : string :=
  match s with
  | EmptyString => EmptyString
  | String c s' => String (lower_char c) (lower s')
  end.

(** [t in s] on strings *)
Definition substring_of (t s : string) : bool :=
  match String.index 0 t s with Some _ => true | None => false end.

(** [v in s] where [s] is a string *)
Definition py_in (v : pyval) (s : string) : result bool :=
  match v with
  | VStr t => Ok (substring_of t s)
  | _ => Raised (Exn TypeError
           ("'in <string>' requires string as left operand, not " +:+ type_name v))
  end.

(** [v.lower()] *)
Definition py_lower (v : pyval) : result string :=
  match v with
  | VStr t => Ok (lower t)
  | _ => Raised (Exn AttributeError
           ("'" +:+ type_name v +:+ "' object has no attribute 'lower'"))
  end.

(** [time.sleep] first converts its argument to a signed 64-bit count of
    nanoseconds: an int is multiplied by 10^9; a float is multiplied by 10^9
    in binary64 and rounded away from zero to an integer, which does not
    change whether it fits, the doubles of that size being integers. *)
Definition int_overflows (z : Z) : bool :=
  (z * 10 ^ 9 <? - 2 ^ 63)%Z || (2 ^ 63 - 1 <? z * 10 ^ 9)%Z.

Definition float_overflows (q : Q) : bool :=
  let d := Float64.round64 (q * inject_Z (10 ^ 9)) in
  negb (Qle_bool (- inject_Z (2 ^ 63)) d) || Qle_bool (inject_Z (2 ^ 63)) d.

#[global] Arguments int_overflows : simpl never.
#[global] Arguments float_overflows : simpl never.

(** [time.sleep(v)]: the conversion fails for a value that is not a number or
    is out of range; a negative duration is refused next; any other sleeps.
    (The text of the overflow error varies with the interpreter.  Some
    platforms refuse long sleeps well inside the range, the shortest limit
    being the 4294967 seconds of older interpreters on Windows; the
    statements about sleeping stay below it.) *)
Definition time_sleep (v : pyval) : prog unit :=
  let negative := Raise (Exn ValueError "sleep length must be non-negative") in
  let overflow :=
    Raise (Exn OverflowError "timestamp too large to convert to C _PyTime_t") in
  match v with
  | VBool b => sys (Sleep (inject_Z (Z.b2z b)))
  | VInt z =>
      if int_overflows z then overflow
      else if (z <? 0)%Z then negative else sys (Sleep (inject_Z z))
  | VFloat q =>
      if float_overflows q then overflow
      else if Qle_bool 0 q then sys (Sleep q) else negative
  | _ => Raise (Exn TypeError
           ("'" +:+ type_name v +:+ "' object cannot be interpreted as an integer"))
  end.

Section Executor.
Context `{Repr} `{OsPath}.

(** [self.driver.attr ...]: the attribute lookup fails on [None]. *)
Definition with_driver {A} (self : t) (attr : string) (f : drv -> prog A)
  : prog A :=
  match driver self with
  | Some d => f d
  | None => Raise (Exn AttributeError
              ("'NoneType' object has no attribute '" +:+ attr +:+ "'"))
  end.

(** [WebDriverWait(self.driver, t).until(c((By.CSS_SELECTOR, selector)))]:
    the wait object is built from any driver, and [until] reaches for
    [find_element] on it. *)
Definition wait_until (self : t) (t : Z) (c : condition) (selector : pyval)
  : prog elem :=
  with_driver self "find_element" (fun d => call (WaitUntil d t c selector)).

(** Lines 174-185.  Returns the executor with its [driver] attribute set. *)
Definition setup_driver (self : t) : prog t :=
  let options :=
    (if headless self then ["--headless"] else []) ++
    ["--no-sandbox"; "--disable-dev-shm-usage"; "--window-size=1920,1080"] in
  d ← call (Chrome options);
  let self := set_driver d self in
  call (ImplicitlyWait d (timeout self));;
  Ret self.

(** Lines 187-214. *)
Definition execute_action (self : t) (action : gmap string pyval) : prog bool :=
  try_except
    (k1 ← lift (dict_getitem action "action");
     if eq_str k1 "input" then
       sel ← lift (dict_getitem action "selector");
       element ← wait_until self (timeout self) presence_of_element_located sel;
       call (Clear element);;
       v ← lift (dict_getitem action "value");
       call (SendKeys element v);;
       Ret true
     else
     k2 ← lift (dict_getitem action "action");
     if eq_str k2 "click" then
       sel ← lift (dict_getitem action "selector");
       element ← wait_until self (timeout self) element_to_be_clickable sel;
       call (Click element);;
       Ret true
     else
     k3 ← lift (dict_getitem action "action");
     if eq_str k3 "clear_field" then
       element ← with_driver self "find_element" (fun d =>
                   sel ← lift (dict_getitem action "selector");
                   call (FindElement d sel));
       call (Clear element);;
       Ret true
     else
     k4 ← lift (dict_getitem action "action");
     if eq_str k4 "wait" then
       time_sleep (dict_get action "time" (VInt 1));;
       Ret true
     else
       Ret true)
    (fun e =>
       sys (Log ERROR ("Action failed: " +:+ py_repr (VDict action) +:+ " - "
                       +:+ exn_str e));;
       Ret false).

(** Lines 216-246. *)
Definition verify_result (self : t) (expected : gmap string pyval) : prog bool :=
  try_except
    (k1 ← lift (dict_getitem expected "type");
     if eq_str k1 "element_visible" then
       sel ← lift (dict_getitem expected "selector");
       wait_until self 5 visibility_of_element_located sel;;
       Ret true
     else
     k2 ← lift (dict_getitem expected "type");
     if eq_str k2 "element_not_visible" then
       try_except_class NoSuchElementException
         (element ← with_driver self "find_element" (fun d =>
                      sel ← lift (dict_getitem expected "selector");
                      call (FindElement d sel));
          shown ← call (IsDisplayed element);
          Ret (negb shown))
         (Ret true)
     else
     k3 ← lift (dict_getitem expected "type");
     if eq_str k3 "url_contains" then
       v ← lift (dict_getitem expected "value");
       current_url ← with_driver self "current_url" (fun d => call (CurrentUrl d));
       lift (py_in v current_url)
     else
     k4 ← lift (dict_getitem expected "type");
     if eq_str k4 "title_contains" then
       v ← lift (dict_getitem expected "value");
       needle ← lift (py_lower v);
       title ← with_driver self "title" (fun d => call (Title d));
       Ret (substring_of needle (lower title))
     else
     k5 ← lift (dict_getitem expected "type");
     if eq_str k5 "text_contains" then
       element ← with_driver self "find_element" (fun d =>
                   sel ← lift (dict_getitem expected "selector");
                   call (FindElement d sel));
       v ← lift (dict_getitem expected "value");
       text ← call (Text element);
       lift (py_in v text)
     else
       Ret false)
    (fun e =>
       sys (Log ERROR ("Verification failed: " +:+ py_repr (VDict expected)
                       +:+ " - " +:+ exn_str e));;
       Ret false).

(** Lines 248-262. *)
Definition take_screenshot (self : t) (test_name : string) : prog string :=
  try_except
    (let screenshots_dir := "screenshots" in
     call (Makedirs screenshots_dir);;
     stamp ← sys (Now (strftime "%Y%m%d_%H%M%S"));
     let filename := test_name +:+ "_" +:+ stamp +:+ ".png" in
     let filepath := os_path_join screenshots_dir filename in
     with_driver self "save_screenshot" (fun d => call (SaveScreenshot d filepath));;
     Ret filepath)
    (fun e =>
       sys (Log ERROR ("Screenshot failed: " +:+ exn_str e));;
       Ret "").

(** Lines 266-272: the clock reading and the record as it is created. *)
Definition new_result (test_case : TestCase) : prog (Q * TestResult) :=
  start_time ← sys TimeTime;
  stamp ← sys (Now isoformat);
  Ret (start_time,
       {| test_name := name test_case;
          status := "FAIL";
          execution_time := 0;
          error_message := "";
          screenshot_path := "";
          timestamp := stamp |}).

(** The loop of lines 281-285.  [Some r] is the early [return r]; [None]
    falls through to the code after the loop. *)
Fixpoint run_actions (self : t) (test_case : TestCase) (result : TestResult)
    (todo : list (gmap string pyval)) : prog (option TestResult) :=
  match todo with
  | [] => Ret None
  | action :: rest =>
      ok ← execute_action self action;
      note_that (execute_action_returned action ok);;
      if negb ok then
        let result :=
          set_error_message ("Action failed: " +:+ py_repr (VDict action)) result in
        path ← take_screenshot self (name test_case);
        Ret (Some (set_screenshot_path path result))
      else run_actions self test_case result rest
  end.

(** The loop of lines 288-292. *)
Fixpoint run_verifications (self : t) (test_case : TestCase) (result : TestResult)
    (todo : list (gmap string pyval)) : prog (option TestResult) :=
  match todo with
  | [] => Ret None
  | expected :: rest =>
      ok ← verify_result self expected;
      note_that (verify_result_returned expected ok);;
      if negb ok then
        let result :=
          set_error_message ("Verification failed: " +:+ py_repr (VDict expected))
            result in
        path ← take_screenshot self (name test_case);
        Ret (Some (set_screenshot_path path result))
      else run_verifications self test_case result rest
  end.

(** The [try] block of lines 274-295. *)
Definition test_body (self : t) (test_case : TestCase) (result : TestResult)
  : prog TestResult :=
  sys (Log INFO ("Executing test: " +:+ name test_case));;
  (* Navigate to URL *)
  with_driver self "get" (fun d => call (Get d (url test_case)));;
  (* Execute actions *)
  r1 ← run_actions self test_case result (actions test_case);
  match r1 with
  | Some r => Ret r
  | None =>
      (* Verify results *)
      r2 ← run_verifications self test_case result (expected_results test_case);
      match r2 with
      | Some r => Ret r
      | None =>
          let result := set_status "PASS" result in
          sys (Log INFO ("Test passed: " +:+ name test_case));;
          Ret result
      end
  end.

(** The [except] block of lines 297-300.  Nothing in the [try] block can
    raise after it has stored into the record, so the handler starts from
    the record as the [try] block received it. *)
Definition test_failed (self : t) (test_case : TestCase) (result : TestResult)
    (e : exn) : prog TestResult :=
  let result := set_error_message (exn_str e) result in
  path ← take_screenshot self (name test_case);
  let result := set_screenshot_path path result in
  sys (Log ERROR ("Test failed: " +:+ name test_case +:+ " - " +:+ exn_str e));;
  Ret result.

(** Lines 274-305, from the record just created on. *)
Definition run_test (self : t) (test_case : TestCase) (start_time : Q)
    (result : TestResult) : prog TestResult :=
  try_finally
    (try_except (test_body self test_case result)
                (test_failed self test_case result))
    (fun result =>
       now ← sys TimeTime;
       Ret (set_execution_time (now - start_time)%Q result))
    (sys TimeTime;; Ret tt).

(** Lines 264-305. *)
Definition execute_test (self : t) (test_case : TestCase) : prog TestResult :=
  '(start_time, result) ← new_result test_case;
  run_test self test_case start_time result.

(** The loop of lines 313-319, with the local list [results] and the
    executor as they stand. *)
Fixpoint suite_loop (self : t) (results : list TestResult)
    (test_cases : list TestCase) : prog (t * list TestResult) :=
  match test_cases with
  | [] => Ret (self, results)
  | test_case :: rest =>
      result ← execute_test self test_case;
      let results := results ++ [result] in
      let self := append_result result self in
      (* Add small delay between tests *)
      sys (Sleep 1);;
      suite_loop self results rest
  end.

(** [if self.driver: self.driver.quit()] *)
Definition quit_driver (self : t) : prog unit :=
  match driver self with
  | Some d => call (Quit d)
  | None => Ret tt
  end.

(** Lines 307-325.  The value is the executor after the run together with
    the returned list. *)
Definition execute_test_suite (self : t) (test_cases : list TestCase)
  : prog (t * list TestResult) :=
  self ← setup_driver self;
  try_finally (suite_loop self [] test_cases)
    (fun out => quit_driver self;; Ret out)
    (quit_driver self).

End Executor.
End TestExecutor.

(** ** ReportGenerator *)

Module ReportGenerator.

(** [len([r for r in results if r.status == s])] *)
Definition count_status (s : string) (results : list TestResult) : nat :=
  length (filter (fun r => status r = s) results).

(** The built-in [sum] over floats.  How the running total is rounded
    depends on the interpreter (one rounding for each addition, or the
    compensated summation of later versions), so the function is a
    parameter. *)
Class FloatSum := float_sum : list Q -> Q.

Definition of_len (n : nat) : Q := inject_Z (Z.of_nat n).

(** [a / b * 100] on two lengths: the true division of two ints gives the
    double nearest to the quotient, and the product with 100 is rounded
    again. *)
Definition percentage (a b : nat) : Q :=
  Float64.round64 (Float64.round64 (of_len a / of_len b) * 100).

Section Summary.
Context `{FloatSum}.

(** [sum(r.execution_time for r in results)] *)
Definition total_time (results : list TestResult) : Q :=
  float_sum (execution_time <$> results).

(** Lines 428-446. *)
Definition generate_summary_stats (results : list TestResult)
  : gmap string pyval :=
  match results with
  | [] => ∅
  | _ =>
      let total_time := total_time results in
      let avg_time := Float64.round64 (total_time / of_len (length results)) in
      {[ "total_tests" := VInt (Z.of_nat (length results));
         "passed_tests" := VInt (Z.of_nat (count_status "PASS" results));
         "failed_tests" := VInt (Z.of_nat (count_status "FAIL" results));
         "total_execution_time" := VFloat total_time;
         "average_execution_time" := VFloat avg_time;
         "pass_rate" :=
           VFloat (percentage (count_status "PASS" results) (length results)) ]}
  end.

End Summary.
End ReportGenerator.

(** ** The web front end ([web_tester.py]) *)

Module WebTester.

(** A rule of the application's URL map. *)
Record route : Type := Route {
  rule : string;
  methods : list string;
  endpoint : string
}.

(** The methods a rule answers: those it was registered with, HEAD when GET
    is among them, and OPTIONS, which Flask answers itself. *)
Definition with_automatic (methods : list string) : list string :=
  methods ++ (if bool_decide ("GET" ∈ methods) then ["HEAD"] else [])
          ++ ["OPTIONS"].

(** Line 6, [Flask(__name__)]: an application starts with the rule that
    serves its static folder. *)
Definition Flask : list route :=
  [ Route "/static/<path:filename>" (with_automatic ["GET"]) "static" ].

(** [@app.route(rule, methods=...)] above the view function [endpoint]. *)
Definition app_route (rule : string) (methods : list string) (endpoint : string)
    (app : list route) : list route :=
  app ++ [ Route rule (with_automatic methods) endpoint ].

(** Lines 36 and 41.  A rule without [methods] answers GET. *)
Definition url_map : list route :=
  app_route "/" ["GET"; "POST"] "index"
    (app_route "/report" ["GET"] "report" Flask).

(** [url_for(endpoint)] for the rules above, which take no arguments. *)
Definition url_for (ep : string) : string :=
  match find (fun r => String.eqb (endpoint r) ep) url_map with
  | Some r => rule r
  | None => ""
  end.

(** The page rendered from [HTML_FORM]: the form, and the paragraph with the
    link when [report_link] is set. *)
Record page : Type := Page { report_link : option string }.

(** [int(q)]: rounding towards zero. *)
Definition py_int (q : Q) : Z := Z.quot (Qnum q) (Zpos (Qden q)).

Section Views.
Context `{OsPath}.

(** Lines 36-39. *)
Definition report : prog string :=
  (* Serve the test_report.html file from the current directory *)
  call (SendFromDirectory "." "test_report.html").

(** Lines 41-54.  [method] is [request.method] and [form] is
    [request.form]. *)
Definition index (method : string) (form : gmap string string) : prog page :=
  if String.eqb method "POST" then
    u ← lift (match form !! "url" with
              | Some u => Ok u
              | None => Raised (Exn BadRequestKeyError "400 Bad Request")
              end);
    let test_type := default "all" (form !! "test_type") in
    call (WriteFile "webtest_url.txt" u);;
    cwd ← call Getcwd;
    let python_exe :=
      os_path_join (os_path_join (os_path_join cwd "myenv") "Scripts") "python.exe" in
    call (SubprocessRun [python_exe; "test.py"; "--test-type"; test_type]);;
    found ← sys (PathExists "test_report.html");
    if found : bool then
      (* Add a timestamp to the report link to prevent caching *)
      now ← sys TimeTime;
      Ret (Page (Some (url_for "report" +:+ "?t=" +:+ pretty (py_int now))))
    else Ret (Page None)
  else Ret (Page None).

End Views.
End WebTester.

(** * Properties *)

(** ** Binary64 rounding *)

Module Float64Facts.
Import Float64.

Lemma pow2_pos (k : Z) : 0 < pow2 k.
Proof. apply Qpower_0_lt. reflexivity. Qed.

Lemma pow2_add (a b : Z) : pow2 (a + b) == pow2 a * pow2 b.
Proof. apply Qpower_plus. discriminate. Qed.

Lemma pow2_cancel (k : Z) : pow2 (- k) * pow2 k == 1.
Proof. rewrite <- pow2_add. by replace (- k + k)%Z with 0%Z by lia. Qed.

Lemma pow2_le (a b : Z) : (a <= b)%Z -> pow2 a <= pow2 b.
Proof. intros. apply Qpower_le_compat_l; [done|]. discriminate. Qed.

Lemma pow2_lt_inv (a b : Z) : pow2 a < pow2 b -> (a < b)%Z.
Proof. intros Hlt. eapply Qpower_lt_compat_l_inv; [exact Hlt|]. reflexivity. Qed.

Lemma pow2_Z (k : Z) : (0 <= k)%Z -> pow2 k == inject_Z (2 ^ k).
Proof. intros. unfold pow2. by rewrite Zpower_Qpower. Qed.

(** *** Rounding to an integer *)

Lemma rne_cases (s : Q) :
  let d := Zpos (Qden s) in
  (rne s * d <= Qnum s /\ 2 * (Qnum s - rne s * d) <= d)%Z \/
  (Qnum s < rne s * d /\ 2 * (rne s * d - Qnum s) <= d)%Z.
Proof.
  cbn zeta. unfold rne.
  pose proof (Z.div_mod (Qnum s) (Zpos (Qden s)) ltac:(lia)) as Hdm.
  pose proof (Z.mod_pos_bound (Qnum s) (Zpos (Qden s)) ltac:(lia)) as Hb.
  destruct (Z.compare_spec (2 * (Qnum s mod Zpos (Qden s))) (Zpos (Qden s)));
    [destruct (Z.even _)|..]; nia.
Qed.

Lemma rne_le (s : Q) (K : Z) : s <= inject_Z K -> (rne s <= K)%Z.
Proof.
  unfold Qle. cbn [Qnum Qden inject_Z]. intros Hs.
  destruct (rne_cases s) as [?|?]; nia.
Qed.

Lemma rne_ge (s : Q) (K : Z) : inject_Z K <= s -> (K <= rne s)%Z.
Proof.
  unfold Qle. cbn [Qnum Qden inject_Z]. intros Hs.
  destruct (rne_cases s) as [?|?]; nia.
Qed.

Lemma rne_below_half (s : Q) (K : Z) : s < inject_Z K + (1 # 2) -> (rne s <= K)%Z.
Proof.
  unfold Qlt, Qplus. cbn [Qnum Qden inject_Z]. intros Hs.
  destruct (rne_cases s) as [?|?]; nia.
Qed.

Lemma rne_error (s : Q) :
  s - (1 # 2) <= inject_Z (rne s) /\ inject_Z (rne s) <= s + (1 # 2).
Proof.
  unfold Qle, Qplus, Qminus, Qopp. cbn [Qnum Qden inject_Z Qplus].
  destruct (rne_cases s) as [?|?]; split; nia.
Qed.


(** *** The binary logarithm *)

Lemma pow2_succ (k : Z) : pow2 (k + 1) == 2 * pow2 k.
Proof. rewrite pow2_add. change (pow2 1) with 2. ring. Qed.

Lemma pow2_log2 (n : positive) :
  pow2 (Z.log2 (Zpos n)) <= inject_Z (Zpos n) /\
  inject_Z (Zpos n) < 2 * pow2 (Z.log2 (Zpos n)).
Proof.
  pose proof (Z.log2_spec (Zpos n) ltac:(lia)) as [Hlo Hhi].
  pose proof (Z.log2_nonneg (Zpos n)) as Hnn.
  rewrite <- pow2_succ, !pow2_Z by lia. rewrite <- Zle_Qle, <- Zlt_Qlt.
  split; [done|]. by rewrite <- Z.add_1_r in Hhi.
Qed.

Lemma ilog2_spec (x : Q) :
  0 < x -> pow2 (ilog2 x) <= x /\ x < pow2 (ilog2 x + 1).
Proof.
  intros Hx. destruct x as [n d]. unfold Qlt in Hx; cbn in Hx.
  destruct n as [|n|n]; try lia. unfold ilog2. cbn [Qnum Qden].
  set (a := Z.log2 (Zpos n)). set (b := Z.log2 (Zpos d)).
  pose proof (pow2_log2 n) as [HA1 HA2]. pose proof (pow2_log2 d) as [HB1 HB2].
  fold a in HA1, HA2. fold b in HB1, HB2.
  assert (pow2 (a - b) * pow2 b == pow2 a) as HP.
  { rewrite <- pow2_add. by replace (a - b + b)%Z with a by lia. }
  assert (pow2 (a - b) == 2 * pow2 (a - b - 1)) as HP2.
  { rewrite <- pow2_succ. by replace (a - b - 1 + 1)%Z with (a - b)%Z by lia. }
  assert ((Zpos n # d) * inject_Z (Zpos d) == inject_Z (Zpos n)) as Hxd.
  { unfold Qeq, Qmult, inject_Z. cbn. lia. }
  pose proof (pow2_pos (a - b)) as HPpos. pose proof (pow2_pos b) as HBpos.
  assert (0 < Zpos n # d) as Hxpos by (unfold Qlt; cbn; lia).
  set (x := Zpos n # d) in *. set (N := inject_Z (Zpos n)) in *.
  set (D := inject_Z (Zpos d)) in *. set (A := pow2 a) in *.
  set (B := pow2 b) in *.
  destruct (Qle_bool (pow2 (a - b)) x) eqn:Hc.
  - apply Qle_bool_iff in Hc. rewrite pow2_succ.
    set (P := pow2 (a - b)) in *. split; [done|].
    clearbody x N D A B P. clear -Hc HA1 HA2 HB1 HB2 HP Hxd HPpos HBpos Hxpos.
    apply Qnot_le_lt. intros Hge.
    assert (2 * P * B <= x * D) by nra. nra.
  - assert (x < pow2 (a - b)) as Hlt.
    { apply Qnot_le_lt. intros Hle. apply Qle_bool_iff in Hle. congruence. }
    replace (a - b - 1 + 1)%Z with (a - b)%Z by lia. split; [|done].
    set (P := pow2 (a - b)) in *. set (P' := pow2 (a - b - 1)) in *.
    clearbody x N D A B P P'. clear -Hlt HA1 HA2 HB1 HB2 HP HP2 Hxd HPpos HBpos Hxpos.
    apply Qnot_lt_le. intros Hl.
    assert (x * D < P' * (2 * B)) by nra. nra.
Qed.

Lemma ilog2_le (x : Q) (k : Z) : 0 < x -> x < pow2 (k + 1) -> (ilog2 x <= k)%Z.
Proof.
  intros Hx Hlt. destruct (ilog2_spec x Hx) as [Hlo _].
  assert (pow2 (ilog2 x) < pow2 (k + 1)) as H by (eapply Qle_lt_trans; done).
  apply pow2_lt_inv in H. lia.
Qed.

Lemma ilog2_ge (x : Q) (k : Z) : 0 < x -> pow2 k <= x -> (k <= ilog2 x)%Z.
Proof.
  intros Hx Hle. destruct (ilog2_spec x Hx) as [_ Hhi].
  assert (pow2 k < pow2 (ilog2 x + 1)) as H by (eapply Qle_lt_trans; done).
  apply pow2_lt_inv in H. lia.
Qed.


(** *** Rounding to a double *)

Lemma fexp_le (x : Q) (k : Z) :
  0 < x -> x < pow2 (k + 1) -> (-1022 <= k)%Z -> (fexp x <= k - 52)%Z.
Proof.
  intros Hx Hlt Hk. pose proof (ilog2_le x k Hx Hlt). unfold fexp. lia.
Qed.

Lemma round_pos_scaled (x : Q) : x * pow2 (- fexp x) * pow2 (fexp x) == x.
Proof. rewrite <- Qmult_assoc, pow2_cancel. ring. Qed.

Lemma round_pos_nonneg (x : Q) : 0 < x -> 0 <= round_pos x.
Proof.
  intros Hx. unfold round_pos. cbn zeta.
  pose proof (pow2_pos (fexp x)) as He. pose proof (pow2_pos (- fexp x)) as He'.
  assert (0 <= rne (x * pow2 (- fexp x)))%Z as Hm.
  { apply rne_ge. change (inject_Z 0) with 0. nra. }
  rewrite Zle_Qle in Hm. change (inject_Z 0) with 0 in Hm. nra.
Qed.

Lemma round_pos_error (x : Q) :
  x - pow2 (fexp x) * (1 # 2) <= round_pos x /\
  round_pos x <= x + pow2 (fexp x) * (1 # 2).
Proof.
  unfold round_pos. cbn zeta.
  pose proof (pow2_pos (fexp x)) as He.
  pose proof (round_pos_scaled x) as Hs.
  pose proof (rne_error (x * pow2 (- fexp x))) as [Hlo Hhi].
  set (m := inject_Z (rne (x * pow2 (- fexp x)))) in *.
  set (s := x * pow2 (- fexp x)) in *. set (E := pow2 (fexp x)) in *.
  clearbody m s E. split; nra.
Qed.

Lemma round_pos_le_scaled (x : Q) (K : Z) :
  x <= inject_Z K * pow2 (fexp x) -> round_pos x <= inject_Z K * pow2 (fexp x).
Proof.
  intros Hle. unfold round_pos. cbn zeta.
  pose proof (pow2_pos (fexp x)) as He. pose proof (pow2_pos (- fexp x)) as He'.
  pose proof (pow2_cancel (fexp x)) as Hc.
  assert (rne (x * pow2 (- fexp x)) <= K)%Z as Hm.
  { apply rne_le. apply (Qmult_le_r _ _ (pow2 (fexp x))); [done|].
    by rewrite round_pos_scaled. }
  rewrite Zle_Qle in Hm. apply Qmult_le_compat_r; [done|]. by apply Qlt_le_weak.
Qed.

Lemma round_pos_below_half (x : Q) (K : Z) :
  x < (inject_Z K + (1 # 2)) * pow2 (fexp x) ->
  round_pos x <= inject_Z K * pow2 (fexp x).
Proof.
  intros Hle. unfold round_pos. cbn zeta.
  pose proof (pow2_pos (fexp x)) as He. pose proof (pow2_pos (- fexp x)) as He'.
  pose proof (pow2_cancel (fexp x)) as Hc.
  assert (rne (x * pow2 (- fexp x)) <= K)%Z as Hm.
  { apply rne_below_half. apply (Qmult_lt_r _ _ (pow2 (fexp x))); [done|].
    by rewrite round_pos_scaled. }
  rewrite Zle_Qle in Hm. apply Qmult_le_compat_r; [done|]. by apply Qlt_le_weak.
Qed.

(** A bound that is itself a double with digits to spare bounds the rounded
    value. *)
Lemma round_pos_le_dyadic (x : Q) (b j : Z) :
  0 < x -> (0 < b < 2 ^ 53)%Z -> (0 <= j <= 1074)%Z ->
  x <= inject_Z b * pow2 (- j) -> round_pos x <= inject_Z b * pow2 (- j).
Proof.
  intros Hx Hb Hj Hle.
  assert (fexp x <= - j)%Z as He.
  { assert (ilog2 x <= 52 - j)%Z; [|unfold fexp; lia].
    apply ilog2_le; [done|]. replace (52 - j + 1)%Z with (53 + - j)%Z by lia.
    rewrite pow2_add, (pow2_Z 53) by lia.
    pose proof (pow2_pos (- j)).
    assert (inject_Z b < inject_Z (2 ^ 53)) by (rewrite <- Zlt_Qlt; lia).
    set (P := pow2 (- j)) in *. clearbody P. nra. }
  assert (inject_Z b * pow2 (- j)
          == inject_Z (b * 2 ^ (- j - fexp x)) * pow2 (fexp x)) as Heq.
  { rewrite inject_Z_mult, <- (pow2_Z (- j - fexp x)) by lia.
    rewrite <- Qmult_assoc, <- pow2_add. by replace (- j - fexp x + fexp x)%Z with (- j)%Z by lia. }
  rewrite Heq in Hle |- *. by apply round_pos_le_scaled.
Qed.

Lemma Qred_pos (x : Q) : 0 < x -> exists n, Qnum (Qred x) = Zpos n.
Proof.
  intros Hx. rewrite <- (Qred_correct x) in Hx.
  destruct (Qred x) as [[|n|n] d]; unfold Qlt in Hx; cbn in Hx; try lia.
  by exists n.
Qed.

Lemma round64_proper (x y : Q) : x == y -> round64 x = round64 y.
Proof. intros Hxy. unfold round64. by rewrite (Qred_complete x y Hxy). Qed.

Lemma round64_pos (x : Q) : 0 < x -> round64 x == round_pos (Qred x).
Proof.
  intros Hx. unfold round64. cbn zeta. rewrite Qred_correct.
  by destruct (Qred_pos x Hx) as [n ->].
Qed.

Lemma round64_zero (x : Q) : x == 0 -> round64 x = 0.
Proof. intros Hx. by rewrite (round64_proper x 0 Hx). Qed.

Lemma round64_nonneg (x : Q) : 0 <= x -> 0 <= round64 x.
Proof.
  intros Hx. destruct (Qlt_le_dec 0 x) as [Hpos|Hle].
  - rewrite round64_pos by done. apply round_pos_nonneg. by rewrite Qred_correct.
  - rewrite (round64_zero x); [done|]. by apply Qle_antisym.
Qed.

Lemma round64_le_dyadic (x : Q) (b j : Z) :
  (0 < b < 2 ^ 53)%Z -> (0 <= j <= 1074)%Z ->
  x <= inject_Z b * pow2 (- j) -> 0 <= x -> round64 x <= inject_Z b * pow2 (- j).
Proof.
  intros Hb Hj Hle Hx. destruct (Qlt_le_dec 0 x) as [Hpos|Hneg].
  - rewrite round64_pos by done.
    apply round_pos_le_dyadic; try done; by rewrite Qred_correct.
  - rewrite (round64_zero x) by (by apply Qle_antisym).
    pose proof (pow2_pos (- j)). assert (0 < inject_Z b) by (change 0 with (inject_Z 0); rewrite <- Zlt_Qlt; lia).
    nra.
Qed.

(** The rounding error below [2^(k+1)] is at most [2^(k-53)]. *)
Lemma round64_error (x : Q) (k : Z) :
  0 <= x -> x < pow2 (k + 1) -> (-1022 <= k)%Z ->
  x - pow2 (k - 53) <= round64 x /\ round64 x <= x + pow2 (k - 53).
Proof.
  intros Hx Hlt Hk. destruct (Qlt_le_dec 0 x) as [Hpos|Hneg].
  - rewrite round64_pos by done.
    assert (0 < Qred x) as Hpos' by (by rewrite Qred_correct).
    assert (Qred x < pow2 (k + 1)) as Hlt' by (by rewrite Qred_correct).
    pose proof (fexp_le (Qred x) k Hpos' Hlt' Hk) as He.
    pose proof (round_pos_error (Qred x)) as [Hlo Hhi].
    pose proof (Qred_correct x) as Hq.
    assert (pow2 (fexp (Qred x)) * (1 # 2) <= pow2 (k - 53)) as Hp.
    { pose proof (pow2_le _ _ He) as Hle.
      assert (pow2 (k - 52) == 2 * pow2 (k - 53)) as Hd.
      { rewrite <- pow2_succ. by replace (k - 53 + 1)%Z with (k - 52)%Z by lia. }
      rewrite Hd in Hle. lra. }
    split; lra.
  - rewrite (round64_zero x) by (by apply Qle_antisym).
    pose proof (pow2_pos (k - 53)). assert (x == 0) as -> by (by apply Qle_antisym).
    split; lra.
Qed.

Lemma round64_le_int (x : Q) (b : Z) :
  (0 < b < 2 ^ 53)%Z -> 0 <= x -> x <= inject_Z b -> round64 x <= inject_Z b.
Proof.
  intros Hb Hx Hle.
  assert (inject_Z b * pow2 (- 0) == inject_Z b) as Hb0.
  { change (pow2 (- 0)) with 1. ring. }
  eapply Qle_trans; [apply (round64_le_dyadic x b 0); [done|lia| |done]|].
  - by rewrite Hb0.
  - rewrite Hb0. apply Qle_refl.
Qed.

(** The double below a power of two: with the exponent known, a value less
    than half a unit above [K * 2^e] rounds to at most [K * 2^e]. *)
Lemma round64_below_half (x : Q) (K e : Z) :
  0 < x -> pow2 (e + 52) <= x -> x < pow2 (e + 53) -> (-1074 <= e)%Z ->
  x < (inject_Z K + (1 # 2)) * pow2 e ->
  round64 x <= inject_Z K * pow2 e.
Proof.
  intros Hx Hlo Hhi He Hlt. rewrite round64_pos by done.
  assert (0 < Qred x) as Hx' by (by rewrite Qred_correct).
  assert (fexp (Qred x) = e) as Hfexp.
  { assert (ilog2 (Qred x) = e + 52)%Z as Hl; [|unfold fexp; lia].
    apply Z.le_antisymm.
    - apply ilog2_le; [done|]. rewrite Qred_correct.
      by replace (e + 52 + 1)%Z with (e + 53)%Z by lia.
    - apply ilog2_ge; [done|]. by rewrite Qred_correct. }
  rewrite <- Hfexp. apply round_pos_below_half. by rewrite Hfexp, Qred_correct.
Qed.

End Float64Facts.

(** ** Running composed programs *)

Module RunFacts.

(** An outcome followed by the rest of the program. *)
Definition and_then {A B W} (o : outcome A W) (f : A -> W -> outcome B W)
  : outcome B W :=
  match value o with
  | Ok a =>
      let o' := f a (world o) in
      Outcome (value o') (world o') (trace o ++ trace o')
  | Raised e => Outcome (Raised e) (world o) (trace o)
  end.

(** An outcome whose exception, if any, is handled. *)
Definition or_else {A W} (o : outcome A W) (f : exn -> W -> outcome A W)
  : outcome A W :=
  match value o with
  | Ok a => o
  | Raised e =>
      let o' := f e (world o) in
      Outcome (value o') (world o') (trace o ++ trace o')
  end.

Section Run.
Context {W : Type} (h : handler W).

Lemma run_bind {A B} (p : prog A) (f : A -> prog B) (w : W) :
  run h (bind p f) w = and_then (run h p w) (fun a w' => run h (f a) w').
Proof.
  revert w; induction p as [a|e|X op k IH|X op k IH|n k IH]; intros w; simpl.
  - unfold and_then; simpl. by destruct (run h (f a) w).
  - done.
  - destruct (on_call h op w) as [r w']. rewrite IH.
    unfold and_then, logged; simpl. by destruct (value (run h (k r) w')).
  - destruct (on_sys h op w) as [x w']. rewrite IH.
    unfold and_then, logged; simpl. by destruct (value (run h (k x) w')).
  - rewrite IH. unfold and_then, logged; simpl.
    by destruct (value (run h k w)).
Qed.

Lemma run_try_except {A} (p : prog A) (f : exn -> prog A) (w : W) :
  run h (try_except p f) w = or_else (run h p w) (fun e w' => run h (f e) w').
Proof.
  revert w; induction p as [a|e|X op k IH|X op k IH|n k IH]; intros w; simpl.
  - done.
  - unfold or_else; simpl. by destruct (run h (f e) w).
  - destruct (on_call h op w) as [r w']. rewrite IH.
    unfold or_else, logged. by destruct (run h (k r) w') as [[?|?] ? ?].
  - destruct (on_sys h op w) as [x w']. rewrite IH.
    unfold or_else, logged. by destruct (run h (k x) w') as [[?|?] ? ?].
  - rewrite IH. unfold or_else, logged.
    by destruct (run h k w) as [[?|?] ? ?].
Qed.

Lemma run_try_finally {A} (p : prog A) (fin : A -> prog A) (fin_exn : prog unit)
    (w : W) :
  run h (try_finally p fin fin_exn) w =
  match value (run h p w) with
  | Ok a => and_then (run h p w) (fun a w' => run h (fin a) w')
  | Raised e =>
      or_else (run h p w) (fun e w' => run h (bind fin_exn (fun _ => Raise e)) w')
  end.
Proof.
  revert w; induction p as [a|e|X op k IH|X op k IH|n k IH]; intros w; simpl.
  - unfold and_then; simpl. by destruct (run h (fin a) w).
  - unfold or_else; simpl.
    by destruct (run h (bind fin_exn _) w).
  - destruct (on_call h op w) as [r w']. rewrite IH.
    unfold and_then, or_else, logged.
    by destruct (run h (k r) w') as [[?|?] ? ?].
  - destruct (on_sys h op w) as [x w']. rewrite IH.
    unfold and_then, or_else, logged.
    by destruct (run h (k x) w') as [[?|?] ? ?].
  - rewrite IH. unfold and_then, or_else, logged.
    by destruct (run h k w) as [[?|?] ? ?].
Qed.

End Run.

(** Reading a trace. *)
Definition raised (ev : event) : option exn :=
  match ev with EvCall _ (Raised e) => Some e | _ => None end.

(** Some delegated call raised. *)
Definition any_raised (tr : list event) : bool :=
  existsb (fun ev => bool_decide (is_Some (raised ev))) tr.

(** Some delegated call raised an exception of class [cls]. *)
Definition any_raised_of (cls : exn_class) (tr : list event) : bool :=
  existsb (fun ev => match raised ev with
                     | Some e => bool_decide (exn_cls e = cls)
                     | None => false
                     end) tr.

Lemma notes_app (l1 l2 : list event) : notes (l1 ++ l2) = notes l1 ++ notes l2.
Proof. unfold notes. apply omap_app. Qed.

End RunFacts.
Import RunFacts.

(** ** The generator *)

Module GeneratorFacts.
Import TestCaseGenerator.

(** An entry of [all_fields] the success test can be built from. *)
Definition field_ok (f : pyval) : bool :=
  match f with
  | VDict d =>
      match d !! "name", d !! "selector" with
      | Some n, Some _ => hashable n
      | _, _ => false
      end
  | _ => false
  end.

Definition all_fields_ok (form_config : gmap string pyval) : bool :=
  match form_config !! "all_fields" with
  | None => true
  | Some (VList l) => forallb field_ok l
  | Some _ => false
  end.

Definition has_key (d : kdict) (k : pyval) : Prop := is_Some (kdict_lookup d k).

Lemma key_eqb_refl k : hashable k = true -> key_eqb k k = true.
Proof.
  destruct k; simpl; try done; intros _.
  - apply Qeq_bool_iff. reflexivity.
  - apply Qeq_bool_iff. reflexivity.
  - apply Qeq_bool_iff. reflexivity.
  - apply String.eqb_refl.
Qed.

Lemma has_key_set_same d k v : hashable k = true -> has_key (kdict_set d k v) k.
Proof.
  intros Hk. unfold has_key. induction d as [|[k' v'] d IH]; simpl.
  - rewrite key_eqb_refl by done. by eexists.
  - destruct (key_eqb k' k) eqn:E; simpl; rewrite E; [by eexists|done].
Qed.

Lemma has_key_set_other d k k' v : has_key d k -> has_key (kdict_set d k' v) k.
Proof.
  unfold has_key. induction d as [|[k0 v0] d IH]; simpl.
  - by intros [? ?].
  - intros Hk. destruct (key_eqb k0 k') eqn:E; simpl;
      destruct (key_eqb k0 k) eqn:E'; try by eexists.
    + done.
    + by apply IH.
Qed.

Section Facts.
Context `{Repr}.

Lemma valid_data_of_ok (l : list pyval) : forall acc,
  forallb field_ok l = true ->
  exists vd, valid_data_of l acc = Ok vd /\
    (forall k, has_key acc k -> has_key vd k) /\
    (forall d n, VDict d ∈ l -> d !! "name" = Some n -> has_key vd n).
Proof.
  induction l as [|f l IH]; intros acc Hok; simpl in *.
  - exists acc. split_and!; [done|done|]. intros d n Hin. by apply elem_of_nil in Hin.
  - apply andb_prop in Hok as [Hf Hl].
    destruct f as [| | | | | |d]; try done. simpl in *.
    unfold dict_getitem. destruct (d !! "name") as [n|] eqn:En; [|done].
    destruct (d !! "selector") as [s|] eqn:Es; [|done]. simpl.
    unfold kdict_setitem. rewrite Hf. simpl.
    destruct (IH (kdict_set acc n (dict_get d "valid_value" (VStr "test"))) Hl)
      as (vd & Hvd & Hacc & Hin).
    exists vd. split_and!; [done| |].
    + intros k Hk. apply Hacc. by apply has_key_set_other.
    + intros d' n' Hd' Hn'. apply elem_of_cons in Hd' as [Heq|Hd'].
      * injection Heq as <-. rewrite En in Hn'. injection Hn' as <-.
        apply Hacc. by apply has_key_set_same.
      * by eapply Hin.
Qed.

Lemma input_actions_ok (vd : kdict) (l : list pyval) :
  forallb field_ok l = true ->
  (forall d n, VDict d ∈ l -> d !! "name" = Some n -> has_key vd n) ->
  exists acts, mapM (input_action vd) l = Ok acts.
Proof.
  induction l as [|f l IH]; intros Hok Hkeys; simpl in *.
  - by eexists.
  - apply andb_prop in Hok as [Hf Hl].
    destruct IH as [acts Hacts]; [done| |].
    { intros d' n' Hd'. apply Hkeys. by right. }
    rewrite Hacts.
    destruct f as [| | | | | |d]; try done. simpl in Hf.
    unfold input_action, py_getitem, dict_getitem.
    destruct (d !! "name") as [n|] eqn:En; [|done].
    destruct (d !! "selector") as [s|] eqn:Es; [|done]. simpl.
    unfold kdict_getitem. rewrite Hf.
    destruct (Hkeys d n) as [v Hv]; [left|done|]. rewrite Hv. simpl.
    by eexists.
Qed.

Lemma success_actions_ok (form_config : gmap string pyval) :
  all_fields_ok form_config = true ->
  exists l vd acts,
    py_iter (dict_get form_config "all_fields" (VList [])) = Ok l /\
    valid_data_of l [] = Ok vd /\ mapM (input_action vd) l = Ok acts.
Proof.
  unfold all_fields_ok, dict_get. intros Hok.
  destruct (form_config !! "all_fields") as [[| | | | |l|]|]; try done; simpl.
  - destruct (valid_data_of_ok l [] Hok) as (vd & Hvd & _ & Hin).
    destruct (input_actions_ok vd l Hok Hin) as [acts Hacts].
    by exists l, vd, acts.
  - by exists [], [], [].
Qed.

(** C1.  A form configuration with exactly one required field and no
    validation fields: [generate_form_validation_tests] returns, and among the
    returned tests exactly one is tagged "required".  It is named
    test_required_field_<name>, clears the field's selector, then clicks the
    submit button, and expects the error selector (the field's
    [error_selector], by default #<name>-error) to be visible. *)
Theorem one_required_field_one_required_test
    (form_config field : gmap string pyval) (nm sel u submit : pyval) :
  form_config !! "required_fields" = Some (VList [VDict field]) ->
  (form_config !! "validation_fields" = None \/
   form_config !! "validation_fields" = Some (VList [])) ->
  form_config !! "url" = Some u ->
  form_config !! "submit_button" = Some submit ->
  all_fields_ok form_config = true ->
  field !! "name" = Some nm ->
  field !! "selector" = Some sel ->
  exists tests,
    generate_form_validation_tests form_config = Ok tests /\
    List.filter (tagged "required") tests =
      [ {| name := "test_required_field_" +:+ py_str nm;
           url := u;
           actions := [ {[ "action" := VStr "clear_field"; "selector" := sel ]};
                        {[ "action" := VStr "click"; "selector" := submit ]} ];
           expected_results :=
             [ {[ "type" := VStr "element_visible";
                  "selector" := dict_get field "error_selector"
                                  (VStr ("#" +:+ py_str nm +:+ "-error")) ]} ];
           test_type := "validation";
           priority := "medium";
           tags := Some ["form"; "validation"; "required"] |} ].
Proof.
  intros Hreq Hval Hu Hsub Hall Hnm Hsel.
  destruct (success_actions_ok form_config Hall) as (l & vd & acts & Hl & Hvd & Hacts).
  assert (py_iter (dict_get form_config "required_fields" (VList []))
          = Ok [VDict field]) as Hreq' by (unfold dict_get; by rewrite Hreq).
  assert (py_iter (dict_get form_config "validation_fields" (VList [])) = Ok [])
    as Hval' by (unfold dict_get; by destruct Hval as [-> | ->]).
  assert (required_field_test form_config (VDict field) = Ok
    {| name := "test_required_field_" +:+ py_str nm;
       url := u;
       actions := [ {[ "action" := VStr "clear_field"; "selector" := sel ]};
                    {[ "action" := VStr "click"; "selector" := submit ]} ];
       expected_results :=
         [ {[ "type" := VStr "element_visible";
              "selector" := dict_get field "error_selector"
                              (VStr ("#" +:+ py_str nm +:+ "-error")) ]} ];
       test_type := "validation";
       priority := "medium";
       tags := Some ["form"; "validation"; "required"] |}) as Htest.
  { unfold required_field_test, py_getitem, dict_getitem.
    by rewrite Hnm, Hu, Hsel, Hsub. }
  unfold generate_form_validation_tests, dict_getitem.
  rewrite Hreq', Hval', Hl, Hsub, Hu. simpl.
  rewrite Htest, Hvd. simpl. rewrite Hacts. simpl.
  eexists. split; reflexivity.
Qed.

Lemma required_field_test_tagged (form_config : gmap string pyval) f t :
  required_field_test form_config f = Ok t ->
  tags t = Some ["form"; "validation"; "required"].
Proof.
  unfold required_field_test.
  destruct (py_getitem f "name") as [n|]; simpl; [|done].
  destruct (dict_getitem form_config "url") as [u|]; simpl; [|done].
  destruct (py_getitem f "selector") as [s|]; simpl; [|done].
  destruct (dict_getitem form_config "submit_button") as [b|]; simpl; [|done].
  destruct (py_get f "error_selector" _) as [e|]; simpl; [|done].
  by intros [= <-].
Qed.

Lemma required_tests_tagged (form_config : gmap string pyval) (l : list pyval) :
  forall ts, mapM (required_field_test form_config) l = Ok ts ->
  List.filter (tagged "required") ts = ts /\ length ts = length l.
Proof.
  induction l as [|f l IH]; intros ts; simpl.
  - by intros [= <-].
  - destruct (required_field_test form_config f) as [t|] eqn:Et; simpl; [|done].
    destruct (mapM _ l) as [ts'|]; simpl; [|done].
    intros [= <-]. destruct (IH ts' eq_refl) as [Hf Hlen].
    apply required_field_test_tagged in Et.
    simpl. unfold tagged at 1. rewrite Et. simpl.
    split; [by rewrite Hf|by rewrite Hlen].
Qed.

Lemma typed_field_test_tagged kind bad (form_config : gmap string pyval) f t :
  typed_field_test kind bad form_config f = Ok t -> tags t = Some ["form"; "validation"; kind].
Proof.
  unfold typed_field_test.
  destruct (py_getitem f "name") as [n|]; simpl; [|done].
  destruct (dict_getitem form_config "url") as [u|]; simpl; [|done].
  destruct (py_getitem f "selector") as [s|]; simpl; [|done].
  destruct (dict_getitem form_config "submit_button") as [b|]; simpl; [|done].
  destruct (py_get f "error_selector" _) as [e|]; simpl; [|done].
  by intros [= <-].
Qed.

Lemma validation_tests_untagged (form_config : gmap string pyval) (l : list pyval) :
  forall ts, validation_tests form_config l = Ok ts ->
  List.filter (tagged "required") ts = [].
Proof.
  induction l as [|f l IH]; intros ts; simpl.
  - by intros [= <-].
  - destruct (py_getitem f "type") as [ty|]; simpl; [|done].
    destruct (eq_str ty "email").
    { destruct (typed_field_test _ _ _ _) as [t|] eqn:Et; simpl; [|done].
      destruct (validation_tests _ l) as [ts'|]; simpl; [|done].
      intros [= <-]. apply typed_field_test_tagged in Et.
      simpl. unfold tagged at 1. rewrite Et. simpl. by apply IH. }
    destruct (eq_str ty "phone"); [|by apply IH].
    destruct (typed_field_test _ _ _ _) as [t|] eqn:Et; simpl; [|done].
    destruct (validation_tests _ l) as [ts'|]; simpl; [|done].
    intros [= <-]. apply typed_field_test_tagged in Et.
    simpl. unfold tagged at 1. rewrite Et. simpl. by apply IH.
Qed.

(** Whatever the configuration, the tests tagged "required" are the ones built
    from [required_fields], one for each entry and in the same order. *)
Lemma required_tests_one_per_field (form_config : gmap string pyval) tests :
  generate_form_validation_tests form_config = Ok tests ->
  exists fields,
    py_iter (dict_get form_config "required_fields" (VList [])) = Ok fields /\
    mapM (required_field_test form_config) fields
      = Ok (List.filter (tagged "required") tests) /\
    length (List.filter (tagged "required") tests) = length fields.
Proof.
  unfold generate_form_validation_tests.
  destruct (py_iter (dict_get form_config "required_fields" _)) as [fields|]; simpl;
    [|done].
  destruct (mapM _ fields) as [ts1|] eqn:E1; simpl; [|done].
  destruct (py_iter (dict_get form_config "validation_fields" _)) as [vfields|]; simpl;
    [|done].
  destruct (validation_tests _ vfields) as [ts2|] eqn:E2; simpl; [|done].
  destruct (py_iter (dict_get form_config "all_fields" _)) as [afields|]; simpl;
    [|done].
  destruct (valid_data_of afields []) as [vd|]; simpl; [|done].
  destruct (mapM _ afields) as [acts|]; simpl; [|done].
  destruct (dict_getitem form_config "submit_button") as [b|]; simpl; [|done].
  destruct (dict_getitem form_config "url") as [u|]; simpl; [|done].
  intros [= <-]. exists fields.
  destruct (required_tests_tagged _ _ _ E1) as [Hf Hlen].
  apply validation_tests_untagged in E2.
  rewrite !List.filter_app, Hf, E2. simpl. rewrite app_nil_r.
  by rewrite E1.
Qed.

End Facts.

(** The configuration built in [main], cut down to one required field. *)
Definition sample_field : gmap string pyval :=
  {[ "name" := VStr "email"; "selector" := VStr "#email";
     "error_selector" := VStr ".email-error" ]}.

Definition sample_config : gmap string pyval :=
  {[ "url" := VStr "http://localhost/";
     "submit_button" := VStr "#contact-form button[type='submit']";
     "success_url" := VStr "/#contact";
     "required_fields" := VList [VDict sample_field];
     "all_fields" :=
       VList [VDict {[ "name" := VStr "email"; "selector" := VStr "#email";
                       "valid_value" := VStr "john@example.com" ]}] ]}.

Definition sample_repr : Repr := fun _ => "<object>".

Lemma one_required_field_one_required_test_witness :
  exists tests,
    @generate_form_validation_tests sample_repr sample_config = Ok tests /\
    List.filter (tagged "required") tests =
      [ {| name := "test_required_field_email";
           url := VStr "http://localhost/";
           actions :=
             [ {[ "action" := VStr "clear_field"; "selector" := VStr "#email" ]};
               {[ "action" := VStr "click";
                  "selector" := VStr "#contact-form button[type='submit']" ]} ];
           expected_results :=
             [ {[ "type" := VStr "element_visible";
                  "selector" := VStr ".email-error" ]} ];
           test_type := "validation";
           priority := "medium";
           tags := Some ["form"; "validation"; "required"] |} ].
Proof.
  apply (@one_required_field_one_required_test sample_repr sample_config
           sample_field (VStr "email") (VStr "#email") (VStr "http://localhost/")
           (VStr "#contact-form button[type='submit']"));
    first [reflexivity | left; reflexivity].
Defined.

End GeneratorFacts.

(** ** The executor *)

Module ExecutorFacts.
Import TestExecutor.

(** The calls of [execute_action] made by the executor, with what each
    returned, in order. *)
Definition attempted (tr : list event) : list (gmap string pyval * bool) :=
  omap (fun n => match n with
                 | execute_action_returned a b => Some (a, b)
                 | _ => None
                 end) (notes tr).

(** The same for [verify_result]. *)
Definition verified (tr : list event) : list (gmap string pyval * bool) :=
  omap (fun n => match n with
                 | verify_result_returned a b => Some (a, b)
                 | _ => None
                 end) (notes tr).

Lemma attempted_app tr1 tr2 : attempted (tr1 ++ tr2) = attempted tr1 ++ attempted tr2.
Proof. unfold attempted. by rewrite notes_app, omap_app. Qed.

Lemma verified_app tr1 tr2 : verified (tr1 ++ tr2) = verified tr1 ++ verified tr2.
Proof. unfold verified. by rewrite notes_app, omap_app. Qed.

Lemma attempted_note a b tr :
  attempted (EvNote (execute_action_returned a b) :: tr) = (a, b) :: attempted tr.
Proof. done. Qed.

Lemma attempted_other_note a b tr :
  attempted (EvNote (verify_result_returned a b) :: tr) = attempted tr.
Proof. done. Qed.

Lemma verified_note a b tr :
  verified (EvNote (verify_result_returned a b) :: tr) = (a, b) :: verified tr.
Proof. done. Qed.

Lemma verified_other_note a b tr :
  verified (EvNote (execute_action_returned a b) :: tr) = verified tr.
Proof. done. Qed.

Lemma attempted_call {X} (op : Op X) r tr : attempted (EvCall op r :: tr) = attempted tr.
Proof. done. Qed.

Lemma attempted_sys {X} (op : SysOp X) x tr : attempted (EvSys op x :: tr) = attempted tr.
Proof. done. Qed.

Lemma verified_call {X} (op : Op X) r tr : verified (EvCall op r :: tr) = verified tr.
Proof. done. Qed.

Lemma verified_sys {X} (op : SysOp X) x tr : verified (EvSys op x :: tr) = verified tr.
Proof. done. Qed.

Lemma attempted_nil : attempted [] = [].
Proof. done. Qed.

Lemma verified_nil : verified [] = [].
Proof. done. Qed.

Create Rewrite HintDb notes.
#[local] Hint Rewrite attempted_app verified_app attempted_note verified_note
  attempted_other_note verified_other_note @attempted_call @attempted_sys
  @verified_call @verified_sys attempted_nil verified_nil app_nil_r : notes.

Lemma attempted_no_notes tr : notes tr = [] -> attempted tr = [].
Proof. unfold attempted. by intros ->. Qed.

Lemma verified_no_notes tr : notes tr = [] -> verified tr = [].
Proof. unfold verified. by intros ->. Qed.

Definition is_type (expected : gmap string pyval) (s : string) : bool :=
  match expected !! "type" with Some v => eq_str v s | None => false end.

Lemma eq_str_true (v : pyval) (s : string) : eq_str v s = true -> v = VStr s.
Proof. destruct v; simpl; try done. by intros ->%String.eqb_eq. Qed.

(** The ints [time.sleep] can convert: at most 9223372036 seconds either way. *)
Lemma int_overflows_spec (z : Z) :
  int_overflows z = ((z <? -9223372036) || (9223372036 <? z))%Z.
Proof.
  unfold int_overflows.
  destruct (Z.ltb_spec (z * 10 ^ 9) (- 2 ^ 63)),
    (Z.ltb_spec (2 ^ 63 - 1) (z * 10 ^ 9)),
    (Z.ltb_spec z (-9223372036)), (Z.ltb_spec 9223372036 z); simpl; lia.
Qed.

(** Case analysis along every path of a program without loops. *)
Ltac unfold_prog :=
  unfold execute_action, verify_result, take_screenshot, wait_until, with_driver,
    time_sleep, try_except_class, call, sys, lift, note_that, dict_getitem,
    py_in, py_lower, is_type,
    mbind, prog_bind, mret, prog_ret in *.

Ltac explore_step :=
  match goal with
  | |- context [on_call ?h ?op ?w] =>
      let r := fresh "r" in destruct (on_call h op w) as [[r|r] ?] eqn:?
  | |- context [on_sys ?h ?op ?w] => destruct (on_sys h op w) as [? ?] eqn:?
  | |- context [match ?d !! ?k with _ => _ end] => destruct (d !! k) eqn:?
  | |- context [match driver ?s with _ => _ end] => destruct (driver s) eqn:?
  | |- context [if ?b then _ else _] => destruct b eqn:?
  | |- context [match ?v with VNone => _ | _ => _ end] => destruct v
  end.

Ltac explore := unfold_prog; simpl; repeat (explore_step; simpl).

Section Facts.
Context `{Repr} `{OsPath} {W : Type} (h : handler W).

Lemma execute_action_summary (self : t) (action : gmap string pyval) (w : W) :
  exists b w' tr,
    run h (execute_action self action) w = Outcome (Ok b) w' tr /\
    notes tr = [] /\
    (any_raised tr = true -> b = false).
Proof.
  explore; do 3 eexists; (split; [reflexivity|]); (split; [reflexivity|]);
    simpl; done.
Qed.

Lemma verify_result_summary (self : t) (expected : gmap string pyval) (w : W) :
  exists b w' tr,
    run h (verify_result self expected) w = Outcome (Ok b) w' tr /\
    notes tr = [] /\
    (any_raised tr = true ->
     b = is_type expected "element_not_visible"
         && any_raised_of NoSuchElementException tr).
Proof.
  explore; do 3 eexists; (split; [reflexivity|]); (split; [reflexivity|]);
    simpl; try done.
  all: repeat match goal with E : eq_str ?p _ = true |- _ =>
         apply eq_str_true in E; subst p end.
  all: intros _;
    first [ reflexivity
          | by rewrite bool_decide_eq_true_2 by done
          | by rewrite bool_decide_eq_false_2 by done ].
Qed.

Lemma take_screenshot_summary (self : t) (nm : string) (w : W) :
  exists path w' tr,
    run h (take_screenshot self nm) w = Outcome (Ok path) w' tr /\ notes tr = [].
Proof.
  explore; do 3 eexists; (split; reflexivity).
Qed.


Ltac read_trace := cbn [logged value world trace]; autorewrite with notes.

Ltac to_bind := unfold mbind, prog_bind, mret, prog_ret, note_that, sys in *.

Definition succeeded (a : gmap string pyval) : gmap string pyval * bool := (a, true).

Lemma run_actions_spec (self : t) (tc : TestCase) (result : TestResult) :
  forall (todo : list (gmap string pyval)) (w : W),
  exists ro w' tr,
    run h (run_actions self tc result todo) w = Outcome (Ok ro) w' tr /\
    verified tr = [] /\
    match ro with
    | None => attempted tr = succeeded <$> todo
    | Some r =>
        exists done a rest path,
          todo = done ++ a :: rest /\
          attempted tr = (succeeded <$> done) ++ [(a, false)] /\
          r = set_screenshot_path path
                (set_error_message ("Action failed: " +:+ py_repr (VDict a)) result)
    end.
Proof.
  induction todo as [|a todo IH]; intros w.
  - by exists None, w, [].
  - cbn [run_actions]. to_bind. rewrite run_bind.
    destruct (execute_action_summary self a w) as (b & w1 & tr1 & -> & Hn1 & _).
    unfold and_then; cbn [value world trace bind run logged].
    destruct b; cbn [negb].
    + destruct (IH w1) as (ro & w2 & tr2 & -> & Hv & Hro).
      cbn [value world trace].
      exists ro, w2, (tr1 ++ EvNote (execute_action_returned a true) :: tr2).
      split; [done|]. split.
      { by rewrite verified_app, (verified_no_notes tr1), verified_other_note. }
      rewrite attempted_app, (attempted_no_notes tr1), attempted_note by done.
      destruct ro as [r|].
      * destruct Hro as (done & a' & rest & path & -> & -> & ->).
        by exists (a :: done), a', rest, path.
      * by rewrite Hro.
    + rewrite run_bind.
      destruct (take_screenshot_summary self (name tc) w1)
        as (path & w2 & tr2 & -> & Hn2).
      unfold and_then; cbn [value world trace bind run logged].
      eexists (Some _), w2, _. split; [reflexivity|]. split.
      { by rewrite verified_app, (verified_no_notes tr1), verified_other_note,
          verified_app, (verified_no_notes tr2). }
      exists [], a, todo, path. split_and!; [done| |done].
      by rewrite attempted_app, (attempted_no_notes tr1), attempted_note,
        attempted_app, (attempted_no_notes tr2).
Qed.

Lemma run_verifications_spec (self : t) (tc : TestCase) (result : TestResult) :
  forall (todo : list (gmap string pyval)) (w : W),
  exists ro w' tr,
    run h (run_verifications self tc result todo) w = Outcome (Ok ro) w' tr /\
    attempted tr = [] /\
    match ro with
    | None => verified tr = succeeded <$> todo
    | Some r =>
        exists done e rest path,
          todo = done ++ e :: rest /\
          verified tr = (succeeded <$> done) ++ [(e, false)] /\
          r = set_screenshot_path path
                (set_error_message
                   ("Verification failed: " +:+ py_repr (VDict e)) result)
    end.
Proof.
  induction todo as [|e todo IH]; intros w.
  - by exists None, w, [].
  - cbn [run_verifications]. to_bind. rewrite run_bind.
    destruct (verify_result_summary self e w) as (b & w1 & tr1 & -> & Hn1 & _).
    unfold and_then; cbn [value world trace bind run logged].
    destruct b; cbn [negb].
    + destruct (IH w1) as (ro & w2 & tr2 & -> & Ha & Hro).
      cbn [value world trace].
      exists ro, w2, (tr1 ++ EvNote (verify_result_returned e true) :: tr2).
      split; [done|]. split.
      { by rewrite attempted_app, (attempted_no_notes tr1), attempted_other_note. }
      rewrite verified_app, (verified_no_notes tr1), verified_note by done.
      destruct ro as [r|].
      * destruct Hro as (done & e' & rest & path & -> & -> & ->).
        by exists (e :: done), e', rest, path.
      * by rewrite Hro.
    + rewrite run_bind.
      destruct (take_screenshot_summary self (name tc) w1)
        as (path & w2 & tr2 & -> & Hn2).
      unfold and_then; cbn [value world trace bind run logged].
      eexists (Some _), w2, _. split; [reflexivity|]. split.
      { by rewrite attempted_app, (attempted_no_notes tr1), attempted_other_note,
          attempted_app, (attempted_no_notes tr2). }
      exists [], e, todo, path. split_and!; [done| |done].
      by rewrite verified_app, (verified_no_notes tr1), verified_note,
        verified_app, (verified_no_notes tr2).
Qed.

(** How a run of the actions and verifications of a test went, as the notes
    of its trace tell. *)
Inductive progress (tc : TestCase) (tr : list event) : Prop :=
| navigation_failed :
    attempted tr = [] -> verified tr = [] -> progress tc tr
| action_failed done a rest :
    actions tc = done ++ a :: rest ->
    attempted tr = (succeeded <$> done) ++ [(a, false)] ->
    verified tr = [] ->
    progress tc tr
| verification_failed done e rest :
    attempted tr = succeeded <$> actions tc ->
    expected_results tc = done ++ e :: rest ->
    verified tr = (succeeded <$> done) ++ [(e, false)] ->
    progress tc tr.

(** The record a run produces from the record [result] it was given. *)
Inductive verdict (tc : TestCase) (result : TestResult) (tr : list event)
  : TestResult -> Prop :=
| passed :
    attempted tr = succeeded <$> actions tc ->
    verified tr = succeeded <$> expected_results tc ->
    verdict tc result tr (set_status "PASS" result)
| failed msg path :
    progress tc tr ->
    verdict tc result tr
      (set_screenshot_path path (set_error_message msg result)).

Lemma test_body_spec (self : t) (tc : TestCase) (result : TestResult) (w : W) :
  exists v w' tr,
    run h (test_body self tc result) w = Outcome v w' tr /\
    match v with
    | Ok r => verdict tc result tr r
    | Raised _ => attempted tr = [] /\ verified tr = []
    end.
Proof.
  unfold test_body, with_driver. to_bind.
  cbn [bind run]. destruct (on_sys h _ w) as [[] w0].
  destruct (driver self) as [d|]; cbn [bind run call];
    [|by eexists (Raised _), _, _].
  destruct (on_call h _ w0) as [[[]|e] w1]; cbn [bind run call logged value world trace];
    [|by eexists (Raised _), _, _].
  rewrite run_bind.
  destruct (run_actions_spec self tc result (actions tc) w1)
    as (ro & w2 & tr2 & -> & Hv2 & Hro).
  unfold and_then; cbn [value world trace].
  destruct ro as [r|]; cbn [run value world trace].
  { destruct Hro as (done & a & rest & path & Hact & Hat & ->).
    eexists (Ok _), _, _. split; [reflexivity|].
    apply failed. eapply action_failed; [done|..]; by read_trace. }
  rewrite run_bind.
  destruct (run_verifications_spec self tc result (expected_results tc) w2)
    as (ro & w3 & tr3 & -> & Ha3 & Hro3).
  unfold and_then; cbn [value world trace].
  destruct ro as [r|]; cbn [run value world trace].
  { destruct Hro3 as (done & e & rest & path & Hex & Hve & ->).
    eexists (Ok _), _, _. split; [reflexivity|].
    apply failed. eapply verification_failed; [|done|]; read_trace.
    - by rewrite Ha3, Hro, app_nil_r.
    - by rewrite Hv2, Hve. }
  destruct (on_sys h _ w3) as [[] w4]. cbn [logged value world trace].
  eexists (Ok _), _, _. split; [reflexivity|].
  apply passed; read_trace.
  - by rewrite Ha3, Hro, app_nil_r.
  - by rewrite Hv2, Hro3.
Qed.

Lemma test_failed_spec (self : t) (tc : TestCase) (result : TestResult)
    (e : exn) (w : W) :
  exists path w' tr,
    run h (test_failed self tc result e) w =
      Outcome (Ok (set_screenshot_path path
                     (set_error_message (exn_str e) result))) w' tr /\
    notes tr = [].
Proof.
  unfold test_failed. to_bind. rewrite run_bind.
  destruct (take_screenshot_summary self (name tc) w) as (path & w1 & tr1 & -> & Hn).
  unfold and_then; cbn [value world trace bind run].
  destruct (on_sys h _ w1) as [[] w2]. cbn [logged value world trace].
  exists path, w2, (tr1 ++ [EvSys (Log ERROR
    ("Test failed: " +:+ name tc +:+ " - " +:+ exn_str e)) ()]).
  split; [done|]. by rewrite notes_app, Hn.
Qed.

(** A run from a record [result] returns; the record it returns is [result]
    with a verdict stored, and then the duration. *)
Lemma run_test_spec (self : t) (tc : TestCase) (start_time : Q)
    (result : TestResult) (w : W) :
  exists r duration w' tr,
    run h (run_test self tc start_time result) w =
      Outcome (Ok (set_execution_time duration r)) w' tr /\
    verdict tc result tr r.
Proof.
  unfold run_test. rewrite run_try_finally, run_try_except.
  destruct (test_body_spec self tc result w) as (v & w1 & tr1 & -> & Hv).
  destruct v as [r|e]; unfold or_else, and_then; cbn [value world trace].
  - to_bind. cbn [bind run]. destruct (on_sys h TimeTime w1) as [now w2].
    cbn [logged value world trace].
    exists r, (now - start_time)%Q, w2, (tr1 ++ [EvSys TimeTime now]).
    split; [done|]. destruct Hv as [Ha Hc|msg path Hp].
    + apply passed; read_trace; by rewrite ?Ha, ?Hc.
    + apply failed. destruct Hp as [Ha Hc|done a rest Hact Ha Hc|done e rest Ha Hex Hc].
      * apply navigation_failed; read_trace; by rewrite ?Ha, ?Hc.
      * eapply action_failed; [done|..]; read_trace; by rewrite ?Ha, ?Hc.
      * eapply verification_failed; [|done|]; read_trace; by rewrite ?Ha, ?Hc.
  - destruct Hv as [Ha Hc].
    destruct (test_failed_spec self tc result e w1) as (path & w2 & tr2 & -> & Hn).
    cbn [value world trace]. to_bind. cbn [bind run].
    destruct (on_sys h TimeTime w2) as [now w3]. cbn [logged value world trace].
    eexists _, (now - start_time)%Q, w3, _. split; [reflexivity|].
    apply failed, navigation_failed; read_trace.
    + by rewrite Ha, (attempted_no_notes tr2).
    + by rewrite Hc, (verified_no_notes tr2).
Qed.

(** The record [execute_test] creates (lines 267-272). *)
Definition created (tc : TestCase) (stamp : string) : TestResult :=
  {| test_name := name tc; status := "FAIL"; execution_time := 0;
     error_message := ""; screenshot_path := ""; timestamp := stamp |}.

Lemma new_result_spec (tc : TestCase) (w : W) :
  exists start_time stamp w' tr,
    run h (new_result tc) w = Outcome (Ok (start_time, created tc stamp)) w' tr /\
    notes tr = [].
Proof.
  unfold new_result. to_bind. cbn [bind run].
  destruct (on_sys h TimeTime w) as [start_time w1].
  destruct (on_sys h (Now isoformat) w1) as [stamp w2].
  by exists start_time, stamp, w2, [EvSys TimeTime start_time; EvSys (Now isoformat) stamp].
Qed.

Lemma execute_test_spec (self : t) (tc : TestCase) (w : W) :
  exists stamp r duration w' tr,
    run h (execute_test self tc) w =
      Outcome (Ok (set_execution_time duration r)) w' tr /\
    verdict tc (created tc stamp) tr r.
Proof.
  unfold execute_test. to_bind. rewrite run_bind.
  destruct (new_result_spec tc w) as (start_time & stamp & w1 & tr1 & -> & Hn).
  unfold and_then; cbn [value world trace].
  destruct (run_test_spec self tc start_time (created tc stamp) w1)
    as (r & duration & w2 & tr2 & -> & Hv).
  cbn [value world trace].
  exists stamp, r, duration, w2, (tr1 ++ tr2). split; [done|].
  destruct Hv as [Ha Hc|msg path Hp].
  - apply passed; read_trace;
      by rewrite ?(attempted_no_notes tr1), ?(verified_no_notes tr1).
  - apply failed.
    destruct Hp as [Ha Hc|done a rest Hact Ha Hc|done e rest Ha Hex Hc].
    + apply navigation_failed; read_trace;
        by rewrite ?(attempted_no_notes tr1), ?(verified_no_notes tr1).
    + eapply action_failed; [done|..]; read_trace;
        by rewrite ?(attempted_no_notes tr1), ?(verified_no_notes tr1).
    + eapply verification_failed; [|done|]; read_trace;
        by rewrite ?(attempted_no_notes tr1), ?(verified_no_notes tr1).
Qed.

Lemma verdict_frame (tc : TestCase) (result : TestResult) tr r :
  verdict tc result tr r ->
  test_name r = test_name result /\ timestamp r = timestamp result /\
  execution_time r = execution_time result /\
  (status r = status result \/ status r = "PASS").
Proof. intros [Ha Hc|msg path Hp]; simpl; auto. Qed.

Lemma succeeded_no_failure (l : list (gmap string pyval)) i a :
  (succeeded <$> l) !! i = Some (a, false) -> False.
Proof.
  rewrite list_lookup_fmap. by destruct (l !! i).
Qed.

Lemma fst_succeeded (l : list (gmap string pyval)) : (succeeded <$> l).*1 = l.
Proof. rewrite <- list_fmap_compose. apply list_fmap_id. Qed.

(** C4, as amended.  From the record as created to the record as returned, a
    run changes neither [test_name] nor [timestamp]; [status] is left alone or
    set to PASS.  ([execution_time], [error_message] and [screenshot_path] are
    the fields a run stores into.) *)
Theorem result_frame (self : t) (tc : TestCase) (start_time : Q)
    (result : TestResult) (w : W) :
  exists r,
    value (run h (run_test self tc start_time result) w) = Ok r /\
    test_name r = test_name result /\
    timestamp r = timestamp result /\
    (status r = status result \/ status r = "PASS").
Proof.
  destruct (run_test_spec self tc start_time result w)
    as (r & duration & w' & tr & -> & Hv).
  apply verdict_frame in Hv as (Hn & Ht & _ & Hs).
  by exists (set_execution_time duration r).
Qed.

(** C5.  In a run of [execute_test], the calls of [execute_action] are made
    on an initial segment of the test's action list, in order and one call
    for each position; a call that returned [False] is the last one, and the
    result then has status FAIL. *)
Theorem each_action_attempted_once (self : t) (tc : TestCase) (w : W) :
  let o := run h (execute_test self tc) w in
  (attempted (trace o)).*1 `prefix_of` actions tc /\
  (forall i a, attempted (trace o) !! i = Some (a, false) ->
     S i = length (attempted (trace o)) /\
     exists r, value o = Ok r /\ status r = "FAIL").
Proof.
  destruct (execute_test_spec self tc w) as (stamp & r & duration & w' & tr & -> & Hv).
  cbn [value trace].
  destruct Hv as [Ha Hc|msg path [Ha Hc|done a rest Hact Ha Hc|done e rest Ha Hex Hc]];
    rewrite Ha.
  - split; [by rewrite fst_succeeded|].
    intros i a Hi. by apply succeeded_no_failure in Hi.
  - split; [apply prefix_nil|]. by intros i a.
  - split.
    + rewrite Hact, fmap_app, fst_succeeded. by apply prefix_app, prefix_cons, prefix_nil.
    + intros i a' Hi. apply lookup_app_Some in Hi as [Hi|[Hlen Hi]].
      { by apply succeeded_no_failure in Hi. }
      apply list_lookup_singleton_Some in Hi as [Hi _].
      split; [rewrite length_app; simpl; lia|]. by eexists.
  - split; [by rewrite fst_succeeded|].
    intros i a Hi. by apply succeeded_no_failure in Hi.
Qed.

(** C6, as amended.  Neither [execute_action] nor [verify_result] lets an
    exception out.  They are not a single delegated call: [execute_action]
    makes up to three and [verify_result] up to two, inside one try/except
    (and [verify_result] a second, inner one).  When a delegated call raises,
    [execute_action] returns [False]; [verify_result] returns [False] too,
    except for an expectation of type element_not_visible during which a call
    ([find_element] or [is_displayed]) raises NoSuchElementException, for
    which it returns [True]. *)
Theorem delegated_failures_are_caught (self : t) (d : gmap string pyval) (w : W) :
  (exists b,
     value (run h (execute_action self d) w) = Ok b /\
     (any_raised (trace (run h (execute_action self d) w)) = true -> b = false)) /\
  (exists b,
     value (run h (verify_result self d) w) = Ok b /\
     (any_raised (trace (run h (verify_result self d) w)) = true ->
      b = is_type d "element_not_visible"
          && any_raised_of NoSuchElementException
               (trace (run h (verify_result self d) w)))) /\
  (length (List.filter is_call (trace (run h (execute_action self d) w))) <= 3)%nat /\
  (length (List.filter is_call (trace (run h (verify_result self d) w))) <= 2)%nat.
Proof.
  split_and!.
  - destruct (execute_action_summary self d w) as (b & w' & tr & -> & _ & Hb).
    by exists b.
  - destruct (verify_result_summary self d w) as (b & w' & tr & -> & _ & Hb).
    by exists b.
  - explore; lia.
  - explore; lia.
Qed.

Definition statuses : list string := ["PASS"; "FAIL"; "SKIP"].

Lemma execute_test_status (self : t) (tc : TestCase) (w : W) :
  exists r,
    value (run h (execute_test self tc) w) = Ok r /\
    test_name r = name tc /\
    (status r = "PASS" \/ status r = "FAIL").
Proof.
  destruct (execute_test_spec self tc w) as (stamp & r & duration & w' & tr & -> & Hv).
  apply verdict_frame in Hv as (Hn & _ & _ & Hs).
  exists (set_execution_time duration r). simpl. split_and!; [done|done|].
  destruct Hs; auto.
Qed.

(** C9.  Whatever the actions and verifications did, [execute_test] returns a
    result whose status is PASS or FAIL, and so never SKIP; it is PASS only
    if every action and every verification returned [True]. *)
Theorem skip_is_unreachable (self : t) (tc : TestCase) (w : W) :
  let o := run h (execute_test self tc) w in
  exists r,
    value o = Ok r /\
    (status r = "PASS" \/ status r = "FAIL") /\
    status r <> "SKIP" /\
    (status r = "PASS" ->
     attempted (trace o) = succeeded <$> actions tc /\
     verified (trace o) = succeeded <$> expected_results tc).
Proof.
  destruct (execute_test_spec self tc w) as (stamp & r & duration & w' & tr & -> & Hv).
  exists (set_execution_time duration r). cbn [value trace].
  destruct Hv as [Ha Hc|msg path Hp]; simpl.
  - split_and!; [done|by left|done|done].
  - split_and!; [done|by right|done|done].
Qed.

Lemma any_raised_last {X} (op : Op X) (e : exn) (tr : list event) :
  any_raised (tr ++ [EvCall op (Raised e)]) = true.
Proof.
  unfold any_raised. rewrite existsb_app. simpl. by rewrite orb_true_r.
Qed.

Lemma any_raised_cons (ev : event) (tr : list event) :
  any_raised tr = true -> any_raised (ev :: tr) = true.
Proof. unfold any_raised. simpl. intros ->. by rewrite orb_true_r. Qed.

Lemma suite_loop_spec (self : t) : forall (tcs : list TestCase)
    (acc stored : list TestResult) (w : W),
  exists rs w' tr,
    run h (suite_loop (mk (timeout self) (driver self) (headless self) stored)
             acc tcs) w
    = Outcome (Ok (mk (timeout self) (driver self) (headless self) (stored ++ rs),
                   acc ++ rs)) w' tr /\
    Forall2 (fun r tc => test_name r = name tc /\
                         (status r = "PASS" \/ status r = "FAIL")) rs tcs.
Proof.
  induction tcs as [|tc tcs IH]; intros acc stored w.
  - exists [], w, []. by rewrite !app_nil_r.
  - cbn [suite_loop]. to_bind. rewrite run_bind.
    destruct (execute_test_status
                (mk (timeout self) (driver self) (headless self) stored) tc w)
      as (r & Hr & Hn & Hs).
    destruct (run h (execute_test _ tc) w) as [v w1 tr1]. simpl in Hr. subst v.
    unfold and_then; cbn [value world trace bind run].
    destruct (on_sys h (Sleep 1) w1) as [[] w2].
    unfold append_result; cbn [timeout driver headless results].
    destruct (IH (acc ++ [r]) (stored ++ [r]) w2) as (rs & w3 & tr3 & -> & Hrs).
    cbn [logged value world trace].
    exists (r :: rs), w3, (tr1 ++ EvSys (Sleep 1) () :: tr3).
    split; [|by constructor].
    by rewrite <- !app_assoc.
Qed.

(** The browser session starts and ends without an exception. *)
Definition session_ok : Prop :=
  forall w : W,
    (forall arguments, is_ok (on_call h (Chrome arguments) w).1 = true) /\
    (forall d t, is_ok (on_call h (ImplicitlyWait d t) w).1 = true) /\
    (forall d, is_ok (on_call h (Quit d) w).1 = true).

(** What [execute_test_suite] does: either the session fails to start or to
    end and the exception goes to the caller, or the list of results is
    returned, one for each test case and in the same order. *)
Lemma execute_test_suite_spec (self : t) (tcs : list TestCase) (w : W) :
  let o := run h (execute_test_suite self tcs) w in
  match value o with
  | Ok (self', rs) =>
      Forall2 (fun r tc => test_name r = name tc /\
                           (status r = "PASS" \/ status r = "FAIL")) rs tcs /\
      results self' = results self ++ rs
  | Raised e => any_raised (trace o) = true
  end.
Proof.
  unfold execute_test_suite, setup_driver, call. to_bind. cbn [bind run].
  destruct (on_call h (Chrome _) w) as [[d|e] w1]; cbn [bind run logged value trace];
    [|done].
  destruct (on_call h (ImplicitlyWait _ _) w1) as [[[]|e] w2];
    cbn [bind run logged value trace]; [|done].
  rewrite run_try_finally.
  destruct (suite_loop_spec (set_driver d self) tcs [] (results self) w2)
    as (rs & w3 & tr3 & Hrun & Hrs).
  unfold set_driver in *. cbn [timeout driver headless results] in *.
  rewrite Hrun. unfold and_then, quit_driver, call.
    cbn [value world trace driver bind run].
  destruct (on_call h (Quit d) w3) as [[[]|e] w4]; cbn [bind run logged value trace].
  - done.
  - by do 2 apply any_raised_cons; apply any_raised_last.
Qed.

(** C2.  When the browser session starts and ends without an exception,
    [execute_test_suite] returns a list with exactly one result for each test
    case, in the order of the input, the i-th result carrying the name of the
    i-th test case. *)
Theorem one_result_per_test_case (self : t) (tcs : list TestCase) (w : W) :
  session_ok ->
  exists self' rs,
    value (run h (execute_test_suite self tcs) w) = Ok (self', rs) /\
    length rs = length tcs /\
    (forall i tc, tcs !! i = Some tc ->
       exists r, rs !! i = Some r /\ test_name r = name tc) /\
    test_name <$> rs = name <$> tcs.
Proof.
  intros Hok.
  assert (exists self' rs,
    value (run h (execute_test_suite self tcs) w) = Ok (self', rs)) as (self' & rs & E).
  { unfold execute_test_suite, setup_driver, call. to_bind. cbn [bind run].
    pose proof (Hok w) as (Hc & _). specialize (Hc
      ((if headless self then ["--headless"] else []) ++
       ["--no-sandbox"; "--disable-dev-shm-usage"; "--window-size=1920,1080"])).
    destruct (on_call h (Chrome _) w) as [[d|e] w1]; [|done].
    cbn [bind run logged value trace].
    pose proof (Hok w1) as (_ & Hi & _). specialize (Hi d (timeout (set_driver d self))).
    destruct (on_call h (ImplicitlyWait _ _) w1) as [[[]|e] w2]; [|done].
    cbn [bind run logged value trace]. rewrite run_try_finally.
    destruct (suite_loop_spec (set_driver d self) tcs [] (results self) w2)
      as (rs & w3 & tr3 & Hrun & Hrs).
    unfold set_driver in *. cbn [timeout driver headless results] in *.
    rewrite Hrun. unfold and_then, quit_driver, call.
    cbn [value world trace driver bind run].
    pose proof (Hok w3) as (_ & _ & Hq). specialize (Hq d).
    destruct (on_call h (Quit d) w3) as [[[]|e] w4]; [|done].
    by eexists _, _. }
  exists self', rs. split; [done|].
  pose proof (execute_test_suite_spec self tcs w) as Hspec. cbn zeta in Hspec.
  rewrite E in Hspec. destruct Hspec as [Hrs _].
  split_and!.
  - by eapply Forall2_length.
  - intros i tc Hi. destruct (Forall2_lookup_r _ _ _ _ _ Hrs Hi) as (r & Hr & Hn & _).
    by exists r.
  - clear E. induction Hrs as [|r tc rs' tcs' [Hn _] _ IH]; [done|].
    by rewrite !fmap_cons, Hn, IH.
Qed.

(** C7.  Every status the executor produces is one of PASS, FAIL and SKIP: a
    result is created with FAIL, a run leaves the status alone or sets it to
    PASS, and so every result [execute_test] returns, and every result in the
    list [execute_test_suite] returns, has its status in the set. *)
Theorem status_in_set (self : t) (tc : TestCase) (tcs : list TestCase) (w : W) :
  (exists start_time r0,
     value (run h (new_result tc) w) = Ok (start_time, r0) /\ status r0 = "FAIL") /\
  (forall start_time result,
     exists r, value (run h (run_test self tc start_time result) w) = Ok r /\
               (status r = status result \/ status r = "PASS")) /\
  (exists r, value (run h (execute_test self tc) w) = Ok r /\ status r ∈ statuses) /\
  (forall self' rs,
     value (run h (execute_test_suite self tcs) w) = Ok (self', rs) ->
     Forall (fun r => status r ∈ statuses) rs).
Proof.
  split_and!.
  - destruct (new_result_spec tc w) as (start_time & stamp & w' & tr & -> & _).
    by eexists _, _.
  - intros start_time result.
    destruct (run_test_spec self tc start_time result w)
      as (r & duration & w' & tr & -> & Hv).
    apply verdict_frame in Hv as (_ & _ & _ & Hs).
    by exists (set_execution_time duration r).
  - destruct (execute_test_status self tc w) as (r & Hr & _ & Hs).
    exists r. split; [done|]. unfold statuses. destruct Hs as [-> | ->]; set_solver.
  - intros self' rs E.
    pose proof (execute_test_suite_spec self tcs w) as Hspec. cbn zeta in Hspec.
    rewrite E in Hspec. destruct Hspec as [Hrs _].
    clear E. induction Hrs as [|r tc' rs' tcs' [_ Hs] _ IH]; [by constructor|].
    constructor; [|done].
    unfold statuses. destruct Hs as [-> | ->]; set_solver.
Qed.

End Facts.

(** *** The primitive actions *)

(** The values of ["action"] that [execute_action] has a branch for. *)
Definition primitive (v : pyval) : bool :=
  eq_str v "input" || eq_str v "click" || eq_str v "clear_field" || eq_str v "wait".

Definition is_ret {A} (p : prog A) : bool :=
  match p with Ret _ => true | _ => false end.

(** C8.  [execute_action] performs input, click, clear_field and wait and
    nothing else.  For a descriptor whose "action" is none of the four it is
    the program that makes no call at all and returns [True].  For the four
    it makes calls, and when none of them raises these are: for input, the
    wait for the element's presence, [clear] and [send_keys] of the value; for
    click, the wait for the element to be clickable and [click]; for
    clear_field, [find_element] and [clear]; for wait, one sleep of the given
    number of seconds (one second without "time"; stated up to 4294967
    seconds, which every platform can sleep); each then returns [True]. *)
Theorem only_primitive_actions_act `{Repr} (self : t)
    (action : gmap string pyval) (v : pyval) :
  action !! "action" = Some v ->
  (if primitive v then is_ret (execute_action self action) = false
   else execute_action self action = Ret true /\
        forall (W : Type) (h : handler W) (w : W),
          run h (execute_action self action) w = Outcome (Ok true) w []) /\
  forall (W : Type) (h : handler W) (w : W),
    let o := run h (execute_action self action) w in
    (forall d sel, driver self = Some d -> action !! "selector" = Some sel ->
       any_raised (trace o) = false ->
       (eq_str v "input" = true ->
        forall txt, action !! "value" = Some txt ->
          value o = Ok true /\
          exists el,
            trace o =
              [ EvCall (WaitUntil d (timeout self) presence_of_element_located sel)
                  (Ok el);
                EvCall (Clear el) (Ok ());
                EvCall (SendKeys el txt) (Ok ()) ]) /\
       (eq_str v "click" = true ->
        value o = Ok true /\
        exists el,
          trace o =
            [ EvCall (WaitUntil d (timeout self) element_to_be_clickable sel)
                (Ok el);
              EvCall (Click el) (Ok ()) ]) /\
       (eq_str v "clear_field" = true ->
        value o = Ok true /\
        exists el,
          trace o = [ EvCall (FindElement d sel) (Ok el);
                      EvCall (Clear el) (Ok ()) ])) /\
    (eq_str v "wait" = true ->
     (action !! "time" = None ->
      value o = Ok true /\ trace o = [EvSys (Sleep 1) ()]) /\
     (forall z, action !! "time" = Some (VInt z) ->
        (0 <= z <= 4294967)%Z ->
        value o = Ok true /\ trace o = [EvSys (Sleep (inject_Z z)) ()])).
Proof.
  intros Hv. split.
  { unfold primitive.
    destruct (eq_str v "input") eqn:E1; cbn [orb].
    { unfold_prog. rewrite Hv. cbn. rewrite E1.
      repeat (explore_step; cbn); done. }
    destruct (eq_str v "click") eqn:E2; cbn [orb].
    { unfold_prog. rewrite Hv. cbn. rewrite E1. cbn. rewrite E2.
      repeat (explore_step; cbn); done. }
    destruct (eq_str v "clear_field") eqn:E3; cbn [orb].
    { unfold_prog. rewrite Hv. cbn. rewrite E1. cbn. rewrite E2. cbn. rewrite E3.
      repeat (explore_step; cbn); done. }
    destruct (eq_str v "wait") eqn:E4; cbn [orb].
    { unfold_prog. rewrite Hv. cbn. rewrite E1. cbn. rewrite E2. cbn. rewrite E3.
      cbn. rewrite E4. repeat (explore_step; cbn); done. }
    assert (execute_action self action = Ret true) as ->; [|done].
    unfold_prog. rewrite Hv. cbn. rewrite E1. cbn. rewrite E2. cbn. rewrite E3.
    cbn. by rewrite E4. }
  intros W h w. cbn zeta. split.
  - intros d sel Hd Hsel Hq. split_and!.
    + intros E txt Htxt. apply eq_str_true in E. subst v. revert Hq.
      unfold_prog. rewrite Hv, Hd. cbn. rewrite Hsel, Htxt. cbn.
      repeat (explore_step; cbn); try done.
      intros _. destruct r0, r1. split; [done|]. by eexists.
    + intros E. apply eq_str_true in E. subst v. revert Hq.
      unfold_prog. rewrite Hv, Hd. cbn. rewrite Hsel. cbn.
      repeat (explore_step; cbn); try done.
      intros _. destruct r0. split; [done|]. by eexists.
    + intros E. apply eq_str_true in E. subst v. revert Hq.
      unfold_prog. rewrite Hv, Hd. cbn. rewrite Hsel. cbn.
      repeat (explore_step; cbn); try done.
      intros _. destruct r0. split; [done|]. by eexists.
  - intros E. apply eq_str_true in E. subst v. split.
    + intros Ht. unfold_prog. rewrite Hv. cbn. unfold dict_get. rewrite Ht. cbn.
      change (int_overflows 1) with false. cbn.
      repeat (explore_step; cbn).
      by repeat match goal with u : () |- _ => destruct u end.
    + intros z Ht Hz. unfold_prog. rewrite Hv. cbn. unfold dict_get.
      rewrite Ht. cbn. rewrite int_overflows_spec.
      destruct (Z.ltb_spec z (-9223372036)); [lia|].
      destruct (Z.ltb_spec 9223372036 z); [lia|].
      destruct (Z.ltb_spec z 0); [lia|]. cbn.
      repeat (explore_step; cbn).
      by repeat match goal with u : () |- _ => destruct u end.
Qed.

(** *** Sample runs *)

(** A browser and a system that answer every call with a fixed value. *)
Definition answer {X} (op : Op X) : X :=
  match op with
  | Chrome _ => 0%nat
  | ImplicitlyWait _ _ => tt
  | Get _ _ => tt
  | WaitUntil _ _ _ _ => 1%nat
  | FindElement _ _ => 1%nat
  | Clear _ => tt
  | SendKeys _ _ => tt
  | Click _ => tt
  | IsDisplayed _ => true
  | Text _ => "Welcome"
  | CurrentUrl _ => "http://localhost/"
  | Title _ => "Home"
  | SaveScreenshot _ _ => true
  | Quit _ => tt
  | Makedirs _ => tt
  | WriteFile _ _ => tt
  | Getcwd => "/srv/app"
  | SubprocessRun _ => 0%Z
  | SendFromDirectory _ _ => "<html></html>"
  end.

Definition sys_answer {X} (op : SysOp X) : X :=
  match op with
  | TimeTime => 1700000000%Q
  | Now isoformat => "2023-11-14T22:13:20"
  | Now (strftime _) => "20231114_221320"
  | Sleep _ => tt
  | Log _ _ => tt
  | PathExists _ => true
  end.

Definition is_get {X} (op : Op X) : bool :=
  match op with Get _ _ => true | _ => false end.

Definition is_find_element {X} (op : Op X) : bool :=
  match op with FindElement _ _ => true | _ => false end.

(** Every call succeeds. *)
Definition cooperative : handler unit :=
  Handler (fun X op w => (Ok (answer op), w)) (fun X op w => (sys_answer op, w)).

(** The page cannot be loaded. *)
Definition unreachable : handler unit :=
  Handler
    (fun X op w =>
       (if is_get op
        then Raised (Exn WebDriverException "net::ERR_CONNECTION_REFUSED")
        else Ok (answer op), w))
    (fun X op w => (sys_answer op, w)).

(** No element is ever found. *)
Definition missing_element : handler unit :=
  Handler
    (fun X op w =>
       (if is_find_element op
        then Raised (Exn NoSuchElementException "no such element")
        else Ok (answer op), w))
    (fun X op w => (sys_answer op, w)).

Definition value_of {A W} (o : outcome A W) : option A :=
  match value o with Ok a => Some a | Raised _ => None end.

Definition posix : OsPath := fun a b => a +:+ "/" +:+ b.

Definition sample_repr : Repr := GeneratorFacts.sample_repr.

(** The page-load test [generate_regression_tests] builds for a page "home". *)
Definition page_load_test : TestCase :=
  {| name := "test_page_load_home";
     url := VStr "http://localhost/";
     actions := [ {[ "action" := VStr "wait"; "time" := VInt 2 ]} ];
     expected_results := [ {[ "type" := VStr "title_contains"; "value" := VStr "home" ]} ];
     test_type := "regression";
     priority := "medium";
     tags := Some ["page_load"; "regression"] |}.

Definition banner_gone_test : TestCase :=
  {| name := "test_banner_gone";
     url := VStr "http://localhost/";
     actions := [ {[ "action" := VStr "click"; "selector" := VStr "#close" ]} ];
     expected_results :=
       [ {[ "type" := VStr "element_not_visible"; "selector" := VStr "#banner" ]} ];
     test_type := "functional";
     priority := "medium";
     tags := None |}.

(** An executor whose driver has been set up. *)
Definition ready : t := set_driver 0%nat (init true 10).

Lemma only_primitive_actions_act_witness :
  @execute_action sample_repr ready
    {[ "action" := VStr "hover"; "selector" := VStr "#menu" ]} = Ret true /\
  let o := run cooperative
             (@execute_action sample_repr ready
                {[ "action" := VStr "click"; "selector" := VStr "#close" ]}) tt in
  value o = Ok true /\
  exists el,
    trace o = [ EvCall (WaitUntil 0%nat 10 element_to_be_clickable (VStr "#close"))
                  (Ok el);
                EvCall (Click el) (Ok ()) ].
Proof.
  split.
  - assert (({[ "action" := VStr "hover"; "selector" := VStr "#menu" ]}
               : gmap string pyval) !! "action" = Some (VStr "hover")) as Hv
      by reflexivity.
    exact (proj1 (proj1 (@only_primitive_actions_act sample_repr ready _ _ Hv))).
  - assert (({[ "action" := VStr "click"; "selector" := VStr "#close" ]}
               : gmap string pyval) !! "action" = Some (VStr "click")) as Hv
      by reflexivity.
    destruct (proj2 (@only_primitive_actions_act sample_repr ready _ _ Hv)
                unit cooperative tt) as [Hcalls _].
    apply (Hcalls 0%nat (VStr "#close")); reflexivity.
Defined.

Lemma one_result_per_test_case_witness :
  exists self' rs,
    value (run cooperative
             (@execute_test_suite sample_repr posix (init true 10)
                [page_load_test; banner_gone_test]) tt) = Ok (self', rs) /\
    length rs = 2%nat /\
    (forall i tc, [page_load_test; banner_gone_test] !! i = Some tc ->
       exists r, rs !! i = Some r /\ test_name r = name tc) /\
    test_name <$> rs = ["test_page_load_home"; "test_banner_gone"].
Proof.
  apply (@one_result_per_test_case sample_repr posix unit cooperative
           (init true 10) [page_load_test; banner_gone_test] tt).
  intros w. split_and!; reflexivity.
Defined.

(** Two runs of [execute_test], traced by hand against the source. *)
Example page_load_passes :
  let o := run cooperative
             (@execute_test sample_repr posix ready page_load_test) tt in
  status <$> value_of o = Some "PASS" /\
  attempted (trace o) = [({[ "action" := VStr "wait"; "time" := VInt 2 ]}, true)].
Proof. vm_compute. split; reflexivity. Qed.

Example unreachable_page_fails :
  let o := run unreachable
             (@execute_test sample_repr posix ready page_load_test) tt in
  status <$> value_of o = Some "FAIL" /\ attempted (trace o) = [].
Proof. vm_compute. split; reflexivity. Qed.

(** C4 fails as stated: when the page cannot be loaded, the returned record
    differs from the created one in [error_message] and [screenshot_path]. *)
Lemma error_fields_are_stored :
  exists start_time r0 r,
    value (run unreachable (new_result page_load_test) tt) = Ok (start_time, r0) /\
    value (run unreachable (@execute_test sample_repr posix ready page_load_test) tt)
      = Ok r /\
    error_message r0 = "" /\
    error_message r = "net::ERR_CONNECTION_REFUSED" /\
    screenshot_path r0 = "" /\
    screenshot_path r = "screenshots/test_page_load_home_20231114_221320.png".
Proof. do 3 eexists. vm_compute. split_and!; reflexivity. Qed.

(** The element is found, but asking whether it is displayed fails. *)
Definition is_is_displayed {X} (op : Op X) : bool :=
  match op with IsDisplayed _ => true | _ => false end.

Definition vanishing_element : handler unit :=
  Handler
    (fun X op w =>
       (if is_is_displayed op
        then Raised (Exn NoSuchElementException "no such element")
        else Ok (answer op), w))
    (fun X op w => (sys_answer op, w)).

(** C6 fails as stated.  [verify_result] returns [True] although a delegated
    call raised, be it the lookup or the question whether the element is
    displayed; and an input action is three delegated calls, not one. *)
Lemma neither_one_call_nor_always_false :
  let banner_gone : gmap string pyval :=
    {[ "type" := VStr "element_not_visible"; "selector" := VStr "#banner" ]} in
  let type_name : gmap string pyval :=
    {[ "action" := VStr "input"; "selector" := VStr "#name";
       "value" := VStr "Ann" ]} in
  let o1 := run missing_element (@verify_result sample_repr ready banner_gone) tt in
  let o2 := run vanishing_element (@verify_result sample_repr ready banner_gone) tt in
  let o3 := run cooperative (@execute_action sample_repr ready type_name) tt in
  (value o1 = Ok true /\ any_raised (trace o1) = true) /\
  (value o2 = Ok true /\
   trace o2 = [ EvCall (FindElement 0%nat (VStr "#banner")) (Ok 1%nat);
                EvCall (IsDisplayed 1%nat)
                  (Raised (Exn NoSuchElementException "no such element")) ]) /\
  (value o3 = Ok true /\
   trace o3 = [ EvCall (WaitUntil 0%nat 10 presence_of_element_located
                          (VStr "#name")) (Ok 1%nat);
                EvCall (Clear 1%nat) (Ok ());
                EvCall (SendKeys 1%nat (VStr "Ann")) (Ok ()) ]).
Proof. vm_compute. split_and!; reflexivity. Qed.

End ExecutorFacts.

(** ** The report statistics *)

Module ReportFacts.
Import ReportGenerator Float64 Float64Facts.

Lemma of_len_nonneg (n : nat) : 0 <= of_len n.
Proof. unfold of_len. change 0 with (inject_Z 0). rewrite <- Zle_Qle. lia. Qed.

Lemma of_len_pos (n : nat) : (0 < n)%nat -> 0 < of_len n.
Proof. unfold of_len. change 0 with (inject_Z 0). rewrite <- Zlt_Qlt. lia. Qed.

Lemma of_len_le (a b : nat) : (a <= b)%nat -> of_len a <= of_len b.
Proof. unfold of_len. rewrite <- Zle_Qle. lia. Qed.

(** The quotient of two lengths. *)
Lemma ratio_bounds (p t : nat) :
  (p <= t)%nat -> (0 < t)%nat ->
  0 <= of_len p / of_len t /\ of_len p / of_len t <= 1.
Proof.
  intros Hle Hpos. pose proof (of_len_pos t Hpos) as Ht.
  pose proof (of_len_nonneg p) as Hp. pose proof (of_len_le p t Hle) as Hpt.
  split.
  - apply Qle_shift_div_l; [done|]. lra.
  - apply Qle_shift_div_r; [done|]. lra.
Qed.

Lemma round64_ratio_bounds (p t : nat) :
  (p <= t)%nat -> (0 < t)%nat ->
  0 <= round64 (of_len p / of_len t) /\ round64 (of_len p / of_len t) <= 1.
Proof.
  intros Hle Hpos. destruct (ratio_bounds p t Hle Hpos) as [Hlo Hhi].
  split; [by apply round64_nonneg|].
  by apply (round64_le_int _ 1).
Qed.

(** The rate lies between 0 and 100. *)
Lemma percentage_bounds (p t : nat) :
  (p <= t)%nat -> (0 < t)%nat -> 0 <= percentage p t /\ percentage p t <= 100.
Proof.
  intros Hle Hpos. unfold percentage.
  destruct (round64_ratio_bounds p t Hle Hpos) as [Hlo Hhi].
  split; [apply round64_nonneg; lra|].
  apply (round64_le_int _ 100); [lia|lra|]. change (inject_Z 100) with 100. lra.
Qed.

(** When all passed the rate is 100. *)
Lemma percentage_all (t : nat) : (0 < t)%nat -> percentage t t = 100.
Proof.
  intros Hpos. unfold percentage.
  assert (of_len t / of_len t == 1) as H1.
  { pose proof (of_len_pos t Hpos). field. lra. }
  rewrite (round64_proper _ _ H1).
  change (round64 1) with 1. reflexivity.
Qed.

(** The rate is within [2^-45] of the exact percentage. *)
Lemma percentage_error (p t : nat) :
  (p <= t)%nat -> (0 < t)%nat ->
  100 * of_len p / of_len t - (1 # 35184372088832) <= percentage p t /\
  percentage p t <= 100 * of_len p / of_len t + (1 # 35184372088832).
Proof.
  intros Hle Hpos. unfold percentage.
  destruct (ratio_bounds p t Hle Hpos) as [Hlo Hhi].
  destruct (round64_ratio_bounds p t Hle Hpos) as [Hlo1 Hhi1].
  assert (100 * of_len p / of_len t == 100 * (of_len p / of_len t)) as ->.
  { pose proof (of_len_pos t Hpos). field. lra. }
  set (x := of_len p / of_len t) in *.
  destruct (round64_error x 0) as [He1 He2]; [done| |lia|].
  { assert (pow2 (0 + 1) == 2) as -> by reflexivity. lra. }
  assert (pow2 (0 - 53) == 1 # 9007199254740992) as Hp1 by reflexivity.
  rewrite Hp1 in He1, He2.
  set (r := round64 x) in *.
  destruct (round64_error (r * 100) 6) as [He3 He4]; [lra| |lia|].
  { assert (pow2 (6 + 1) == 128) as -> by reflexivity. lra. }
  assert (pow2 (6 - 53) == 1 # 140737488355328) as Hp2 by reflexivity.
  rewrite Hp2 in He3, He4.
  set (y := round64 (r * 100)) in *. clearbody x r y. split; lra.
Qed.

(** Below 2^53 results, a rate of 100 means that all passed. *)
Lemma percentage_lt (p t : nat) :
  (p < t)%nat -> (Z.of_nat t <= 2 ^ 53)%Z -> percentage p t < 100.
Proof.
  intros Hlt Ht. unfold percentage.
  destruct (round64_ratio_bounds p t ltac:(lia) ltac:(lia)) as [Hlo1 _].
  destruct (ratio_bounds p t ltac:(lia) ltac:(lia)) as [Hlo _].
  assert (round64 (of_len p / of_len t)
          <= inject_Z (2 ^ 53 - 1) * pow2 (Z.opp 53)) as Hr.
  { apply (round64_le_dyadic _ (2 ^ 53 - 1) 53); [lia|lia| |done].
    assert (inject_Z (2 ^ 53 - 1) * pow2 (Z.opp 53)
            == 9007199254740991 # 9007199254740992) as -> by reflexivity.
    apply Qle_shift_div_r; [apply of_len_pos; lia|].
    unfold of_len, Qle, Qmult, inject_Z. cbn [Qnum Qden]. lia. }
  assert (inject_Z (2 ^ 53 - 1) * pow2 (Z.opp 53)
          == 9007199254740991 # 9007199254740992) as Hb1 by reflexivity.
  rewrite Hb1 in Hr.
  set (r := round64 (of_len p / of_len t)) in *. clearbody r.
  assert (round64 (r * 100) <= inject_Z (100 * 2 ^ 46 - 1) * pow2 (Z.opp 46)) as Hy.
  { assert (inject_Z (100 * 2 ^ 46 - 1) * pow2 (Z.opp 46)
            == 7036874417766399 # 70368744177664) as Hb2 by reflexivity.
    destruct (Qlt_le_dec (7036874417766399 # 70368744177664) (r * 100))
      as [Hbig|Hsmall].
    - apply (round64_below_half _ (100 * 2 ^ 46 - 1) (-46)); [lra| | |lia|].
      + assert (pow2 (- 46 + 52) == 64) as -> by reflexivity. lra.
      + assert (pow2 (- 46 + 53) == 128) as -> by reflexivity. lra.
      + assert ((inject_Z (100 * 2 ^ 46 - 1) + (1 # 2)) * pow2 (Z.opp 46)
                == 14073748835532799 # 140737488355328) as -> by reflexivity.
        lra.
    - apply (round64_le_dyadic _ (100 * 2 ^ 46 - 1) 46); [lia|lia| |lra].
      rewrite Hb2. lra. }
  assert (inject_Z (100 * 2 ^ 46 - 1) * pow2 (Z.opp 46)
          == 7036874417766399 # 70368744177664) as Hb2 by reflexivity.
  rewrite Hb2 in Hy. lra.
Qed.

Section Facts.
Context `{FloatSum}.

(** C10, as amended.  [generate_summary_stats] returns the empty dict for the
    empty list.  For a list that is not empty, total_tests is its length,
    passed_tests and failed_tests are the numbers of results with status PASS
    and FAIL, and pass_rate is the double the code computes as
    passed_tests / total_tests * 100: the quotient rounded to a double, times
    100, rounded again.  It lies within 2^-45 of 100 times passed_tests
    divided by total_tests. *)
Theorem summary_counts_and_rate (results : list TestResult) :
  generate_summary_stats [] = ∅ /\
  (results <> [] ->
   let stats := generate_summary_stats results in
   let total := length results in
   let passed := length (filter (fun r => status r = "PASS") results) in
   let failed := length (filter (fun r => status r = "FAIL") results) in
   let exact := (100 * inject_Z (Z.of_nat passed) / inject_Z (Z.of_nat total))%Q in
   stats !! "total_tests" = Some (VInt (Z.of_nat total)) /\
   stats !! "passed_tests" = Some (VInt (Z.of_nat passed)) /\
   stats !! "failed_tests" = Some (VInt (Z.of_nat failed)) /\
   exists rate,
     stats !! "pass_rate" = Some (VFloat rate) /\
     rate = round64 (round64 (inject_Z (Z.of_nat passed)
                              / inject_Z (Z.of_nat total)) * 100) /\
     (exact - (1 # 35184372088832) <= rate)%Q /\
     (rate <= exact + (1 # 35184372088832))%Q).
Proof.
  split; [done|]. intros Hne.
  destruct results as [|r rs]; [done|].
  cbn zeta. unfold generate_summary_stats.
  split_and!; try by simplify_map_eq.
  eexists. split; [by simplify_map_eq|]. split; [done|].
  apply (percentage_error (count_status "PASS" (r :: rs)) (length (r :: rs))).
  - apply length_filter.
  - simpl. lia.
Qed.

End Facts.

(** One addition, one rounding: [sum] as the interpreter computed it before
    compensated summation. *)
Definition naive_sum : FloatSum :=
  foldl (fun acc x => round64 (acc + x)) 0.

Definition sample_results : list TestResult :=
  [ mkTestResult "test_a" "PASS" (3 # 2) "" "" "2023-11-14T22:13:20";
    mkTestResult "test_b" "FAIL" (1 # 2) "Action failed: {}" "" "2023-11-14T22:13:22";
    mkTestResult "test_c" "PASS" 1 "" "" "2023-11-14T22:13:23" ].

Lemma summary_counts_and_rate_witness :
  let stats := @generate_summary_stats naive_sum sample_results in
  stats !! "total_tests" = Some (VInt 3) /\
  stats !! "passed_tests" = Some (VInt 2) /\
  stats !! "failed_tests" = Some (VInt 1) /\
  exists rate,
    stats !! "pass_rate" = Some (VFloat rate) /\
    rate = round64 (round64 (2 / 3) * 100) /\
    (100 * 2 / 3 - (1 # 35184372088832) <= rate)%Q /\
    (rate <= 100 * 2 / 3 + (1 # 35184372088832))%Q.
Proof.
  apply (proj2 (@summary_counts_and_rate naive_sum sample_results)). discriminate.
Defined.

(** C10 fails as stated: for two results of three that passed, pass_rate is
    66.66666666666666 (2345624805922133 / 2^45), which is neither 200/3 nor
    the double nearest to it, 66.66666666666667. *)
Lemma pass_rate_is_rounded_twice :
  let stats := @generate_summary_stats naive_sum sample_results in
  let rate := (2345624805922133 # 35184372088832)%Q in
  stats !! "passed_tests" = Some (VInt 2) /\
  stats !! "total_tests" = Some (VInt 3) /\
  stats !! "pass_rate" = Some (VFloat rate) /\
  ~ (rate == 100 * 2 / 3)%Q /\
  rate <> round64 (100 * 2 / 3) /\
  (rate < round64 (100 * 2 / 3))%Q.
Proof. vm_compute. split_and!; try reflexivity; discriminate. Qed.

End ReportFacts.

(** ** The web front end *)

Module WebFacts.
Import WebTester.

(** The rules the application registers itself. *)
Definition own (r : route) : bool := negb (String.eqb (endpoint r) "static").

(** C3 fails as stated: next to the rule for static files that every Flask
    application has, the application registers two rules, not one. *)
Lemma two_routes :
  url_map =
    [ Route "/static/<path:filename>" ["GET"; "HEAD"; "OPTIONS"] "static";
      Route "/report" ["GET"; "HEAD"; "OPTIONS"] "report";
      Route "/" ["GET"; "POST"; "HEAD"; "OPTIONS"] "index" ] /\
  ~ (exists r, url_map = [r]) /\
  ~ (exists r, List.filter own url_map = [r]).
Proof. split; [done|]. split; by intros [r Hr]. Qed.

Ltac unfold_view :=
  unfold index, call, sys, lift, mbind, prog_bind, mret, prog_ret in *.

(** The calls a POST makes, in order, when none raises. *)
Definition post_calls `{OsPath} (u test_type cwd : string) (rc : Z)
    (found : bool) : list event :=
  [ EvCall (WriteFile "webtest_url.txt" u) (Ok ());
    EvCall Getcwd (Ok cwd);
    EvCall (SubprocessRun
              [ os_path_join (os_path_join (os_path_join cwd "myenv") "Scripts")
                  "python.exe";
                "test.py"; "--test-type"; test_type ]) (Ok rc);
    EvSys (PathExists "test_report.html") found ].

(** C3, as amended.  Next to Flask's rule for static files the application
    registers two rules: "/report" for [report], which answers GET and serves
    test_report.html from the current directory, and "/" for [index], which
    answers GET and POST (Flask adds HEAD and OPTIONS to both).  A request to
    "/" that is not a POST makes no call and renders the form without a link.
    A POST with a URL writes the URL to webtest_url.txt, reads the working
    directory, runs the test script once with the chosen test type, looks
    once for test_report.html, and renders the link to /report, with the time
    as query, exactly when the report was found.  The first delegated call
    that raises ends the request with its exception: the script is run
    exactly when the write and the working-directory lookup returned, and the
    report is looked for exactly when the script run returned. *)
Theorem index_post `{OsPath} {W : Type} (h : handler W)
    (form : gmap string string) (u : string) (w : W) :
  form !! "url" = Some u ->
  let o := run h (index "POST" form) w in
  let test_type := default "all" (form !! "test_type") in
  List.filter own url_map =
    [ Route "/report" ["GET"; "HEAD"; "OPTIONS"] "report";
      Route "/" ["GET"; "POST"; "HEAD"; "OPTIONS"] "index" ] /\
  (exists r, value (run h report w) = r /\
     trace (run h report w)
     = [EvCall (SendFromDirectory "." "test_report.html") r]) /\
  (forall method, method <> "POST" -> index method form = Ret (Page None)) /\
  ((exists e, value o = Raised e /\
      trace o = [EvCall (WriteFile "webtest_url.txt" u) (Raised e)]) \/
   (exists e, value o = Raised e /\
      trace o = [ EvCall (WriteFile "webtest_url.txt" u) (Ok ());
                  EvCall Getcwd (Raised e) ]) \/
   (exists cwd e, value o = Raised e /\
      trace o =
        [ EvCall (WriteFile "webtest_url.txt" u) (Ok ());
          EvCall Getcwd (Ok cwd);
          EvCall (SubprocessRun
                    [ os_path_join
                        (os_path_join (os_path_join cwd "myenv") "Scripts")
                        "python.exe";
                      "test.py"; "--test-type"; test_type ]) (Raised e) ]) \/
   (exists cwd rc, value o = Ok (Page None) /\
      trace o = post_calls u test_type cwd rc false) \/
   (exists cwd rc now,
      value o = Ok (Page (Some ("/report?t=" +:+ pretty (py_int now)))) /\
      trace o = post_calls u test_type cwd rc true ++ [EvSys TimeTime now])).
Proof.
  intros Hu. cbn zeta. split; [done|]. split.
  { unfold report, call. cbn [run].
    destruct (on_call h (SendFromDirectory _ _) w) as [[x|e] w1];
      cbn [run logged value trace]; by eexists. }
  split.
  { intros method Hm. unfold index.
    by destruct (String.eqb_spec method "POST"). }
  unfold_view. rewrite Hu.
  change (String.eqb "POST" "POST") with true. cbn [bind run].
  destruct (on_call h (WriteFile _ _) w) as [[[]|e] w1];
    cbn [bind run logged value trace]; [|left; by exists e].
  destruct (on_call h Getcwd w1) as [[cwd|e] w2];
    cbn [bind run logged value trace]; [|right; left; by exists e].
  destruct (on_call h (SubprocessRun _) w2) as [[rc|e] w3];
    cbn [bind run logged value trace]; [|right; right; left; by exists cwd, e].
  destruct (on_sys h (PathExists _) w3) as [[] w4];
    cbn [bind run logged value trace].
  - destruct (on_sys h TimeTime w4) as [now w5]. cbn [bind run logged value trace].
    do 4 right. by exists cwd, rc, now.
  - do 3 right; left. by exists cwd, rc.
Qed.

(** A GET makes no call and renders the form without a link. *)
Lemma index_get `{OsPath} (form : gmap string string) :
  index "GET" form = Ret (Page None).
Proof. done. Qed.

Definition sample_form : gmap string string :=
  {[ "url" := "http://localhost/"; "test_type" := "form" ]}.

Lemma index_post_witness :
  let o := run ExecutorFacts.cooperative
             (@index ExecutorFacts.posix "POST" sample_form) tt in
  let u := "http://localhost/" in
  List.filter own url_map =
    [ Route "/report" ["GET"; "HEAD"; "OPTIONS"] "report";
      Route "/" ["GET"; "POST"; "HEAD"; "OPTIONS"] "index" ] /\
  (exists r, value (run ExecutorFacts.cooperative report tt) = r /\
     trace (run ExecutorFacts.cooperative report tt)
     = [EvCall (SendFromDirectory "." "test_report.html") r]) /\
  (forall method, method <> "POST" ->
     @index ExecutorFacts.posix method sample_form = Ret (Page None)) /\
  ((exists e, value o = Raised e /\
      trace o = [EvCall (WriteFile "webtest_url.txt" u) (Raised e)]) \/
   (exists e, value o = Raised e /\
      trace o = [ EvCall (WriteFile "webtest_url.txt" u) (Ok ());
                  EvCall Getcwd (Raised e) ]) \/
   (exists cwd e, value o = Raised e /\
      trace o =
        [ EvCall (WriteFile "webtest_url.txt" u) (Ok ());
          EvCall Getcwd (Ok cwd);
          EvCall (SubprocessRun
                    [ ExecutorFacts.posix
                        (ExecutorFacts.posix (ExecutorFacts.posix cwd "myenv")
                           "Scripts")
                        "python.exe";
                      "test.py"; "--test-type"; "form" ]) (Raised e) ]) \/
   (exists cwd rc, value o = Ok (Page None) /\
      trace o = @post_calls ExecutorFacts.posix u "form" cwd rc false) \/
   (exists cwd rc now,
      value o = Ok (Page (Some ("/report?t=" +:+ pretty (py_int now)))) /\
      trace o = @post_calls ExecutorFacts.posix u "form" cwd rc true
                ++ [EvSys TimeTime now])).
Proof.
  exact (@index_post ExecutorFacts.posix unit ExecutorFacts.cooperative
           sample_form "http://localhost/" tt eq_refl).
Defined.

(** The run of the witness, traced by hand against the source. *)
Example post_renders_link :
  let o := run ExecutorFacts.cooperative
             (@index ExecutorFacts.posix "POST" sample_form) tt in
  value o = Ok (Page (Some "/report?t=1700000000")) /\
  trace o =
    [ EvCall (WriteFile "webtest_url.txt" "http://localhost/") (Ok ());
      EvCall Getcwd (Ok "/srv/app");
      EvCall (SubprocessRun
                ["/srv/app/myenv/Scripts/python.exe"; "test.py"; "--test-type";
                 "form"]) (Ok 0%Z);
      EvSys (PathExists "test_report.html") true;
      EvSys TimeTime 1700000000%Q ].
Proof. vm_compute. split; reflexivity. Qed.

End WebFacts.

(** * The rest of the generator, and its caller *)

Module RegressionGenerator.
Section Generator.
Context `{Repr}.

(** The page-load test of one page (lines 125-134). *)
Definition page_load_case (page : gmap string pyval) : result TestCase :=
  nm ← dict_getitem page "name";
  u ← dict_getitem page "url";
  title_dflt ← dict_getitem page "name";
  Ok {| name := "test_page_load_" +:+ py_str nm;
        url := u;
        actions := [ {[ "action" := VStr "wait"; "time" := VInt 2 ]} ];
        expected_results :=
          [ {[ "type" := VStr "title_contains";
               "value" := dict_get page "expected_title" title_dflt ]} ];
        test_type := "regression";
        priority := "medium";
        tags := Some ["page_load"; "regression"] |}.

(** The critical-elements test of one page (lines 138-148). *)
Definition critical_elements_case (page : gmap string pyval) : result TestCase :=
  nm ← dict_getitem page "name";
  u ← dict_getitem page "url";
  elements ← dict_getitem page "critical_elements";
  selectors ← py_iter elements;
  Ok {| name := "test_critical_elements_" +:+ py_str nm;
        url := u;
        actions := [ {[ "action" := VStr "wait"; "time" := VInt 1 ]} ];
        expected_results :=
          (fun selector : pyval =>
             ({[ "type" := VStr "element_visible"; "selector" := selector ]}
                : gmap string pyval)) <$> selectors;
        test_type := "regression";
        priority := "medium";
        tags := Some ["elements"; "regression"] |}.

(** ['critical_elements' in page] *)
Definition has_critical_elements (page : gmap string pyval) : bool :=
  bool_decide (is_Some (page !! "critical_elements")).

(** Lines 118-150. *)
Fixpoint generate_regression_tests (pages_config : list (gmap string pyval))
  : result (list TestCase) :=
  match pages_config with
  | [] => Ok []
  | page :: rest =>
      (* Page load test *)
      t1 ← page_load_case page;
      (* Critical elements test *)
      if has_critical_elements page then
        t2 ← critical_elements_case page;
        ts ← generate_regression_tests rest;
        Ok (t1 :: t2 :: ts)
      else
        ts ← generate_regression_tests rest;
        Ok (t1 :: ts)
  end.

End Generator.
End RegressionGenerator.

(** The configuration [main] builds from the URL it read, and the tests it
    generates from it for a test type (lines 467-508 of [main]). *)
Module Main.
Import TestCaseGenerator RegressionGenerator.

Definition form_config (user_url : string) : gmap string pyval :=
  {[ "url" := VStr user_url;
     "submit_button" := VStr "#contact-form button[type='submit']";
     "success_url" := VStr "/#contact";
     "required_fields" :=
       VList [ VDict {[ "name" := VStr "name"; "selector" := VStr "#name";
                        "error_selector" := VStr ".name-error" ]};
               VDict {[ "name" := VStr "email"; "selector" := VStr "#email";
                        "error_selector" := VStr ".email-error" ]};
               VDict {[ "name" := VStr "message"; "selector" := VStr "#message";
                        "error_selector" := VStr ".message-error" ]} ];
     "validation_fields" :=
       VList [ VDict {[ "name" := VStr "email"; "selector" := VStr "#email";
                        "type" := VStr "email";
                        "error_selector" := VStr ".email-error" ]} ];
     "all_fields" :=
       VList [ VDict {[ "name" := VStr "name"; "selector" := VStr "#name";
                        "valid_value" := VStr "John Doe" ]};
               VDict {[ "name" := VStr "email"; "selector" := VStr "#email";
                        "valid_value" := VStr "john@example.com" ]};
               VDict {[ "name" := VStr "message"; "selector" := VStr "#message";
                        "valid_value" := VStr "Hello!" ]} ] ]}.

Definition pages_config (user_url : string) : list (gmap string pyval) :=
  [ {[ "name" := VStr "user-page";
       "url" := VStr user_url;
       "expected_title" := VStr "";
       "critical_elements" := VList [] ]} ].

(** [test_type in choices] *)
Definition one_of (test_type : string) (choices : list string) : bool :=
  existsb (String.eqb test_type) choices.

(** Lines 496-508: [all_tests]. *)
Definition all_tests `{Repr} (test_type user_url : string) : result (list TestCase) :=
  let all_tests := [] in
  all_tests ←
    (if one_of test_type ["all"; "form"] then
       ts ← generate_form_validation_tests (form_config user_url);
       Ok (all_tests ++ ts)
     else Ok all_tests);
  all_tests ←
    (if one_of test_type ["all"; "regression"] then
       ts ← generate_regression_tests (pages_config user_url);
       Ok (all_tests ++ ts)
     else Ok all_tests);
  Ok all_tests.

End Main.

(** ** More on the generators *)

Module MoreGeneratorFacts.
Import TestCaseGenerator RegressionGenerator.

Section Facts.
Context `{Repr}.

Lemma required_field_test_shape (form_config : gmap string pyval) f t :
  required_field_test form_config f = Ok t ->
  exists u submit sel,
    form_config !! "url" = Some u /\ form_config !! "submit_button" = Some submit /\
    url t = u /\
    actions t = [ {[ "action" := VStr "clear_field"; "selector" := sel ]};
                  {[ "action" := VStr "click"; "selector" := submit ]} ].
Proof.
  unfold required_field_test, dict_getitem. intros Ht.
  destruct (py_getitem f "name") as [n|]; simpl in Ht; [|done].
  destruct (form_config !! "url") as [u|]; simpl in Ht; [|done].
  destruct (py_getitem f "selector") as [s|]; simpl in Ht; [|done].
  destruct (form_config !! "submit_button") as [b|]; simpl in Ht; [|done].
  destruct (py_get f "error_selector" _) as [e|]; simpl in Ht; [|done].
  injection Ht as <-. by exists u, b, s.
Qed.

Lemma typed_field_test_shape kind bad (form_config : gmap string pyval) f t :
  typed_field_test kind bad form_config f = Ok t ->
  exists u submit sel,
    form_config !! "url" = Some u /\ form_config !! "submit_button" = Some submit /\
    url t = u /\
    actions t = [ {[ "action" := VStr "input"; "selector" := sel;
                     "value" := VStr bad ]};
                  {[ "action" := VStr "click"; "selector" := submit ]} ].
Proof.
  unfold typed_field_test, dict_getitem. intros Ht.
  destruct (py_getitem f "name") as [n|]; simpl in Ht; [|done].
  destruct (form_config !! "url") as [u|]; simpl in Ht; [|done].
  destruct (py_getitem f "selector") as [s|]; simpl in Ht; [|done].
  destruct (form_config !! "submit_button") as [b|]; simpl in Ht; [|done].
  destruct (py_get f "error_selector" _) as [e|]; simpl in Ht; [|done].
  injection Ht as <-. by exists u, b, s.
Qed.

(** A test that opens [u] and ends with a click on [submit]. *)
Definition submits (u submit : pyval) (t : TestCase) : Prop :=
  url t = u /\
  last (actions t) = Some {[ "action" := VStr "click"; "selector" := submit ]}.

Lemma required_tests_submit (form_config : gmap string pyval) u submit l :
  form_config !! "url" = Some u -> form_config !! "submit_button" = Some submit ->
  forall ts, mapM (required_field_test form_config) l = Ok ts ->
  Forall (submits u submit) ts.
Proof.
  intros Hu Hs. induction l as [|f l IH]; intros ts; simpl.
  - by intros [= <-].
  - destruct (required_field_test form_config f) as [t|] eqn:Et; simpl; [|done].
    destruct (mapM _ l) as [ts'|]; simpl; [|done].
    intros [= <-]. constructor; [|by apply IH].
    apply required_field_test_shape in Et as (u' & b' & s & Hu' & Hs' & <- & Ha).
    split; [congruence|]. rewrite Ha. simpl. congruence.
Qed.

(** The fields of [validation_fields] that get a test. *)
Definition has_validation (f : pyval) : bool :=
  match py_getitem f "type" with
  | Ok ty => eq_str ty "email" || eq_str ty "phone"
  | Raised _ => false
  end.

Lemma validation_tests_shape (form_config : gmap string pyval) u submit l :
  form_config !! "url" = Some u -> form_config !! "submit_button" = Some submit ->
  forall ts, validation_tests form_config l = Ok ts ->
  Forall (submits u submit) ts /\
  length ts = length (List.filter has_validation l).
Proof.
  intros Hu Hs. induction l as [|f l IH]; intros ts; simpl.
  - by intros [= <-].
  - unfold has_validation at 1.
    destruct (py_getitem f "type") as [ty|]; simpl; [|done].
    destruct (eq_str ty "email") eqn:E1; simpl.
    { destruct (typed_field_test _ _ _ _) as [t|] eqn:Et; simpl; [|done].
      destruct (validation_tests _ l) as [ts'|]; simpl; [|done].
      intros [= <-]. destruct (IH ts' eq_refl) as [Hf Hl].
      split; [constructor; [|done]|by simpl; rewrite Hl].
      apply typed_field_test_shape in Et as (u' & b' & s & Hu' & Hs' & <- & Ha).
      split; [congruence|]. rewrite Ha. simpl. congruence. }
    destruct (eq_str ty "phone") eqn:E2; simpl; [|by apply IH].
    destruct (typed_field_test _ _ _ _) as [t|] eqn:Et; simpl; [|done].
    destruct (validation_tests _ l) as [ts'|]; simpl; [|done].
    intros [= <-]. destruct (IH ts' eq_refl) as [Hf Hl].
    split; [constructor; [|done]|by simpl; rewrite Hl].
    apply typed_field_test_shape in Et as (u' & b' & s & Hu' & Hs' & <- & Ha).
    split; [congruence|]. rewrite Ha. simpl. congruence.
Qed.

(** The pieces of a successful run of [generate_form_validation_tests]. *)
Lemma generate_form_inv (form_config : gmap string pyval) tests :
  generate_form_validation_tests form_config = Ok tests ->
  exists required ts1 validation ts2 fields vd acts u submit,
    py_iter (dict_get form_config "required_fields" (VList [])) = Ok required /\
    mapM (required_field_test form_config) required = Ok ts1 /\
    py_iter (dict_get form_config "validation_fields" (VList [])) = Ok validation /\
    validation_tests form_config validation = Ok ts2 /\
    py_iter (dict_get form_config "all_fields" (VList [])) = Ok fields /\
    valid_data_of fields [] = Ok vd /\
    mapM (input_action vd) fields = Ok acts /\
    form_config !! "url" = Some u /\
    form_config !! "submit_button" = Some submit /\
    tests = ts1 ++ ts2 ++
      [ {| name := "test_successful_form_submission";
           url := u;
           actions := acts ++ [ {[ "action" := VStr "click"; "selector" := submit ]} ];
           expected_results :=
             [ {[ "type" := VStr "url_contains";
                  "value" := dict_get form_config "success_url" (VStr "/success") ]} ];
           test_type := "functional";
           priority := "medium";
           tags := Some ["form"; "success"] |} ].
Proof.
  unfold generate_form_validation_tests, dict_getitem.
  destruct (py_iter (dict_get form_config "required_fields" _)) as [required|];
    simpl; [|done].
  destruct (mapM _ required) as [ts1|] eqn:E1; simpl; [|done].
  destruct (py_iter (dict_get form_config "validation_fields" _)) as [validation|];
    simpl; [|done].
  destruct (validation_tests _ validation) as [ts2|] eqn:E2; simpl; [|done].
  destruct (py_iter (dict_get form_config "all_fields" _)) as [fields|];
    simpl; [|done].
  destruct (valid_data_of fields []) as [vd|] eqn:E3; simpl; [|done].
  destruct (mapM _ fields) as [acts|] eqn:E4; simpl; [|done].
  destruct (form_config !! "submit_button") as [b|]; simpl; [|done].
  destruct (form_config !! "url") as [u|]; simpl; [|done].
  intros [= <-]. by exists required, ts1, validation, ts2, fields, vd, acts, u, b.
Qed.

(** X1.  A form configuration without "url" or without "submit_button" gives no
    tests at all: the generator raises, whatever else the configuration
    holds. *)
Theorem form_tests_need_url_and_submit (form_config : gmap string pyval) :
  form_config !! "url" = None \/ form_config !! "submit_button" = None ->
  exists e, generate_form_validation_tests form_config = Raised e.
Proof.
  intros Hmiss.
  destruct (generate_form_validation_tests form_config) as [tests|e] eqn:E;
    [|by exists e].
  apply generate_form_inv in E
    as (? & ? & ? & ? & ? & ? & ? & u & b & _ & _ & _ & _ & _ & _ & _ & Hu & Hb & _).
  destruct Hmiss; congruence.
Qed.

(** X2.  When the generator returns, the list ends with the test
    test_successful_form_submission, tagged form and success, and every test
    of the list opens the configured URL and ends with a click on the
    configured submit button. *)
Theorem form_tests_end_with_submission (form_config : gmap string pyval) tests :
  generate_form_validation_tests form_config = Ok tests ->
  exists u submit front success,
    form_config !! "url" = Some u /\
    form_config !! "submit_button" = Some submit /\
    tests = front ++ [success] /\
    name success = "test_successful_form_submission" /\
    tags success = Some ["form"; "success"] /\
    Forall (submits u submit) tests.
Proof.
  intros E. apply generate_form_inv in E
    as (req & ts1 & val & ts2 & fields & vd & acts & u & b
        & _ & E1 & _ & E2 & _ & _ & _ & Hu & Hb & ->).
  eexists u, b, (ts1 ++ ts2), _.
  split; [done|]. split; [done|]. split; [by rewrite <- app_assoc|].
  split; [done|]. split; [done|].
  rewrite !Forall_app. split_and!.
  - by eapply required_tests_submit.
  - by eapply validation_tests_shape.
  - apply Forall_singleton. split; [done|]. simpl. by rewrite last_snoc.
Qed.

(** X3.  The number of generated tests: one for each required field, one for
    each validation field of type email or phone (fields of any other type
    are passed over), and the submission test. *)
Theorem form_tests_count (form_config : gmap string pyval) tests :
  generate_form_validation_tests form_config = Ok tests ->
  exists required validation,
    py_iter (dict_get form_config "required_fields" (VList [])) = Ok required /\
    py_iter (dict_get form_config "validation_fields" (VList [])) = Ok validation /\
    length tests =
      (length required + length (List.filter has_validation validation) + 1)%nat.
Proof.
  intros E. apply generate_form_inv in E
    as (req & ts1 & val & ts2 & fields & vd & acts & u & b
        & Hreq & E1 & Hval & E2 & _ & _ & _ & Hu & Hb & ->).
  exists req, val. split_and!; [done|done|].
  apply GeneratorFacts.required_tests_tagged in E1 as [_ Hl1].
  eapply validation_tests_shape in E2 as [_ Hl2]; [|done|done].
  rewrite !length_app, Hl1, Hl2. simpl. lia.
Qed.

(** *** Fields that share a name *)

(** The name of a field, when it is a string. *)
Definition field_name (f : pyval) : option string :=
  match f with
  | VDict d => match d !! "name" with Some (VStr n) => Some n | _ => None end
  | _ => None
  end.

(** [field.get('valid_value', 'test')] *)
Definition field_valid_value (f : pyval) : pyval :=
  match f with
  | VDict d => dict_get d "valid_value" (VStr "test")
  | _ => VNone
  end.

(** The valid value of the last field of [fields] named [n]. *)
Fixpoint last_valid_value (fields : list pyval) (n : string) : option pyval :=
  match fields with
  | [] => None
  | f :: rest =>
      match last_valid_value rest n with
      | Some v => Some v
      | None =>
          if bool_decide (field_name f = Some n) then Some (field_valid_value f)
          else None
      end
  end.

Lemma key_eqb_str (k : pyval) (s : string) : key_eqb k (VStr s) = true -> k = VStr s.
Proof.
  destruct k; simpl; try done. by intros ->%String.eqb_eq.
Qed.

Lemma kdict_lookup_set_str (d : kdict) (k k' : string) (v : pyval) :
  kdict_lookup (kdict_set d (VStr k) v) (VStr k') =
  if String.eqb k k' then Some v else kdict_lookup d (VStr k').
Proof.
  induction d as [|[k0 v0] d IH]; simpl.
  - by destruct (String.eqb k k').
  - destruct (key_eqb k0 (VStr k)) eqn:E0; simpl.
    + apply key_eqb_str in E0 as ->. simpl. by destruct (String.eqb k k').
    + destruct (key_eqb k0 (VStr k')) eqn:E1; [|done].
      apply key_eqb_str in E1 as ->. simpl in E0.
      rewrite String.eqb_sym in E0. by rewrite E0.
Qed.

Lemma valid_data_of_last (fields : list pyval) : forall acc vd,
  Forall (fun f => is_Some (field_name f)) fields ->
  valid_data_of fields acc = Ok vd ->
  forall n, kdict_lookup vd (VStr n) =
            match last_valid_value fields n with
            | Some v => Some v
            | None => kdict_lookup acc (VStr n)
            end.
Proof.
  induction fields as [|f fields IH]; intros acc vd Hnamed; simpl.
  - by intros [= <-].
  - apply Forall_cons in Hnamed as [[nf Hf] Hnamed].
    destruct f as [| | | | | |d]; try done. simpl in Hf |- *.
    unfold dict_getitem. destruct (d !! "name") as [[| | | |nf'| |]|]; try done.
    injection Hf as ->. simpl. intros Hvd n.
    rewrite (IH _ _ Hnamed Hvd n). destruct (last_valid_value fields n); [done|].
    rewrite kdict_lookup_set_str.
    destruct (String.eqb nf n) eqn:E.
    + apply String.eqb_eq in E as ->. by rewrite bool_decide_eq_true_2.
    + apply String.eqb_neq in E. rewrite bool_decide_eq_false_2; [done|congruence].
Qed.

(** What the field types into: the action built for a named field. *)
Definition types_into (fields : list pyval) (f : pyval) (a : gmap string pyval)
  : Prop :=
  exists n sel v,
    field_name f = Some n /\ py_getitem f "selector" = Ok sel /\
    last_valid_value fields n = Some v /\
    a = {[ "action" := VStr "input"; "selector" := sel; "value" := v ]}.

Lemma input_actions_last (fields : list pyval) (vd : kdict) (l : list pyval) :
  (forall n, kdict_lookup vd (VStr n) = last_valid_value fields n) ->
  Forall (fun f => is_Some (field_name f)) l ->
  forall acts, mapM (input_action vd) l = Ok acts ->
  Forall2 (types_into fields) l acts.
Proof.
  intros Hvd. induction l as [|f l IH]; intros Hnamed acts; simpl.
  - by intros [= <-].
  - apply Forall_cons in Hnamed as [[nf Hf] Hnamed].
    destruct (input_action vd f) as [a|] eqn:Ea; simpl; [|done].
    destruct (mapM _ l) as [acts'|]; simpl; [|done].
    intros [= <-]. constructor; [|by apply IH].
    unfold input_action in Ea.
    destruct (py_getitem f "selector") as [sel|] eqn:Es; simpl in Ea; [|done].
    destruct f as [| | | | | |d]; try done. simpl in Hf, Ea.
    unfold dict_getitem in Ea.
    destruct (d !! "name") as [[| | | |nf'| |]|] eqn:En; try done.
    injection Hf as ->. simpl in Ea. unfold kdict_getitem in Ea. simpl in Ea.
    rewrite Hvd in Ea.
    destruct (last_valid_value fields nf) as [v|] eqn:Ev; simpl in Ea; [|done].
    injection Ea as <-. exists nf, sel, v. split_and!; [|done|done|done].
    simpl. by rewrite En.
Qed.

(** X4.  When several entries of [all_fields] share a name, the submission
    test types the valid value of the last of them into each: for fields
    named by strings, the i-th action of the submission test is an input into
    the i-th field's selector of the valid value of the last field with that
    field's name. *)
Theorem shared_name_last_value_wins (form_config : gmap string pyval)
    (fields : list pyval) tests :
  generate_form_validation_tests form_config = Ok tests ->
  form_config !! "all_fields" = Some (VList fields) ->
  Forall (fun f => is_Some (field_name f)) fields ->
  exists success acts submit,
    last tests = Some success /\
    actions success = acts ++ [ {[ "action" := VStr "click"; "selector" := submit ]} ] /\
    Forall2 (types_into fields) fields acts.
Proof.
  intros E Hall Hnamed. apply generate_form_inv in E
    as (req & ts1 & val & ts2 & fields' & vd & acts & u & b
        & _ & _ & _ & _ & Hfields & Hvd & Hacts & Hu & Hb & ->).
  unfold dict_get in Hfields. rewrite Hall in Hfields. simpl in Hfields.
  injection Hfields as <-.
  eexists _, acts, b. split; [by rewrite !app_assoc, last_snoc|].
  split; [done|].
  eapply input_actions_last; [|done|done].
  intros n. by rewrite (valid_data_of_last _ _ _ Hnamed Hvd n); destruct (last_valid_value fields n).
Qed.

(** *** The regression generator *)

(** A page from which both tests can be built. *)
Definition page_ok (page : gmap string pyval) : bool :=
  bool_decide (is_Some (page !! "name")) &&
  bool_decide (is_Some (page !! "url")) &&
  match page !! "critical_elements" with
  | Some v => is_ok (py_iter v)
  | None => true
  end.

Lemma page_load_case_ok (page : gmap string pyval) :
  is_ok (page_load_case page) =
  bool_decide (is_Some (page !! "name")) && bool_decide (is_Some (page !! "url")).
Proof.
  unfold page_load_case, dict_getitem.
  destruct (page !! "name"); simpl; [|done].
  by destruct (page !! "url").
Qed.

(** X5.  [generate_regression_tests] returns exactly when every page has a
    name and a url and its critical_elements, if present, can be iterated;
    otherwise it raises. *)
Theorem regression_tests_ok_iff (pages_config : list (gmap string pyval)) :
  is_ok (generate_regression_tests pages_config) = forallb page_ok pages_config.
Proof.
  induction pages_config as [|page rest IH]; [done|].
  cbn [generate_regression_tests forallb]. unfold page_ok at 1.
  pose proof (page_load_case_ok page) as Hload.
  destruct (page_load_case page) as [t1|] eqn:E1; simpl in Hload |- *;
    rewrite <- Hload; [|done]. simpl.
  unfold has_critical_elements, critical_elements_case, dict_getitem.
  symmetry in Hload. apply andb_prop in Hload as [Hn Hu].
  apply bool_decide_eq_true in Hn as [n Hn]. apply bool_decide_eq_true in Hu as [u Hu].
  rewrite Hn, Hu. simpl.
  destruct (page !! "critical_elements") as [v|]; simpl.
  - rewrite <- IH. destruct (py_iter v); simpl; [|done].
    by destruct (generate_regression_tests rest).
  - rewrite <- IH. by destruct (generate_regression_tests rest).
Qed.

(** X6.  The number of regression tests: one page-load test for each page,
    and one more for each page that has the key critical_elements (even with
    an empty list). *)
Theorem regression_tests_count (pages_config : list (gmap string pyval)) tests :
  generate_regression_tests pages_config = Ok tests ->
  length tests =
    (length pages_config
     + length (List.filter has_critical_elements pages_config))%nat.
Proof.
  revert tests. induction pages_config as [|page rest IH]; intros tests.
  - by intros [= <-].
  - cbn [generate_regression_tests List.filter].
    destruct (page_load_case page) as [t1|]; simpl; [|done].
    destruct (has_critical_elements page).
    + destruct (critical_elements_case page) as [t2|]; simpl; [|done].
      destruct (generate_regression_tests rest) as [ts|]; simpl; [|done].
      intros [= <-]. simpl. rewrite (IH ts eq_refl). lia.
    + destruct (generate_regression_tests rest) as [ts|]; simpl; [|done].
      intros [= <-]. simpl. by rewrite (IH ts eq_refl).
Qed.

(** *** What [main] generates *)

Lemma main_form_tests (user_url : string) :
  exists tests,
    generate_form_validation_tests (Main.form_config user_url) = Ok tests /\
    name <$> tests =
      ["test_required_field_name"; "test_required_field_email";
       "test_required_field_message"; "test_email_validation_email";
       "test_successful_form_submission"] /\
    Forall (fun t => url t = VStr user_url) tests.
Proof.
  eexists. split; [vm_compute; reflexivity|].
  split; [reflexivity|]. by repeat constructor.
Qed.

Lemma main_regression_tests (user_url : string) :
  exists tests,
    generate_regression_tests (Main.pages_config user_url) = Ok tests /\
    name <$> tests =
      ["test_page_load_user-page"; "test_critical_elements_user-page"] /\
    Forall (fun t => url t = VStr user_url) tests.
Proof.
  eexists. split; [vm_compute; reflexivity|].
  split; [reflexivity|]. by repeat constructor.
Qed.

(** X7.  The configuration hard-wired in [main] is well formed for both
    generators: for every URL and every test type, generation returns.  It
    yields five form tests for the types all and form, two regression tests
    for all and regression and nothing for any other type, and every test
    opens the URL that was read. *)
Theorem main_generates (test_type user_url : string) :
  exists tests,
    Main.all_tests test_type user_url = Ok tests /\
    name <$> tests =
      (if Main.one_of test_type ["all"; "form"]
       then ["test_required_field_name"; "test_required_field_email";
             "test_required_field_message"; "test_email_validation_email";
             "test_successful_form_submission"]
       else []) ++
      (if Main.one_of test_type ["all"; "regression"]
       then ["test_page_load_user-page"; "test_critical_elements_user-page"]
       else []) /\
    Forall (fun t => url t = VStr user_url) tests.
Proof.
  destruct (main_form_tests user_url) as (ts1 & E1 & Hn1 & Hu1).
  destruct (main_regression_tests user_url) as (ts2 & E2 & Hn2 & Hu2).
  unfold Main.all_tests. rewrite E1, E2.
  destruct (Main.one_of test_type ["all"; "form"]);
    destruct (Main.one_of test_type ["all"; "regression"]); simpl.
  - exists (ts1 ++ ts2). by rewrite fmap_app, Hn1, Hn2, Forall_app.
  - exists ts1. by rewrite Hn1.
  - by exists ts2.
  - by exists [].
Qed.

End Facts.

(** *** Sample configurations *)

Definition sample_repr : Repr := GeneratorFacts.sample_repr.

Lemma form_tests_need_url_and_submit_witness :
  exists e, @generate_form_validation_tests sample_repr
              {[ "submit_button" := VStr "#send" ]} = Raised e.
Proof.
  apply (@form_tests_need_url_and_submit sample_repr
           {[ "submit_button" := VStr "#send" ]}).
  left. reflexivity.
Defined.

(** A form whose two inputs share the name "email". *)
Definition twice_email : list pyval :=
  [ VDict {[ "name" := VStr "email"; "selector" := VStr "#email";
             "valid_value" := VStr "first@example.com" ]};
    VDict {[ "name" := VStr "email"; "selector" := VStr "#confirm";
             "valid_value" := VStr "second@example.com" ]} ].

Definition twice_email_config : gmap string pyval :=
  {[ "url" := VStr "http://localhost/";
     "submit_button" := VStr "#send";
     "validation_fields" :=
       VList [ VDict {[ "name" := VStr "age"; "selector" := VStr "#age";
                        "type" := VStr "number" ]};
               VDict {[ "name" := VStr "tel"; "selector" := VStr "#tel";
                        "type" := VStr "phone" ]} ];
     "all_fields" := VList twice_email ]}.

Definition twice_email_tests : list TestCase :=
  Eval vm_compute in
    match @generate_form_validation_tests sample_repr twice_email_config with
    | Ok tests => tests
    | Raised _ => []
    end.

Lemma form_tests_end_with_submission_witness :
  exists u submit front success,
    twice_email_config !! "url" = Some u /\
    twice_email_config !! "submit_button" = Some submit /\
    twice_email_tests = front ++ [success] /\
    name success = "test_successful_form_submission" /\
    tags success = Some ["form"; "success"] /\
    Forall (submits u submit) twice_email_tests.
Proof.
  apply (@form_tests_end_with_submission sample_repr twice_email_config
           twice_email_tests).
  vm_compute. reflexivity.
Defined.

Lemma form_tests_count_witness :
  exists required validation,
    py_iter (dict_get twice_email_config "required_fields" (VList [])) = Ok required /\
    py_iter (dict_get twice_email_config "validation_fields" (VList []))
      = Ok validation /\
    length twice_email_tests =
      (length required + length (List.filter has_validation validation) + 1)%nat.
Proof.
  apply (@form_tests_count sample_repr twice_email_config twice_email_tests).
  vm_compute. reflexivity.
Defined.

Lemma shared_name_last_value_wins_witness :
  exists success acts submit,
    last twice_email_tests = Some success /\
    actions success = acts ++ [ {[ "action" := VStr "click"; "selector" := submit ]} ] /\
    Forall2 (types_into twice_email) twice_email acts.
Proof.
  apply (@shared_name_last_value_wins sample_repr twice_email_config twice_email
           twice_email_tests).
  - vm_compute. reflexivity.
  - reflexivity.
  - repeat constructor; by eexists.
Defined.

(** Both inputs receive the second address. *)
Example twice_email_types_second :
  (fun t => (.!! "value") <$> actions t) <$> last twice_email_tests =
  Some [Some (VStr "second@example.com"); Some (VStr "second@example.com"); None].
Proof. vm_compute. reflexivity. Qed.

Definition two_pages : list (gmap string pyval) :=
  [ {[ "name" := VStr "home"; "url" := VStr "http://localhost/";
       "critical_elements" := VList [VStr "#nav"; VStr "#footer"] ]};
    {[ "name" := VStr "about"; "url" := VStr "http://localhost/about" ]} ].

Definition two_pages_tests : list TestCase :=
  Eval vm_compute in
    match @generate_regression_tests sample_repr two_pages with
    | Ok tests => tests
    | Raised _ => []
    end.

Lemma regression_tests_count_witness :
  length two_pages_tests =
    (length two_pages + length (List.filter has_critical_elements two_pages))%nat.
Proof.
  apply (@regression_tests_count sample_repr two_pages two_pages_tests).
  vm_compute. reflexivity.
Defined.

End MoreGeneratorFacts.

(** ** More on the executor *)

Module MoreExecutorFacts.
Import TestExecutor ExecutorFacts.

(** Events other than the calls that take a screenshot. *)
Definition no_shot (ev : event) : bool :=
  match ev with
  | EvCall (SaveScreenshot _ _) _ | EvCall (Makedirs _) _ => false
  | _ => true
  end.

(** Events other than the calls that start, configure and end the session. *)
Definition in_session (ev : event) : bool :=
  match ev with
  | EvCall (Chrome _) _ | EvCall (ImplicitlyWait _ _) _ | EvCall (Quit _) _ => false
  | _ => true
  end.

(** No delegated call follows a delegated call that raised. *)
Fixpoint raise_is_last (tr : list event) : bool :=
  match tr with
  | [] => true
  | ev :: tr' =>
      (if raised ev is Some _ then forallb (fun ev' => negb (is_call ev')) tr'
       else true)
      && raise_is_last tr'
  end.


Ltac to_bind := unfold mbind, prog_bind, mret, prog_ret, note_that, sys in *.

Create Rewrite HintDb traces.
#[local] Hint Rewrite attempted_app verified_app attempted_note verified_note
  attempted_other_note verified_other_note @attempted_call @attempted_sys
  @verified_call @verified_sys attempted_nil verified_nil app_nil_r : traces.

Section Facts.
Context `{Repr} `{OsPath} {W : Type} (h : handler W).

Lemma execute_action_calls (self : t) (action : gmap string pyval) (w : W) :
  let tr := trace (run h (execute_action self action) w) in
  forallb no_shot tr = true /\ forallb in_session tr = true /\
  raise_is_last tr = true.
Proof. explore; done. Qed.

Lemma verify_result_calls (self : t) (expected : gmap string pyval) (w : W) :
  let tr := trace (run h (verify_result self expected) w) in
  forallb no_shot tr = true /\ forallb in_session tr = true /\
  raise_is_last tr = true.
Proof. explore; done. Qed.

Lemma take_screenshot_calls (self : t) (nm : string) (w : W) :
  let o := run h (take_screenshot self nm) w in
  forallb in_session (trace o) = true /\
  raise_is_last (trace o) = true /\
  (any_raised (trace o) = true \/ driver self = None -> value o = Ok "") /\
  (any_raised (trace o) = false -> forall d, driver self = Some d ->
   exists stamp saved,
     value o = Ok (os_path_join "screenshots" (nm +:+ "_" +:+ stamp +:+ ".png")) /\
     trace o = [ EvCall (Makedirs "screenshots") (Ok ());
                 EvSys (Now (strftime "%Y%m%d_%H%M%S")) stamp;
                 EvCall (SaveScreenshot d
                           (os_path_join "screenshots"
                              (nm +:+ "_" +:+ stamp +:+ ".png"))) (Ok saved) ]).
Proof.
  explore; split_and!; try done; try (by intros [|]).
  intros _ ? [= <-]. destruct r. by eauto.
Qed.

Lemma forallb_app_true {A} (f : A -> bool) (l1 l2 : list A) :
  forallb f l1 = true -> forallb f l2 = true -> forallb f (l1 ++ l2) = true.
Proof. intros H1 H2. by rewrite forallb_app, H1, H2. Qed.

Lemma run_actions_calls (self : t) (tc : TestCase) (result : TestResult) :
  forall (todo : list (gmap string pyval)) (w : W),
  let o := run h (run_actions self tc result todo) w in
  forallb in_session (trace o) = true /\
  (value o = Ok None -> forallb no_shot (trace o) = true).
Proof.
  induction todo as [|a todo IH]; intros w; [done|].
  cbn [run_actions]. to_bind. rewrite run_bind.
  pose proof (execute_action_calls self a w) as (Hs1 & Hq1 & _).
  destruct (execute_action_summary h self a w) as (b & w1 & tr1 & E & _ & _).
  rewrite E in Hs1, Hq1 |- *. cbn [trace] in Hs1, Hq1.
  unfold and_then; cbn [value world trace bind run logged].
  destruct b; cbn [negb].
  - destruct (IH w1) as [Hq2 Hs2].
    destruct (run h (run_actions self tc result todo) w1) as [v2 w2 tr2].
    cbn [value world trace] in *. split.
    + apply forallb_app_true; [done|]. by simpl.
    + intros Hv. apply forallb_app_true; [done|]. simpl. by apply Hs2.
  - rewrite run_bind.
    pose proof (take_screenshot_calls self (name tc) w1) as (Hq2 & _).
    destruct (take_screenshot_summary h self (name tc) w1) as (p & w2 & tr2 & E2 & _).
    rewrite E2 in Hq2 |- *. cbn [trace] in Hq2.
    unfold and_then; cbn [value world trace bind run logged]. split; [|done].
    apply forallb_app_true; [done|]. simpl. rewrite app_nil_r. done.
Qed.

Lemma run_verifications_calls (self : t) (tc : TestCase) (result : TestResult) :
  forall (todo : list (gmap string pyval)) (w : W),
  let o := run h (run_verifications self tc result todo) w in
  forallb in_session (trace o) = true /\
  (value o = Ok None -> forallb no_shot (trace o) = true).
Proof.
  induction todo as [|a todo IH]; intros w; [done|].
  cbn [run_verifications]. to_bind. rewrite run_bind.
  pose proof (verify_result_calls self a w) as (Hs1 & Hq1 & _).
  destruct (verify_result_summary h self a w) as (b & w1 & tr1 & E & _ & _).
  rewrite E in Hs1, Hq1 |- *. cbn [trace] in Hs1, Hq1.
  unfold and_then; cbn [value world trace bind run logged].
  destruct b; cbn [negb].
  - destruct (IH w1) as [Hq2 Hs2].
    destruct (run h (run_verifications self tc result todo) w1) as [v2 w2 tr2].
    cbn [value world trace] in *. split.
    + apply forallb_app_true; [done|]. by simpl.
    + intros Hv. apply forallb_app_true; [done|]. simpl. by apply Hs2.
  - rewrite run_bind.
    pose proof (take_screenshot_calls self (name tc) w1) as (Hq2 & _).
    destruct (take_screenshot_summary h self (name tc) w1) as (p & w2 & tr2 & E2 & _).
    rewrite E2 in Hq2 |- *. cbn [trace] in Hq2.
    unfold and_then; cbn [value world trace bind run logged]. split; [|done].
    apply forallb_app_true; [done|]. simpl. rewrite app_nil_r. done.
Qed.

(** Why navigation raised [e]: there is no driver, or [driver.get] raised. *)
Definition navigation_error (self : t) (tc : TestCase) (e : exn)
    (tr : list event) : Prop :=
  (driver self = None /\
   e = Exn AttributeError "'NoneType' object has no attribute 'get'") \/
  (exists d, driver self = Some d /\ EvCall (Get d (url tc)) (Raised e) ∈ tr).

(** The record a run produces from [result], with the reason. *)
Inductive explained (self : t) (tc : TestCase) (result : TestResult)
    (tr : list event) : TestResult -> Prop :=
| explained_pass :
    forallb no_shot tr = true ->
    attempted tr = succeeded <$> actions tc ->
    verified tr = succeeded <$> expected_results tc ->
    explained self tc result tr (set_status "PASS" result)
| explained_action a path :
    last (attempted tr) = Some (a, false) ->
    verified tr = [] ->
    explained self tc result tr
      (set_screenshot_path path
         (set_error_message ("Action failed: " +:+ py_repr (VDict a)) result))
| explained_verification e path :
    last (verified tr) = Some (e, false) ->
    attempted tr = succeeded <$> actions tc ->
    explained self tc result tr
      (set_screenshot_path path
         (set_error_message ("Verification failed: " +:+ py_repr (VDict e)) result))
| explained_navigation e path :
    attempted tr = [] -> verified tr = [] ->
    navigation_error self tc e tr ->
    explained self tc result tr
      (set_screenshot_path path (set_error_message (exn_str e) result)).

Lemma test_body_detail (self : t) (tc : TestCase) (result : TestResult) (w : W) :
  exists v w' tr,
    run h (test_body self tc result) w = Outcome v w' tr /\
    forallb in_session tr = true /\
    match v with
    | Ok r => explained self tc result tr r
    | Raised e =>
        attempted tr = [] /\ verified tr = [] /\ forallb no_shot tr = true /\
        navigation_error self tc e tr
    end.
Proof.
  unfold test_body, with_driver. to_bind.
  cbn [bind run]. destruct (on_sys h _ w) as [[] w0].
  destruct (driver self) as [d|] eqn:Hd; cbn [bind run call].
  2:{ eexists (Raised _), _, _. split; [reflexivity|].
      split_and!; try done. by left. }
  destruct (on_call h _ w0) as [[[]|e] w1]; cbn [bind run call logged value world trace].
  2:{ eexists (Raised _), _, _. split; [reflexivity|].
      split_and!; try done. right. exists d. split; [done|]. set_solver. }
  rewrite run_bind.
  pose proof (run_actions_calls self tc result (actions tc) w1) as [Hq2 Hs2].
  destruct (run_actions_spec h self tc result (actions tc) w1)
    as (ro & w2 & tr2 & E2 & Hv2 & Hro).
  rewrite E2 in Hq2, Hs2 |- *. cbn [value trace] in Hq2, Hs2.
  unfold and_then; cbn [value world trace].
  destruct ro as [r|]; cbn [run value world trace].
  { destruct Hro as (done & a & rest & path & Hact & Hat & ->).
    eexists (Ok _), _, _. split; [reflexivity|]. cbn [logged value world trace].
    split; [by rewrite app_nil_r|].
    apply explained_action; autorewrite with traces; [|done].
    by rewrite Hat, last_snoc. }
  rewrite run_bind.
  pose proof (run_verifications_calls self tc result (expected_results tc) w2)
    as [Hq3 Hs3].
  destruct (run_verifications_spec h self tc result (expected_results tc) w2)
    as (ro & w3 & tr3 & E3 & Ha3 & Hro3).
  rewrite E3 in Hq3, Hs3 |- *. cbn [value trace] in Hq3, Hs3.
  unfold and_then; cbn [value world trace].
  destruct ro as [r|]; cbn [run value world trace].
  { destruct Hro3 as (done & e & rest & path & Hex & Hve & ->).
    eexists (Ok _), _, _. split; [reflexivity|]. cbn [logged value world trace].
    split; [rewrite app_nil_r; simpl; by apply forallb_app_true|].
    apply explained_verification; autorewrite with traces.
    - by rewrite Hv2, Hve, app_nil_l, last_snoc.
    - by rewrite Ha3, Hro, app_nil_r. }
  destruct (on_sys h _ w3) as [[] w4]. cbn [logged value world trace].
  eexists (Ok _), _, _. split; [reflexivity|].
  split; [simpl; apply forallb_app_true; [done|]; by apply forallb_app_true|].
  apply explained_pass.
  - simpl. apply forallb_app_true; [by apply Hs2|].
    apply forallb_app_true; [by apply Hs3|done].
  - cbn [logged value world trace]. autorewrite with traces.
    by rewrite Ha3, Hro, app_nil_r.
  - cbn [logged value world trace]. autorewrite with traces.
    by rewrite Hv2, Hro3.
Qed.

Lemma explained_more (self : t) (tc : TestCase) (result : TestResult) tr tr' r :
  notes tr' = [] -> forallb no_shot tr' = true ->
  explained self tc result tr r -> explained self tc result (tr ++ tr') r.
Proof.
  intros Hn Hs [Hp Ha Hv|a path Ha Hv|e path Hv Ha|e path Ha Hv Hnav].
  - apply explained_pass; [by apply forallb_app_true|..].
    + by rewrite attempted_app, (attempted_no_notes tr'), app_nil_r.
    + by rewrite verified_app, (verified_no_notes tr'), app_nil_r.
  - apply explained_action.
    + by rewrite attempted_app, (attempted_no_notes tr'), app_nil_r.
    + by rewrite verified_app, (verified_no_notes tr'), Hv.
  - apply explained_verification.
    + by rewrite verified_app, (verified_no_notes tr'), app_nil_r.
    + by rewrite attempted_app, (attempted_no_notes tr'), app_nil_r.
  - apply explained_navigation.
    + by rewrite attempted_app, (attempted_no_notes tr'), Ha.
    + by rewrite verified_app, (verified_no_notes tr'), Hv.
    + destruct Hnav as [?|(d & Hd & Hin)]; [by left|right].
      exists d. split; [done|]. set_solver.
Qed.

Lemma run_test_detail (self : t) (tc : TestCase) (start_time : Q)
    (result : TestResult) (w : W) :
  exists r now w' tr0,
    run h (run_test self tc start_time result) w =
      Outcome (Ok (set_execution_time (now - start_time) r)) w'
        (tr0 ++ [EvSys TimeTime now]) /\
    forallb in_session tr0 = true /\
    explained self tc result tr0 r.
Proof.
  unfold run_test. rewrite run_try_finally, run_try_except.
  destruct (test_body_detail self tc result w) as (v & w1 & tr1 & -> & Hq & Hv).
  destruct v as [r|e]; unfold or_else, and_then; cbn [value world trace].
  - to_bind. cbn [bind run]. destruct (on_sys h TimeTime w1) as [now w2].
    cbn [logged value world trace]. by exists r, now, w2, tr1.
  - destruct Hv as (Ha & Hc & Hs & Hnav).
    unfold test_failed. to_bind. rewrite run_bind.
    pose proof (take_screenshot_calls self (name tc) w1) as (Hq2 & _).
    destruct (take_screenshot_summary h self (name tc) w1) as (p & w2 & tr2 & E2 & Hn2).
    rewrite E2 in Hq2 |- *. cbn [trace] in Hq2.
    unfold and_then. cbn [value world trace bind run].
    destruct (on_sys h (Log _ _) w2) as [[] w3]. cbn [logged value world trace bind run].
    destruct (on_sys h TimeTime w3) as [now w4]. cbn [logged value world trace].
    eexists _, now, w4, (tr1 ++ tr2 ++ [_]). split; [by rewrite <- !app_assoc|].
    split; [apply forallb_app_true; [done|]; by apply forallb_app_true|].
    apply explained_navigation.
    + by rewrite !attempted_app, Ha, (attempted_no_notes tr2).
    + by rewrite !verified_app, Hc, (verified_no_notes tr2).
    + destruct Hnav as [?|(d & Hd & Hin)]; [by left|right].
      exists d. split; [done|]. set_solver.
Qed.

(** A run of [execute_test], read off its trace: the two clock readings
    around it, the timestamp, and the record with the reason for its verdict. *)
Lemma execute_test_detail (self : t) (tc : TestCase) (w : W) :
  exists start_time stamp now r w' tr0,
    run h (execute_test self tc) w =
      Outcome (Ok (set_execution_time (now - start_time) r)) w'
        (EvSys TimeTime start_time :: EvSys (Now isoformat) stamp
           :: tr0 ++ [EvSys TimeTime now]) /\
    forallb in_session tr0 = true /\
    explained self tc (created tc stamp) tr0 r.
Proof.
  unfold execute_test, new_result. to_bind. cbn [bind run].
  destruct (on_sys h TimeTime w) as [start_time w1].
  destruct (on_sys h (Now isoformat) w1) as [stamp w2].
  cbn [bind run logged value world trace].
  destruct (run_test_detail self tc start_time (created tc stamp) w2)
    as (r & now & w3 & tr0 & E & Hq & Hr).
  unfold created in E. rewrite E. cbn [logged value world trace].
  by exists start_time, stamp, now, r, w3, tr0.
Qed.

Lemma last_succeeded (l : list (gmap string pyval)) a :
  last (succeeded <$> l) = Some (a, false) -> False.
Proof.
  rewrite fmap_last. by destruct (last l).
Qed.

(** The trace of [execute_test] around the part [tr0] that does the work. *)
Definition framed (start_time : Q) (stamp : string) (now : Q) (tr0 : list event)
  : list event :=
  EvSys TimeTime start_time :: EvSys (Now isoformat) stamp
    :: tr0 ++ [EvSys TimeTime now].

Lemma attempted_framed start_time stamp now tr0 :
  attempted (framed start_time stamp now tr0) = attempted tr0.
Proof. unfold framed. by autorewrite with traces. Qed.

Lemma verified_framed start_time stamp now tr0 :
  verified (framed start_time stamp now tr0) = verified tr0.
Proof. unfold framed. by autorewrite with traces. Qed.

(** X8.  A passing test is clean: a result with status PASS has no error
    message and no screenshot path, and the run that produced it made no
    screenshot call. *)
Theorem pass_is_clean (self : t) (tc : TestCase) (w : W) :
  let o := run h (execute_test self tc) w in
  exists r,
    value o = Ok r /\
    (status r = "PASS" ->
     error_message r = "" /\ screenshot_path r = "" /\
     forallb no_shot (trace o) = true).
Proof.
  destruct (execute_test_detail self tc w)
    as (start_time & stamp & now & r & w' & tr0 & -> & _ & Hr).
  eexists. split; [reflexivity|]. cbn [trace].
  destruct Hr as [Hs _ _| | |]; simpl; try done.
  intros _. split_and!; [done|done|]. by apply forallb_app_true.
Qed.

(** X9.  A failing result names the culprit: when the last call of
    [execute_action] returned [False], the status is FAIL and the error
    message is "Action failed: " followed by that action; likewise for the
    last call of [verify_result] and "Verification failed: ". *)
Theorem failure_names_the_culprit (self : t) (tc : TestCase) (w : W) :
  let o := run h (execute_test self tc) w in
  exists r,
    value o = Ok r /\
    (forall a, last (attempted (trace o)) = Some (a, false) ->
       status r = "FAIL" /\
       error_message r = "Action failed: " +:+ py_repr (VDict a)) /\
    (forall e, last (verified (trace o)) = Some (e, false) ->
       status r = "FAIL" /\
       error_message r = "Verification failed: " +:+ py_repr (VDict e)).
Proof.
  destruct (execute_test_detail self tc w)
    as (start_time & stamp & now & r & w' & tr0 & -> & _ & Hr).
  eexists. split; [reflexivity|]. cbn [trace].
  fold (framed start_time stamp now tr0).
  rewrite attempted_framed, verified_framed.
  destruct Hr as [_ Ha Hv|a path Ha Hv|e path Hv Ha|e path Ha Hv _]; simpl.
  - rewrite Ha, Hv. split; intros ? Hl; by apply last_succeeded in Hl.
  - rewrite Ha, Hv. split; [|done]. by intros ? [= <-].
  - rewrite Ha, Hv. split; [|by intros ? [= <-]].
    intros ? Hl. by apply last_succeeded in Hl.
  - rewrite Ha, Hv. done.
Qed.

(** X10.  The duration of a result is the difference of two clock readings:
    the first and the last event of the run are readings of [time.time()], and
    [execution_time] is the last minus the first. *)
Theorem duration_is_clock_difference (self : t) (tc : TestCase) (w : W) :
  let o := run h (execute_test self tc) w in
  exists start_time now middle r,
    trace o = EvSys TimeTime start_time :: middle ++ [EvSys TimeTime now] /\
    value o = Ok r /\
    execution_time r = (now - start_time)%Q.
Proof.
  destruct (execute_test_detail self tc w)
    as (start_time & stamp & now & r & w' & tr0 & -> & _ & Hr).
  by exists start_time, now, (EvSys (Now isoformat) stamp :: tr0),
    (set_execution_time (now - start_time) r).
Qed.

(** X11.  Verification starts only after every action has succeeded: if
    [verify_result] was called at all, [execute_action] was called on each
    action of the test, in order, and returned [True] each time. *)
Theorem verification_needs_all_actions (self : t) (tc : TestCase) (w : W) :
  let o := run h (execute_test self tc) w in
  verified (trace o) <> [] ->
  attempted (trace o) = succeeded <$> actions tc.
Proof.
  destruct (execute_test_detail self tc w)
    as (start_time & stamp & now & r & w' & tr0 & -> & _ & Hr).
  cbn [trace]. fold (framed start_time stamp now tr0).
  rewrite attempted_framed, verified_framed.
  by destruct Hr as [_ Ha Hv|a path Ha Hv|e path Hv Ha|e path Ha Hv _].
Qed.

(** X12.  An executor whose driver was never set up fails every test without
    touching a browser: the result has status FAIL, the error message of the
    failed attribute lookup and no screenshot path, and no action or
    verification is tried. *)
Theorem no_driver_fails (self : t) (tc : TestCase) (w : W) :
  driver self = None ->
  let o := run h (execute_test self tc) w in
  exists r,
    value o = Ok r /\
    status r = "FAIL" /\
    error_message r = "'NoneType' object has no attribute 'get'" /\
    screenshot_path r = "" /\
    attempted (trace o) = [] /\ verified (trace o) = [].
Proof.
  intros Hd. unfold execute_test, new_result, run_test, test_body, test_failed.
  to_bind. unfold_prog. rewrite Hd. cbn.
  repeat (explore_step; cbn); eexists; by split_and!.
Qed.


(** X14.  [take_screenshot] never raises.  It returns the empty string when
    there is no driver or a delegated call raises; otherwise it makes the
    directory, reads the clock, saves the screenshot and returns the path
    screenshots/<name>_<stamp>.png, whatever [save_screenshot] answered. *)
Theorem screenshot_path_or_empty (self : t) (nm : string) (w : W) :
  let o := run h (take_screenshot self nm) w in
  (exists path, value o = Ok path) /\
  (any_raised (trace o) = true \/ driver self = None -> value o = Ok "") /\
  (any_raised (trace o) = false -> forall d, driver self = Some d ->
   exists stamp saved,
     value o = Ok (os_path_join "screenshots" (nm +:+ "_" +:+ stamp +:+ ".png")) /\
     trace o = [ EvCall (Makedirs "screenshots") (Ok ());
                 EvSys (Now (strftime "%Y%m%d_%H%M%S")) stamp;
                 EvCall (SaveScreenshot d
                           (os_path_join "screenshots"
                              (nm +:+ "_" +:+ stamp +:+ ".png"))) (Ok saved) ]).
Proof.
  pose proof (take_screenshot_calls self nm w) as (_ & _ & Hempty & Hpath).
  destruct (take_screenshot_summary h self nm w) as (path & w' & tr & E & _).
  cbn zeta. split_and!; [|done|done]. rewrite E. by exists path.
Qed.

(** The values of ["type"] that [verify_result] has a branch for. *)
Definition known_type (v : pyval) : bool :=
  eq_str v "element_visible" || eq_str v "element_not_visible"
  || eq_str v "url_contains" || eq_str v "title_contains"
  || eq_str v "text_contains".

(** Strings of ASCII characters, on which [lower] is [str.lower]. *)
Definition ascii_only (s : string) : bool :=
  forallb (fun c => (Ascii.nat_of_ascii c <? 128)%nat) (String.list_ascii_of_string s).

(** X15.  [verify_result] checks the five expectation types and fails all
    others.  For a descriptor whose "type" is none of the five it is the
    program that makes no call and returns [False].  For the five, when no
    delegated call raises: element_visible waits up to 5 seconds for the
    element to be visible and returns [True]; element_not_visible finds the
    element and returns the negation of [is_displayed]; url_contains returns
    whether the value occurs in the current URL; text_contains finds the
    element and returns whether the value occurs in its text; title_contains
    returns whether the lower-cased value occurs in the lower-cased title
    (for ASCII strings). *)
Theorem only_known_types_verify (self : t) (expected : gmap string pyval)
    (v : pyval) (w : W) :
  expected !! "type" = Some v ->
  let o := run h (verify_result self expected) w in
  (if known_type v then is_ret (verify_result self expected) = false
   else verify_result self expected = Ret false) /\
  forall d, driver self = Some d -> any_raised (trace o) = false ->
    (forall sel, expected !! "selector" = Some sel ->
       (eq_str v "element_visible" = true ->
        value o = Ok true /\
        exists el,
          trace o = [ EvCall (WaitUntil d 5 visibility_of_element_located sel)
                        (Ok el) ]) /\
       (eq_str v "element_not_visible" = true ->
        exists el shown,
          value o = Ok (negb shown) /\
          trace o = [ EvCall (FindElement d sel) (Ok el);
                      EvCall (IsDisplayed el) (Ok shown) ]) /\
       (eq_str v "text_contains" = true ->
        forall s, expected !! "value" = Some (VStr s) ->
        exists el text,
          value o = Ok (substring_of s text) /\
          trace o = [ EvCall (FindElement d sel) (Ok el);
                      EvCall (Text el) (Ok text) ])) /\
    (forall s, expected !! "value" = Some (VStr s) ->
       (eq_str v "url_contains" = true ->
        exists current_url,
          value o = Ok (substring_of s current_url) /\
          trace o = [EvCall (CurrentUrl d) (Ok current_url)]) /\
       (eq_str v "title_contains" = true ->
        exists title,
          trace o = [EvCall (Title d) (Ok title)] /\
          (ascii_only s = true -> ascii_only title = true ->
           value o = Ok (substring_of (lower s) (lower title))))).
Proof.
  intros Hv. cbn zeta. split.
  { unfold known_type.
    destruct (eq_str v "element_visible") eqn:E1; cbn [orb].
    { unfold_prog. rewrite Hv. cbn. rewrite E1.
      repeat (explore_step; cbn); done. }
    destruct (eq_str v "element_not_visible") eqn:E2; cbn [orb].
    { unfold_prog. rewrite Hv. cbn. rewrite E1. cbn. rewrite E2.
      repeat (explore_step; cbn); done. }
    destruct (eq_str v "url_contains") eqn:E3; cbn [orb].
    { unfold_prog. rewrite Hv. cbn. rewrite E1. cbn. rewrite E2. cbn. rewrite E3.
      repeat (explore_step; cbn); done. }
    destruct (eq_str v "title_contains") eqn:E4; cbn [orb].
    { unfold_prog. rewrite Hv. cbn. rewrite E1. cbn. rewrite E2. cbn. rewrite E3.
      cbn. rewrite E4. repeat (explore_step; cbn); done. }
    destruct (eq_str v "text_contains") eqn:E5; cbn [orb].
    { unfold_prog. rewrite Hv. cbn. rewrite E1. cbn. rewrite E2. cbn. rewrite E3.
      cbn. rewrite E4. cbn. rewrite E5. repeat (explore_step; cbn); done. }
    unfold_prog. rewrite Hv. cbn. rewrite E1. cbn. rewrite E2. cbn. rewrite E3.
    cbn. rewrite E4. cbn. by rewrite E5. }
  intros d Hd Hq. split.
  - intros sel Hsel. split_and!.
    + intros E. apply eq_str_true in E. subst v. revert Hq.
      unfold_prog. rewrite Hv, Hd. cbn. rewrite Hsel. cbn.
      repeat (explore_step; cbn); try done.
      intros _. split; [done|]. by eexists.
    + intros E. apply eq_str_true in E. subst v. revert Hq.
      unfold_prog. rewrite Hv, Hd. cbn. rewrite Hsel. cbn.
      repeat (explore_step; cbn); try done; intros _; by eexists _, _.
    + intros E s Hs. apply eq_str_true in E. subst v. revert Hq.
      unfold_prog. rewrite Hv, Hd. cbn. rewrite Hsel. cbn.
      repeat (explore_step; cbn); try done; simplify_eq; cbn;
        repeat (explore_step; cbn); try done; intros _; by eexists _, _.
  - intros s Hs. split.
    + intros E. apply eq_str_true in E. subst v. revert Hq.
      unfold_prog. rewrite Hv, Hd, Hs. cbn.
      repeat (explore_step; cbn); try done. intros _. by eexists.
    + intros E. apply eq_str_true in E. subst v. revert Hq.
      unfold_prog. rewrite Hv, Hd, Hs. cbn.
      repeat (explore_step; cbn); try done; intros _; by eexists.
Qed.

(** X16.  A descriptor without its kind fails quietly: [execute_action] on a
    dict without "action", and [verify_result] on a dict without "type",
    return [False] after logging one error, with no delegated call. *)
Theorem missing_kind_is_failure (self : t) (d : gmap string pyval) (w : W) :
  (d !! "action" = None ->
   let o := run h (execute_action self d) w in
   value o = Ok false /\
   exists u, trace o =
     [EvSys (Log ERROR ("Action failed: " +:+ py_repr (VDict d) +:+ " - "
                        +:+ "'action'")) u]) /\
  (d !! "type" = None ->
   let o := run h (verify_result self d) w in
   value o = Ok false /\
   exists u, trace o =
     [EvSys (Log ERROR ("Verification failed: " +:+ py_repr (VDict d) +:+ " - "
                        +:+ "'type'")) u]).
Proof.
  split; intros Hd; unfold_prog; rewrite Hd; cbn;
    destruct (on_sys h _ w) as [u w']; cbn; split; [done| |done|]; by exists u.
Qed.

End Facts.

Lemma verification_needs_all_actions_witness :
  let o := run cooperative
             (@execute_test sample_repr posix ready page_load_test) tt in
  verified (trace o) <> [] /\
  attempted (trace o) = succeeded <$> actions page_load_test.
Proof.
  assert (verified (trace (run cooperative
            (@execute_test sample_repr posix ready page_load_test) tt)) <> [])
    as Hv by (vm_compute; discriminate).
  split; [exact Hv|].
  exact (@verification_needs_all_actions sample_repr posix unit cooperative
           ready page_load_test tt Hv).
Defined.

Lemma no_driver_fails_witness :
  let o := run cooperative
             (@execute_test sample_repr posix (init true 10) page_load_test) tt in
  exists r,
    value o = Ok r /\
    status r = "FAIL" /\
    error_message r = "'NoneType' object has no attribute 'get'" /\
    screenshot_path r = "" /\
    attempted (trace o) = [] /\ verified (trace o) = [].
Proof.
  exact (@no_driver_fails sample_repr posix unit cooperative (init true 10)
           page_load_test tt eq_refl).
Defined.

Lemma only_known_types_verify_witness :
  @verify_result sample_repr ready
    {[ "type" := VStr "text_equals"; "selector" := VStr "h1" ]} = Ret false /\
  let o := run cooperative
             (@verify_result sample_repr ready
                {[ "type" := VStr "url_contains"; "value" := VStr "/cart" ]}) tt in
  exists current_url,
    value o = Ok (substring_of "/cart" current_url) /\
    trace o = [EvCall (CurrentUrl 0%nat) (Ok current_url)].
Proof.
  split.
  - assert (({[ "type" := VStr "text_equals"; "selector" := VStr "h1" ]}
               : gmap string pyval) !! "type" = Some (VStr "text_equals"))
      as Ht by reflexivity.
    exact (proj1 (@only_known_types_verify sample_repr unit cooperative ready
                    _ _ tt Ht)).
  - assert (({[ "type" := VStr "url_contains"; "value" := VStr "/cart" ]}
               : gmap string pyval) !! "type" = Some (VStr "url_contains"))
      as Ht by reflexivity.
    destruct (proj2 (@only_known_types_verify sample_repr unit cooperative ready
                       _ _ tt Ht) 0%nat eq_refl eq_refl) as [_ Hvalue].
    apply (Hvalue "/cart"); reflexivity.
Defined.

Lemma missing_kind_is_failure_witness :
  value (run cooperative
           (@execute_action sample_repr ready {[ "selector" := VStr "#go" ]}) tt)
    = Ok false /\
  value (run cooperative
           (@verify_result sample_repr ready {[ "selector" := VStr "#go" ]}) tt)
    = Ok false.
Proof.
  destruct (@missing_kind_is_failure sample_repr unit cooperative ready
              {[ "selector" := VStr "#go" ]} tt) as [Ha Hv].
  split; [apply Ha|apply Hv]; reflexivity.
Defined.

Lemma pass_is_clean_witness :
  let o := run cooperative
             (@execute_test sample_repr posix ready page_load_test) tt in
  exists r,
    value o = Ok r /\ status r = "PASS" /\
    error_message r = "" /\ screenshot_path r = "" /\
    forallb no_shot (trace o) = true.
Proof.
  destruct (@pass_is_clean sample_repr posix unit cooperative ready
              page_load_test tt) as (r & Hv & Hp).
  assert (status r = "PASS") as Hs.
  { pose proof Hv as Hv'. vm_compute in Hv'. injection Hv' as <-. reflexivity. }
  exists r. split; [exact Hv|]. split; [exact Hs|]. exact (Hp Hs).
Defined.

(** A test whose only action has no selector. *)
Definition broken_click_test : TestCase :=
  {| name := "test_broken_click";
     url := VStr "http://localhost/";
     actions := [ {[ "action" := VStr "click" ]} ];
     expected_results := [];
     test_type := "functional";
     priority := "medium";
     tags := None |}.

Lemma failure_names_the_culprit_witness :
  let o := run cooperative
             (@execute_test sample_repr posix ready broken_click_test) tt in
  exists r,
    value o = Ok r /\ status r = "FAIL" /\
    error_message r
    = "Action failed: " +:+ sample_repr (VDict {[ "action" := VStr "click" ]}).
Proof.
  destruct (@failure_names_the_culprit sample_repr posix unit cooperative ready
              broken_click_test tt) as (r & Hv & Ha & _).
  exists r. split; [exact Hv|]. apply Ha. vm_compute. reflexivity.
Defined.


Lemma screenshot_path_or_empty_witness :
  value (run cooperative
           (@take_screenshot posix (init true 10) "test_home") tt)
  = Ok "".
Proof.
  apply (@screenshot_path_or_empty posix unit cooperative (init true 10)
           "test_home" tt).
  right. reflexivity.
Defined.

End MoreExecutorFacts.

(** ** Edge cases of the executor, and the session of a suite *)
Module SessionFacts.
Import TestExecutor ExecutorFacts MoreExecutorFacts.

Section Facts.
Context `{Repr} `{OsPath} {W : Type} (h : handler W).

(** X17.  A wait action never calls the browser.  Without "time" it sleeps
    one second and returns [True]; with an integer time between 0 and 4294967
    seconds (which every platform can sleep) it sleeps that long and returns
    [True]; with a negative integer, or one above 9223372036 (more than the
    nanosecond clock of [time.sleep] holds), it returns [False] without
    sleeping, after one error is logged. *)
Theorem wait_only_sleeps (self : t) (action : gmap string pyval) (w : W) :
  action !! "action" = Some (VStr "wait") ->
  let o := run h (execute_action self action) w in
  forallb (fun ev => negb (is_call ev)) (trace o) = true /\
  (action !! "time" = None ->
   value o = Ok true /\ trace o = [EvSys (Sleep 1) ()]) /\
  (forall z, action !! "time" = Some (VInt z) ->
   ((z < 0 \/ 9223372036 < z)%Z ->
    value o = Ok false /\ exists msg, trace o = [EvSys (Log ERROR msg) ()]) /\
   ((0 <= z <= 4294967)%Z ->
    value o = Ok true /\ trace o = [EvSys (Sleep (inject_Z z)) ()])).
Proof.
  intros Ha. unfold_prog. rewrite Ha. cbn. unfold dict_get.
  destruct (action !! "time") as [v|] eqn:Et; cbn.
  - destruct v; cbn; repeat (explore_step; cbn);
      (split; [done|]); (split; [done|]); intros z' Hz; simplify_eq;
      repeat match goal with
             | Hb : int_overflows _ = _ |- _ =>
                 rewrite int_overflows_spec in Hb
             | Hb : (_ || _) = true |- _ => apply orb_true_iff in Hb
             | Hb : (_ || _) = false |- _ => apply orb_false_iff in Hb as [? ?]
             | Hb : (_ <? _)%Z = true |- _ => apply Z.ltb_lt in Hb
             | Hb : (_ <? _)%Z = false |- _ => apply Z.ltb_ge in Hb
             end;
      (split; intros Hrange; [|try lia]); try lia; destruct u; by eauto.
  - change (int_overflows 1) with false. cbn.
    repeat (explore_step; cbn). destruct u. by split_and!.
Qed.

(** Events that record a page loaded by [driver.get]. *)
Definition loaded (ev : event) : bool :=
  match ev with EvCall (Get _ _) (Ok _) => true | _ => false end.

(** X18.  A test with no actions and no expectations checks that the page
    loads and nothing else: on an executor with a driver it passes if
    [driver.get] returns and fails if it raises. *)
Theorem empty_test_passes_iff_page_loads (self : t) (tc : TestCase) (d : drv)
    (w : W) :
  driver self = Some d -> actions tc = [] -> expected_results tc = [] ->
  let o := run h (execute_test self tc) w in
  exists r,
    value o = Ok r /\
    status r = (if existsb loaded (trace o) then "PASS" else "FAIL").
Proof.
  intros Hd Ha He.
  unfold execute_test, new_result, run_test, test_body, test_failed.
  rewrite Ha, He. to_bind. unfold_prog. rewrite Hd. cbn.
  repeat (explore_step; cbn); eexists; by split_and!.
Qed.

Lemma substring_of_empty (s : string) : substring_of "" s = true.
Proof. by destruct s. Qed.

(** X19.  An expectation with the empty string as its value is vacuous: on an
    executor with a driver, url_contains and title_contains with value ''
    return [True] whenever the URL or the title can be read, and [False]
    only when reading it raises. *)
Theorem empty_needle_always_matches (self : t) (expected : gmap string pyval)
    (d : drv) (w : W) :
  driver self = Some d ->
  expected !! "value" = Some (VStr "") ->
  expected !! "type" = Some (VStr "url_contains") \/
  expected !! "type" = Some (VStr "title_contains") ->
  let o := run h (verify_result self expected) w in
  value o = Ok (negb (any_raised (trace o))).
Proof.
  intros Hd Hv [Ht|Ht]; unfold_prog; rewrite Ht; cbn; rewrite Hv; cbn;
    rewrite Hd; cbn; repeat (explore_step; cbn);
    by rewrite ?substring_of_empty.
Qed.

(** A test that waits and then, at most, looks for the empty string in the
    title passes exactly when no delegated call raises. *)
Lemma wait_then_title (self : t) (d : drv) (tc : TestCase)
    (a : gmap string pyval) (z : Z) (w : W) :
  driver self = Some d ->
  actions tc = [a] ->
  a !! "action" = Some (VStr "wait") -> a !! "time" = Some (VInt z) ->
  int_overflows z = false -> (z <? 0)%Z = false ->
  expected_results tc = [] \/
  (exists e, expected_results tc = [e] /\
     e !! "type" = Some (VStr "title_contains") /\
     e !! "value" = Some (VStr "")) ->
  let o := run h (execute_test self tc) w in
  exists r, value o = Ok r /\ (status r = "PASS" <-> any_raised (trace o) = false).
Proof.
  intros Hd Ha Hact Htime Ho Hz [He|(e & He & Ht & Hv)].
  - unfold execute_test, new_result, run_test, test_body, test_failed.
    rewrite Ha, He. cbn [run_actions run_verifications].
    to_bind. unfold_prog. rewrite Hd, Hact. cbn. unfold dict_get.
    rewrite Htime. cbn. rewrite Ho, Hz. cbn.
    repeat (explore_step; cbn); eexists; (split; [reflexivity|]); cbn; by split.
  - unfold execute_test, new_result, run_test, test_body, test_failed.
    rewrite Ha, He. cbn [run_actions run_verifications].
    to_bind. unfold_prog. rewrite Hd, Hact, Ht, Hv. cbn. unfold dict_get.
    rewrite Htime. cbn. rewrite Ho, Hz. cbn.
    repeat (explore_step; cbn); rewrite ?substring_of_empty; cbn;
      repeat (explore_step; cbn);
      eexists; (split; [reflexivity|]); cbn;
      try match goal with
          | Hb : negb (substring_of "" _) = true |- _ =>
              by rewrite substring_of_empty in Hb
          end;
      by split.
Qed.

(** X20.  The regression tests [main] generates only check that the page can
    be reached: its page has the empty string as expected title and no
    critical elements, so on an executor with a driver each of the two tests
    passes exactly when no delegated call raises, whatever the page shows. *)
Theorem main_regression_checks_only_loading (self : t) (d : drv)
    (user_url : string) (tests : list TestCase) (tc : TestCase) (w : W) :
  driver self = Some d ->
  RegressionGenerator.generate_regression_tests (Main.pages_config user_url)
    = Ok tests ->
  tc ∈ tests ->
  let o := run h (execute_test self tc) w in
  exists r, value o = Ok r /\ (status r = "PASS" <-> any_raised (trace o) = false).
Proof.
  intros Hd Hgen Hin.
  assert (RegressionGenerator.generate_regression_tests
            (Main.pages_config user_url)
          = Ok [ {| name := "test_page_load_user-page";
                    url := VStr user_url;
                    actions := [ {[ "action" := VStr "wait"; "time" := VInt 2 ]} ];
                    expected_results :=
                      [ {[ "type" := VStr "title_contains"; "value" := VStr "" ]} ];
                    test_type := "regression";
                    priority := "medium";
                    tags := Some ["page_load"; "regression"] |};
                 {| name := "test_critical_elements_user-page";
                    url := VStr user_url;
                    actions := [ {[ "action" := VStr "wait"; "time" := VInt 1 ]} ];
                    expected_results := [];
                    test_type := "regression";
                    priority := "medium";
                    tags := Some ["elements"; "regression"] |} ]) as E
    by (vm_compute; reflexivity).
  rewrite E in Hgen. injection Hgen as <-.
  apply elem_of_cons in Hin as [->|Hin];
    [|apply elem_of_cons in Hin as [->|Hin]; [|by apply elem_of_nil in Hin]].
  - eapply (wait_then_title self d _ _ 2%Z); [done|reflexivity|reflexivity..|].
    right. eexists. split; [reflexivity|]. by split.
  - eapply (wait_then_title self d _ _ 1%Z); [done|reflexivity|reflexivity..|].
    by left.
Qed.

(** The arguments [setup_driver] passes to Chrome. *)
Definition chrome_arguments (self : t) : list string :=
  (if headless self then ["--headless"] else []) ++
  ["--no-sandbox"; "--disable-dev-shm-usage"; "--window-size=1920,1080"].

Lemma suite_loop_calls (self : t) : forall (tcs : list TestCase)
    (acc stored : list TestResult) (w : W),
  exists rs w' tr,
    run h (suite_loop (mk (timeout self) (driver self) (headless self) stored)
             acc tcs) w
    = Outcome (Ok (mk (timeout self) (driver self) (headless self) (stored ++ rs),
                   acc ++ rs)) w' tr /\
    forallb in_session tr = true /\
    length rs = length tcs.
Proof.
  induction tcs as [|tc tcs IH]; intros acc stored w.
  - exists [], w, []. by rewrite !app_nil_r.
  - cbn [suite_loop]. to_bind. rewrite run_bind.
    destruct (execute_test_detail h
                (mk (timeout self) (driver self) (headless self) stored) tc w)
      as (start_time & stamp & now & r & w1 & tr0 & -> & Hin & _).
    unfold and_then; cbn [value world trace bind run].
    destruct (on_sys h (Sleep 1) w1) as [[] w2].
    unfold append_result; cbn [timeout driver headless results].
    destruct (IH (acc ++ [set_execution_time (now - start_time) r])
                 (stored ++ [set_execution_time (now - start_time) r]) w2)
      as (rs & w3 & tr3 & -> & Hin3 & Hlen).
    cbn [logged value world trace].
    eexists (_ :: rs), w3, _. split; [by rewrite <- !app_assoc|].
    split; [|by rewrite length_cons, Hlen].
    rewrite forallb_app. cbn [forallb in_session andb app].
    by rewrite forallb_app, Hin, Hin3.
Qed.

(** A run of [execute_test_suite], read off its trace. *)
Lemma execute_test_suite_detail (self : t) (tcs : list TestCase) (w : W) :
  let o := run h (execute_test_suite self tcs) w in
  (exists e, value o = Raised e /\
     trace o = [EvCall (Chrome (chrome_arguments self)) (Raised e)]) \/
  (exists d e, value o = Raised e /\
     trace o = [EvCall (Chrome (chrome_arguments self)) (Ok d);
                EvCall (ImplicitlyWait d (timeout self)) (Raised e)]) \/
  (exists d body q rs,
     trace o = EvCall (Chrome (chrome_arguments self)) (Ok d)
               :: EvCall (ImplicitlyWait d (timeout self)) (Ok ())
               :: body ++ [EvCall (Quit d) q] /\
     forallb in_session body = true /\
     length rs = length tcs /\
     value o = match q with
               | Ok _ => Ok (mk (timeout self) (Some d) (headless self)
                               (results self ++ rs), rs)
               | Raised e => Raised e
               end).
Proof.
  unfold execute_test_suite, setup_driver, call, chrome_arguments.
  to_bind. cbn [bind run].
  destruct (on_call h (Chrome _) w) as [[d|e] w1]; cbn [bind run logged value trace];
    [|left; by exists e].
  destruct (on_call h (ImplicitlyWait _ _) w1) as [[[]|e] w2];
    cbn [bind run logged value trace]; [|right; left; by exists d, e].
  right; right. rewrite run_try_finally.
  destruct (suite_loop_calls (set_driver d self) tcs [] (results self) w2)
    as (rs & w3 & tr3 & Hrun & Hin & Hlen).
  unfold set_driver in *. cbn [timeout driver headless results] in *.
  rewrite Hrun. unfold and_then, quit_driver, call.
  cbn [value world trace driver bind run].
  destruct (on_call h (Quit d) w3) as [q w4]. exists d, tr3, q, rs.
  destruct q as [[]|e]; cbn [bind run logged value trace]; by rewrite ?app_nil_r.
Qed.

(** X21.  The browser session of a suite: if Chrome cannot be started nothing
    else happens; if [implicitly_wait] raises, the exception leaves
    [execute_test_suite] with the browser started and never quit; otherwise
    the tests run without starting or ending a session, and [quit] is called
    exactly once, last, on the driver that was started; if [quit] raises, the
    results are lost to the caller, and if it returns there is one result for
    each test case. *)
Theorem browser_is_quit_once (self : t) (tcs : list TestCase) (w : W) :
  let o := run h (execute_test_suite self tcs) w in
  (exists e, value o = Raised e /\
     trace o = [EvCall (Chrome (chrome_arguments self)) (Raised e)]) \/
  (exists d e, value o = Raised e /\
     trace o = [EvCall (Chrome (chrome_arguments self)) (Ok d);
                EvCall (ImplicitlyWait d (timeout self)) (Raised e)]) \/
  (exists d body q,
     trace o = EvCall (Chrome (chrome_arguments self)) (Ok d)
               :: EvCall (ImplicitlyWait d (timeout self)) (Ok ())
               :: body ++ [EvCall (Quit d) q] /\
     forallb in_session body = true /\
     match q with
     | Ok _ => exists self' rs,
         value o = Ok (self', rs) /\ driver self' = Some d /\
         length rs = length tcs
     | Raised e => value o = Raised e
     end).
Proof.
  destruct (execute_test_suite_detail self tcs w)
    as [?|[?|(d & body & q & rs & Htr & Hin & Hlen & Hv)]]; [by left|by right; left|].
  right; right. exists d, body, q. split_and!; [done|done|].
  destruct q as [[]|e]; [|done]. by eexists _, rs.
Qed.

(** X22.  The executor keeps every result it has produced: after two suites
    run one after the other on the same executor, [self.results] holds the
    results it had, then those of the first run, then those of the second,
    while each call returns only its own results, one for each test case. *)
Theorem results_accumulate (self self1 self2 : t) (tcs1 tcs2 : list TestCase)
    (rs1 rs2 : list TestResult) (w w1 : W) :
  value (run h (execute_test_suite self tcs1) w) = Ok (self1, rs1) ->
  value (run h (execute_test_suite self1 tcs2) w1) = Ok (self2, rs2) ->
  results self2 = results self ++ rs1 ++ rs2 /\
  length rs1 = length tcs1 /\ length rs2 = length tcs2.
Proof.
  intros H1 H2.
  destruct (execute_test_suite_detail self tcs1 w)
    as [(e & He & _)|[(d & e & He & _)|(d & body & q & rs & _ & _ & Hlen & Hv)]];
    cbn zeta in *; [congruence|congruence|].
  destruct q as [[]|e]; [|congruence].
  rewrite H1 in Hv. injection Hv as -> ->.
  destruct (execute_test_suite_detail
              (mk (timeout self) (Some d) (headless self) (results self ++ rs))
              tcs2 w1)
    as [(e & He & _)|[(d' & e & He & _)|(d' & body' & q & rs' & _ & _ & Hlen' & Hv)]];
    cbn zeta in *; [congruence|congruence|].
  destruct q as [[]|e]; [|congruence].
  rewrite H2 in Hv. injection Hv as -> ->.
  cbn [results]. by rewrite <- app_assoc.
Qed.

End Facts.

Lemma wait_only_sleeps_witness :
  let o := run cooperative
             (@execute_action sample_repr ready
                {[ "action" := VStr "wait"; "time" := VInt 2 ]}) tt in
  forallb (fun ev => negb (is_call ev)) (trace o) = true /\
  value o = Ok true /\ trace o = [EvSys (Sleep 2) ()].
Proof.
  assert (({[ "action" := VStr "wait"; "time" := VInt 2 ]} : gmap string pyval)
            !! "action" = Some (VStr "wait")) as Ha by reflexivity.
  destruct (@wait_only_sleeps sample_repr unit cooperative ready _ tt Ha)
    as (Hc & _ & Hz).
  split; [exact Hc|]. apply (Hz 2%Z); [reflexivity|lia].
Defined.

(** A test that only opens a page. *)
Definition bare_test : TestCase :=
  {| name := "test_open_home";
     url := VStr "http://localhost/";
     actions := [];
     expected_results := [];
     test_type := "functional";
     priority := "medium";
     tags := None |}.

Lemma empty_test_passes_iff_page_loads_witness :
  exists r,
    value (run cooperative (@execute_test sample_repr posix ready bare_test) tt)
      = Ok r /\
    status r = "PASS".
Proof.
  exact (@empty_test_passes_iff_page_loads sample_repr posix unit cooperative
           ready bare_test 0%nat tt eq_refl eq_refl eq_refl).
Defined.

Lemma empty_needle_always_matches_witness :
  value (run cooperative
           (@verify_result sample_repr ready
              {[ "type" := VStr "url_contains"; "value" := VStr "" ]}) tt)
  = Ok true.
Proof.
  exact (@empty_needle_always_matches sample_repr unit cooperative ready
           {[ "type" := VStr "url_contains"; "value" := VStr "" ]} 0%nat tt
           eq_refl eq_refl (or_introl eq_refl)).
Defined.

(** Two suites run one after the other on the same executor. *)
Definition after_first : t * list TestResult :=
  Eval vm_compute in
  match value (run cooperative
                 (@execute_test_suite sample_repr posix (init true 10)
                    [page_load_test]) tt) with
  | Ok out => out
  | Raised _ => (init true 10, [])
  end.

Definition after_second : t * list TestResult :=
  Eval vm_compute in
  match value (run cooperative
                 (@execute_test_suite sample_repr posix after_first.1
                    [banner_gone_test; bare_test]) tt) with
  | Ok out => out
  | Raised _ => (init true 10, [])
  end.

Lemma results_accumulate_witness :
  results after_second.1 = after_first.2 ++ after_second.2 /\
  length after_first.2 = 1%nat /\ length after_second.2 = 2%nat.
Proof.
  assert (value (run cooperative
                   (@execute_test_suite sample_repr posix (init true 10)
                      [page_load_test]) tt)
          = Ok (after_first.1, after_first.2)) as H1 by (vm_compute; reflexivity).
  assert (value (run cooperative
                   (@execute_test_suite sample_repr posix after_first.1
                      [banner_gone_test; bare_test]) tt)
          = Ok (after_second.1, after_second.2)) as H2 by (vm_compute; reflexivity).
  exact (@results_accumulate sample_repr posix unit cooperative _ _ _ _ _ _ _
           tt tt H1 H2).
Defined.

(** The regression tests [main] generates for a local page. *)
Definition main_tests : list TestCase :=
  Eval vm_compute in
  match @RegressionGenerator.generate_regression_tests sample_repr
          (Main.pages_config "http://localhost/") with
  | Ok tests => tests
  | Raised _ => []
  end.

Lemma main_regression_checks_only_loading_witness :
  Forall (fun tc =>
            let o := run cooperative
                       (@execute_test sample_repr posix ready tc) tt in
            exists r, value o = Ok r /\
                      (status r = "PASS" <-> any_raised (trace o) = false))
         main_tests.
Proof.
  apply Forall_forall. intros tc Hin.
  apply (@main_regression_checks_only_loading sample_repr posix unit cooperative
           ready 0%nat "http://localhost/" main_tests tc);
    [reflexivity|vm_compute; reflexivity|exact Hin].
Defined.

End SessionFacts.

(** ** More on the summary, and on the web front end *)
Module MoreReportFacts.
Import TestExecutor ReportGenerator.

Lemma count_status_le (s : string) (results : list TestResult) :
  (count_status s results <= length results)%nat.
Proof. apply length_filter. Qed.

Lemma pass_fail_le (results : list TestResult) :
  (count_status "PASS" results + count_status "FAIL" results
   <= length results)%nat.
Proof.
  unfold count_status. induction results as [|r rs IH]; [done|].
  rewrite !filter_cons.
  destruct (decide (status r = "PASS")) as [E|]; [rewrite E|];
    repeat case_decide; simpl in *; try done; lia.
Qed.

Lemma pass_fail_all (results : list TestResult) :
  Forall (fun r => status r = "PASS" \/ status r = "FAIL") results ->
  (count_status "PASS" results + count_status "FAIL" results
   = length results)%nat.
Proof.
  unfold count_status. induction 1 as [|r rs [E|E] _ IH]; [done|..];
    rewrite !filter_cons, E; repeat case_decide; simpl in *; try done; lia.
Qed.

Section Summary.
Context `{FloatSum}.

(** X23.  The summary is consistent.  For a list that is not empty,
    passed_tests plus failed_tests is at most total_tests, and equal to it
    when every status is PASS or FAIL (a result with another status is counted
    in neither); pass_rate lies between 0 and 100; it is 100 when every result
    passed, and for a list of at most 2^53 results only then. *)
Theorem summary_is_consistent (results : list TestResult) :
  results <> [] ->
  let stats := generate_summary_stats results in
  let total := Z.of_nat (length results) in
  exists passed failed rate,
    stats !! "passed_tests" = Some (VInt passed) /\
    stats !! "failed_tests" = Some (VInt failed) /\
    stats !! "pass_rate" = Some (VFloat rate) /\
    (0 <= passed)%Z /\ (0 <= failed)%Z /\ (passed + failed <= total)%Z /\
    (Forall (fun r => status r = "PASS" \/ status r = "FAIL") results ->
     (passed + failed)%Z = total) /\
    (0 <= rate)%Q /\ (rate <= 100)%Q /\
    (passed = total -> (rate == 100)%Q) /\
    ((total <= 2 ^ 53)%Z -> (rate == 100)%Q -> passed = total).
Proof.
  intros Hne. destruct results as [|r rs]; [done|]. cbn zeta.
  unfold generate_summary_stats.
  pose proof (count_status_le "PASS" (r :: rs)) as Hle.
  assert (0 < length (r :: rs))%nat as Hpos by (simpl; lia).
  eexists _, _, _. split_and!; try by simplify_map_eq.
  - lia.
  - lia.
  - pose proof (pass_fail_le (r :: rs)). lia.
  - intros Hall. pose proof (pass_fail_all (r :: rs) Hall). lia.
  - by apply ReportFacts.percentage_bounds.
  - by apply ReportFacts.percentage_bounds.
  - intros Heq. apply Nat2Z.inj in Heq. rewrite Heq.
    by rewrite ReportFacts.percentage_all.
  - intros Hsmall Hrate. f_equal.
    destruct (decide (count_status "PASS" (r :: rs) = length (r :: rs)))
      as [|Hne']; [done|].
    pose proof (ReportFacts.percentage_lt (count_status "PASS" (r :: rs))
                  (length (r :: rs)) ltac:(lia) Hsmall) as Hlt.
    rewrite Hrate in Hlt. by apply Qlt_irrefl in Hlt.
Qed.

End Summary.

Lemma summary_is_consistent_witness :
  let stats := @generate_summary_stats ReportFacts.naive_sum
                 ReportFacts.sample_results in
  exists passed failed rate,
    stats !! "passed_tests" = Some (VInt passed) /\
    stats !! "failed_tests" = Some (VInt failed) /\
    stats !! "pass_rate" = Some (VFloat rate) /\
    (0 <= passed)%Z /\ (0 <= failed)%Z /\ (passed + failed <= 3)%Z /\
    (Forall (fun r => status r = "PASS" \/ status r = "FAIL")
       ReportFacts.sample_results ->
     (passed + failed)%Z = 3%Z) /\
    (0 <= rate)%Q /\ (rate <= 100)%Q /\
    (passed = 3%Z -> (rate == 100)%Q) /\
    ((3 <= 2 ^ 53)%Z -> (rate == 100)%Q -> passed = 3%Z).
Proof.
  apply (@summary_is_consistent ReportFacts.naive_sum ReportFacts.sample_results).
  discriminate.
Defined.

(** Some bound is needed: with one failure among 2^55 + 1 results the
    quotient rounds to 1 and the rate is 100. *)
Example rate_of_a_huge_suite :
  percentage (Z.to_nat (2 ^ 55)) (Z.to_nat (2 ^ 55 + 1)) = 100%Q.
Proof.
  unfold percentage, of_len. rewrite !Z2Nat.id by lia. by vm_compute.
Qed.

Section Pipeline.
Context `{Repr} `{OsPath} `{FloatSum} {W : Type} (h : handler W).

(** X24.  The summary of a suite adds up: when [execute_test_suite] returns
    the results of a suite that is not empty, as [main] passes them to
    [generate_summary_stats], total_tests is the number of test cases and
    passed_tests plus failed_tests equals it. *)
Theorem suite_summary_adds_up (self self' : t) (tcs : list TestCase)
    (rs : list TestResult) (w : W) :
  tcs <> [] ->
  value (run h (execute_test_suite self tcs) w) = Ok (self', rs) ->
  let stats := generate_summary_stats rs in
  let total := Z.of_nat (length tcs) in
  exists passed failed,
    stats !! "total_tests" = Some (VInt total) /\
    stats !! "passed_tests" = Some (VInt passed) /\
    stats !! "failed_tests" = Some (VInt failed) /\
    (passed + failed)%Z = total.
Proof.
  intros Hne Hrun.
  pose proof (ExecutorFacts.execute_test_suite_spec h self tcs w) as Hspec.
  cbn zeta in Hspec. rewrite Hrun in Hspec. destruct Hspec as [Hrs _].
  pose proof (Forall2_length _ _ _ Hrs) as Hlen.
  assert (Forall (fun r => status r = "PASS" \/ status r = "FAIL") rs) as Hall.
  { clear -Hrs. induction Hrs as [|r tc rs' tcs' [_ Hs] _ IH]; by constructor. }
  cbn zeta. destruct rs as [|r rs]; [by destruct tcs|].
  unfold generate_summary_stats.
  eexists _, _. split_and!; try by simplify_map_eq.
  - rewrite <- Hlen. by simplify_map_eq.
  - pose proof (pass_fail_all (r :: rs) Hall). lia.
Qed.

End Pipeline.

Lemma suite_summary_adds_up_witness :
  let stats := @generate_summary_stats ReportFacts.naive_sum
                 SessionFacts.after_second.2 in
  exists passed failed,
    stats !! "total_tests" = Some (VInt 2) /\
    stats !! "passed_tests" = Some (VInt passed) /\
    stats !! "failed_tests" = Some (VInt failed) /\
    (passed + failed)%Z = 2%Z.
Proof.
  apply (@suite_summary_adds_up ExecutorFacts.sample_repr ExecutorFacts.posix
           ReportFacts.naive_sum unit ExecutorFacts.cooperative
           SessionFacts.after_first.1 SessionFacts.after_second.1
           [ExecutorFacts.banner_gone_test; SessionFacts.bare_test]
           SessionFacts.after_second.2 tt);
    [discriminate|vm_compute; reflexivity].
Defined.

End MoreReportFacts.

Module MoreWebFacts.
Import WebTester.

(** X25.  A POST without a "url" field is refused before anything is done:
    the view raises the key error of the form lookup, and no file is written
    and no script is run. *)
Theorem post_without_url `{OsPath} {W : Type} (h : handler W)
    (form : gmap string string) (w : W) :
  form !! "url" = None ->
  let o := run h (index "POST" form) w in
  (exists msg, value o = Raised (Exn BadRequestKeyError msg)) /\
  trace o = [] /\ world o = w.
Proof.
  intros Hu. cbn zeta. WebFacts.unfold_view. rewrite Hu.
  change (String.eqb "POST" "POST") with true. cbn [bind run value trace world].
  split_and!; [by eexists|done|done].
Qed.

Lemma post_without_url_witness :
  let o := run ExecutorFacts.cooperative
             (@index ExecutorFacts.posix "POST" {[ "test_type" := "form" ]}) tt in
  (exists msg, value o = Raised (Exn BadRequestKeyError msg)) /\
  trace o = [] /\ world o = tt.
Proof.
  apply (@post_without_url ExecutorFacts.posix unit ExecutorFacts.cooperative
           {[ "test_type" := "form" ]} tt).
  reflexivity.
Defined.

End MoreWebFacts.
